(** * WyvernCore: the layered key-value storage (internal/data.ts)

    A shallow embedding of the storage core of WyvernCore: the key/path
    normaliser, the in-memory store [CacheStorage], the file-system store
    [FileStorage], their composition [DualStorage], and the derived
    operations of [SyncStorage] and [AsyncStorage]; and, around it, of the
    action managers (internal/action.ts), the timer (internal/timer.ts)
    and the environment of the client (index.ts).

    Modelling choices, stated once:
    - JavaScript values are the universe [value]: the JSON-like data,
      [undefined] and [NaN], and the big integers and symbols, on which
      [JSON.stringify] and the template literal throw.  Numbers are the
      integers plus [NaN]; a [VNum n] is printed as JavaScript prints it
      when [n] is a safe integer ([safe_numbers]).  Arrays and plain
      objects are modelled by their content, so an object is a finite
      tree: cyclic objects, which [JSON.stringify] rejects with the
      [TypeError] it has for a big integer, are not in the universe.
    - Strings are sequences of 8-bit characters.
    - A request settings object has optional fields, as the TypeScript
      interface has: an object literal such as [{ deny_write: true }]
      leaves the other fields [undefined].
    - Promises run to completion one after the other (one logical thread);
      a rejected promise is an outcome [Throw].
    - The file system is a tree of regular files and directories below the
      working directory of the process, without permissions or links,
      names being compared exactly.  A path with a [..] component is
      refused; the statement that tells the files of two keys apart is
      about paths without one ([stays_below]).
    - [JSON.stringify] and [JSON.parse] are parameters of the stores
      (record [JSONCodec]): the general statements hold for any codec, and
      the module [JSON] gives one on the value universe for running the
      stores on concrete data.
    - The bot, discord.js and the logger are parameters of the managers
      (class [Host]): the statements hold for any of them.  The callbacks
      are any type of functions with any behaviour: calling one runs it
      up to the promise it returns, or throws, and both the call and the
      promise act on the whole manager, registry included. *)

From Stdlib Require Import String Ascii List Bool ZArith Lia Arith.
From Stdlib Require Import DecimalString.
Import ListNotations.
Local Open Scope list_scope.
Local Open Scope string_scope.

Set Implicit Arguments.
Set Warnings "-register-all".

(* ================================================================== *)
(** ** JavaScript strings *)
(* ================================================================== *)

Module JsString.

(** [s.startsWith(p)] *)
Definition startsWith (s p : string) : bool := String.prefix p s.

Fixpoint rev_onto (s acc : string) : string :=
  match s with
  | EmptyString => acc
  | String c s' => rev_onto s' (String c acc)
  end.

Definition rev (s : string) : string := rev_onto s EmptyString.

(** [s.endsWith(p)] *)
Definition endsWith (s p : string) : bool :=
  let n := String.length s in
  let m := String.length p in
  if Nat.leb m n then String.eqb (String.substring (n - m) m s) p else false.

(** [s.slice(1)] *)
Definition slice1 (s : string) : string :=
  match s with
  | EmptyString => EmptyString
  | String _ s' => s'
  end.

(** [s.replace(/\\/g, "/")]: every backslash becomes a slash. *)
Fixpoint replace_backslashes (s : string) : string :=
  match s with
  | EmptyString => EmptyString
  | String c s' =>
      String (if Ascii.eqb c "\"%char then "/"%char else c)
             (replace_backslashes s')
  end.

(** [s.lastIndexOf("/")], [-1] when there is none. *)
Fixpoint lastIndexOf_from (c : ascii) (s : string) (i : Z) (found : Z) : Z :=
  match s with
  | EmptyString => found
  | String d s' =>
      lastIndexOf_from c s' (i + 1) (if Ascii.eqb d c then i else found)
  end.

Definition lastIndexOf (s : string) (c : ascii) : Z :=
  lastIndexOf_from c s 0 (-1).

(** [s.slice(0, e)]: a negative [e] counts from the end. *)
Definition slice0 (s : string) (e : Z) : string :=
  let len := Z.of_nat (String.length s) in
  let e' := if (e <? 0)%Z then Z.max 0 (len + e) else Z.min e len in
  String.substring 0 (Z.to_nat e') s.

(** [s.split(c)] for a one-character separator: never empty. *)
Fixpoint split_acc (c : ascii) (s : string) (cur : string) : list string :=
  match s with
  | EmptyString => [rev cur]
  | String d s' =>
      if Ascii.eqb d c then rev cur :: split_acc c s' EmptyString
      else split_acc c s' (String d cur)
  end.

Definition split (s : string) (c : ascii) : list string :=
  split_acc c s EmptyString.

(** [s.includes(c)] for a one-character [c]. *)
Fixpoint includes (s : string) (c : ascii) : bool :=
  match s with
  | EmptyString => false
  | String d s' => Ascii.eqb d c || includes s' c
  end.

End JsString.

(* ================================================================== *)
(** ** JavaScript values *)
(* ================================================================== *)

Inductive value : Type :=
| VUndefined
| VNull
| VBool (b : bool)
| VNum (n : Z)
| VNaN
| VStr (s : string)
| VArr (items : list value)
| VObj (fields : list (string * value))
| VBigInt (n : Z)
| VSymbol (id : nat).

(** [!!v] *)
Definition truthy (v : value) : bool :=
  match v with
  | VUndefined | VNull | VNaN => false
  | VBool b => b
  | VNum n => negb (Z.eqb n 0)
  | VStr s => negb (String.eqb s "")
  | VArr _ | VObj _ => true
  | VBigInt n => negb (Z.eqb n 0)
  | VSymbol _ => true
  end.

(** Structural comparison of two values of the universe. *)
Fixpoint value_eqb (a b : value) {struct a} : bool :=
  match a, b with
  | VUndefined, VUndefined => true
  | VNull, VNull => true
  | VBool x, VBool y => Bool.eqb x y
  | VNum x, VNum y => Z.eqb x y
  | VNaN, VNaN => true
  | VStr x, VStr y => String.eqb x y
  | VArr xs, VArr ys =>
      (fix items (xs ys : list value) {struct xs} : bool :=
         match xs, ys with
         | [], [] => true
         | x :: xs', y :: ys' => value_eqb x y && items xs' ys'
         | _, _ => false
         end) xs ys
  | VObj fs, VObj gs =>
      (fix fields (fs gs : list (string * value)) {struct fs} : bool :=
         match fs, gs with
         | [], [] => true
         | (k, x) :: fs', (l, y) :: gs' =>
             String.eqb k l && value_eqb x y && fields fs' gs'
         | _, _ => false
         end) fs gs
  | VBigInt x, VBigInt y => Z.eqb x y
  | VSymbol x, VSymbol y => Nat.eqb x y
  | _, _ => false
  end.

(** [a === b].  [NaN] differs from itself.  An array or object is compared
    by reference; the storage classes only ever compare an object with the
    reference they were just handed, and a value of the model stands for
    one reference, so equal content is the same object here. *)
Definition strict_equals (a b : value) : bool :=
  match a, b with
  | VNaN, _ | _, VNaN => false
  | _, _ => value_eqb a b
  end.

(** [a ?? b] *)
Definition nullish_coalesce (a b : value) : value :=
  match a with
  | VUndefined | VNull => b
  | _ => a
  end.

(** Decimal digits of an integer, as [Number.prototype.toString] prints
    an integer in the safe range. *)
Definition string_of_Z (n : Z) : string := NilZero.string_of_int (Z.to_int n).



(** [`${v}`]: string conversion, [None] when it throws a [TypeError], as
    it does for a symbol.  An array joins its items with commas, [null]
    and [undefined] items giving the empty string, and throws when an item
    does; a plain object gives ["[object Object]"]; a big integer gives its
    digits. *)
Fixpoint to_string (v : value) : option string :=
  match v with
  | VUndefined => Some "undefined"
  | VNull => Some "null"
  | VBool true => Some "true"
  | VBool false => Some "false"
  | VNum n => Some (string_of_Z n)
  | VNaN => Some "NaN"
  | VStr s => Some s
  | VArr items =>
      (fix join (l : list value) : option string :=
         match l with
         | [] => Some ""
         | x :: rest =>
             match (match x with
                    | VUndefined | VNull => Some ""
                    | _ => to_string x
                    end) with
             | None => None
             | Some first =>
                 match rest with
                 | [] => Some first
                 | _ :: _ =>
                     match join rest with
                     | Some others => Some (first ++ "," ++ others)
                     | None => None
                     end
                 end
             end
         end) items
  | VObj _ => Some "[object Object]"
  | VBigInt n => Some (string_of_Z n)
  | VSymbol _ => None
  end.

(* ================================================================== *)
(** ** Request settings *)
(* ================================================================== *)

(** [interface RequestSettings]: every field is optional. *)
Record RequestSettings : Type := {
  deny_read : option bool;
  deny_write : option bool;
  data_type : option string;
  ignore_cache : option bool;
  ignore_files : option bool
}.

Definition DEFAULT_DATA_ROOT : string := "data".

Definition DEFAULT_REQUEST_SETTINGS : RequestSettings := {|
  deny_read := Some false;
  deny_write := Some false;
  data_type := Some "json";
  ignore_cache := Some false;
  ignore_files := Some false
|}.

(** Truthiness of an optional boolean field, as in [if (settings.f)]. *)
Definition flag (f : option bool) : bool :=
  match f with
  | Some b => b
  | None => false
  end.

(** [settings.f ?? false] *)
Definition or_false (f : option bool) : bool :=
  match f with
  | Some b => b
  | None => false
  end.

(** [settings.data_type === "json"] *)
Definition is_json (s : RequestSettings) : bool :=
  match data_type s with
  | Some t => String.eqb t "json"
  | None => false
  end.

(* ================================================================== *)
(** ** Key/path normaliser *)
(* ================================================================== *)

(** [__into_dir_path(raw, root)] *)
Definition __into_dir_path (raw : string) (root : string) : string :=
  let raw := JsString.replace_backslashes raw in
  let raw := if JsString.startsWith raw "/" then JsString.slice1 raw else raw in
  let raw := if negb (JsString.endsWith raw "/") then raw ++ "/" else raw in
  root ++ "/" ++ raw.

(** [__into_file_path(raw, ext, root)]: an [undefined] extension takes the
    default parameter value, [DEFAULT_REQUEST_SETTINGS.data_type]. *)
Definition __into_file_path (raw : string) (ext : option string) (root : string)
  : string :=
  let ext := match ext with
             | Some e => e
             | None => "json"
             end in
  let raw := JsString.replace_backslashes raw in
  let raw := if JsString.startsWith raw "/" then JsString.slice1 raw else raw in
  let raw := if negb (JsString.endsWith raw ("." ++ ext)) then raw ++ "." ++ ext
             else raw in
  root ++ "/" ++ raw.

(* ================================================================== *)
(** ** Computations: state, allocation and exceptions *)
(* ================================================================== *)

(** What a rejected promise or a [throw] carries. *)
Inductive exn : Type :=
| IOError          (* a rejected fs/promises call *)
| TypeError        (* an argument of the wrong type *)
| SyntaxError      (* JSON.parse on malformed text *)
| Raised (reason : value).

Inductive Outcome (A : Type) : Type :=
| Ok (a : A)
| Throw (e : exn).

Arguments Ok {A} a.
Arguments Throw {A} e.

(** The state a computation runs in: the store of the backend and the
    number of key-value tuples (two-element arrays) allocated so far, which
    gives each new tuple its identity. *)
Record World (S : Type) : Type := mkWorld {
  allocated : nat;
  store : S
}.

Arguments mkWorld {S} allocated store.

(** A computation over a store [S] with a result in [A].  The state reached
    is kept when the computation throws. *)
Definition M (S A : Type) : Type := World S -> Outcome A * World S.

Definition ret {S A} (a : A) : M S A := fun w => (Ok a, w).

Definition bind {S A B} (m : M S A) (k : A -> M S B) : M S B :=
  fun w =>
    match m w with
    | (Ok a, w') => k a w'
    | (Throw e, w') => (Throw e, w')
    end.

Definition throw {S A} (e : exn) : M S A := fun w => (Throw e, w).

Declare Scope js_scope.
Delimit Scope js_scope with js.
Notation "x <- m ;; k" := (bind m (fun x => k))
  (at level 100, m at next level, right associativity) : js_scope.
Notation "m ;;; k" := (bind m (fun _ => k))
  (at level 100, right associativity) : js_scope.
Local Open Scope js_scope.

(** Run a computation of a component on the component's part of a larger
    store. *)
Definition zoom {S T A} (proj : T -> S) (upd : T -> S -> T) (m : M S A)
  : M T A :=
  fun w =>
    let '(r, w') := m (mkWorld (allocated w) (proj (store w))) in
    (r, mkWorld (allocated w') (upd (store w) (store w'))).

(** *** utility: [autoCatch] *)

(** [type Result<T> = Success<T> | Failure] *)
Inductive Result (T : Type) : Type :=
| Success (content : T)
| Failure (reason : exn).

Arguments Success {T} content.
Arguments Failure {T} reason.

Definition success {T} (r : Result T) : bool :=
  match r with
  | Success _ => true
  | Failure _ => false
  end.

(** [autoCatch(promise)]: awaits the promise and returns its result, or the
    error thrown by the await. *)
Definition autoCatch {S T} (promise : M S T) : M S (Result T) :=
  fun w =>
    match promise w with
    | (Ok content, w') => (Ok (Success content), w')
    | (Throw reason, w') => (Ok (Failure reason), w')
    end.

(** *** Key-value tuples *)

(** A [[string, T]] tuple is an array, so an object with an identity. *)
Record tuple : Type := mkTuple {
  tuple_ref : nat;
  tuple_key : string;
  tuple_val : value
}.

(** The array literal [[k, v]]: a new array. *)
Definition new_tuple {St} (k : string) (v : value) : M St tuple :=
  fun w =>
    (Ok (mkTuple (allocated w) k v), mkWorld (S (allocated w)) (store w)).

(** What a caller observes of a list of tuples. *)
Definition entries_of (l : list tuple) : list (string * value) :=
  map (fun t => (tuple_key t, tuple_val t)) l.

(** [new Set(items)] followed by a spread back into an array: the items in
    order of first occurrence, two array items being the same when they are
    the same reference. *)
Fixpoint Set_of (seen : list nat) (items : list tuple) : list tuple :=
  match items with
  | [] => []
  | t :: rest =>
      if existsb (Nat.eqb (tuple_ref t)) seen then Set_of seen rest
      else t :: Set_of (tuple_ref t :: seen) rest
  end.

(* ================================================================== *)
(** ** [Map<string, unknown>] *)
(* ================================================================== *)

Module JsMap.

(** The entries in insertion order. *)
Definition t : Type := list (string * value).

Definition empty : t := [].

Fixpoint has (m : t) (key : string) : bool :=
  match m with
  | [] => false
  | (k, _) :: m' => if String.eqb k key then true else has m' key
  end.

(** [m.get(key)], [undefined] when there is no entry. *)
Fixpoint get (m : t) (key : string) : value :=
  match m with
  | [] => VUndefined
  | (k, v) :: m' => if String.eqb k key then v else get m' key
  end.

(** [m.set(key, data)]: an existing entry keeps its place. *)
Fixpoint set (m : t) (key : string) (data : value) : t :=
  match m with
  | [] => [(key, data)]
  | (k, v) :: m' =>
      if String.eqb k key then (k, data) :: m'
      else (k, v) :: set m' key data
  end.

(** [m.delete(key)]: the map without the key. *)
Fixpoint delete (m : t) (key : string) : t :=
  match m with
  | [] => []
  | (k, v) :: m' =>
      if String.eqb k key then delete m' key else (k, v) :: delete m' key
  end.

Definition entries (m : t) : list (string * value) := m.

End JsMap.

(* ================================================================== *)
(** ** The file system, as [fs/promises] shows it *)
(* ================================================================== *)

Module FS.

(** A regular file with its text, or a directory with its entries in
    listing order. *)
Inductive node : Type :=
| File (content : string)
| Dir (entries : list (string * node)).

(** The working directory of the process. *)
Definition FileSystem : Type := node.

Definition empty : FileSystem := Dir [].

Fixpoint assoc (es : list (string * node)) (c : string) : option node :=
  match es with
  | [] => None
  | (k, n) :: es' => if String.eqb k c then Some n else assoc es' c
  end.

Fixpoint replace (es : list (string * node)) (c : string) (n' : node)
  : list (string * node) :=
  match es with
  | [] => []
  | (k, n) :: es' =>
      if String.eqb k c then (k, n') :: es' else (k, n) :: replace es' c n'
  end.

Fixpoint remove (es : list (string * node)) (c : string)
  : list (string * node) :=
  match es with
  | [] => []
  | (k, n) :: es' =>
      if String.eqb k c then remove es' c else (k, n) :: remove es' c
  end.

Definition is_dot (c : string) : bool := String.eqb c "" || String.eqb c ".".

(** The components of a relative path, and whether the path has to name
    a directory (it ends in a slash or in a [.] component).  The empty
    path names nothing.  The model stays below the working directory and
    does not follow [..]: a path with a [..] component is refused, where
    Node goes up from the directory reached so far. *)
Definition parse_path (p : string) : option (list string * bool) :=
  let cs := JsString.split p "/" in
  if String.eqb p "" then None
  else if existsb (String.eqb "..") cs then None
  else Some (filter (fun c => negb (is_dot c)) cs, is_dot (last cs "")).

Fixpoint find_node (n : node) (p : list string) {struct p} : option node :=
  match p with
  | [] => Some n
  | c :: rest =>
      match n with
      | File _ => None
      | Dir es =>
          match assoc es c with
          | Some m => find_node m rest
          | None => None
          end
      end
  end.

(** Create or overwrite the regular file at [p]; the parent directory
    has to exist and [p] must not name a directory. *)
Fixpoint write_node (n : node) (p : list string) (data : string)
  {struct p} : option node :=
  match p with
  | [] =>
      match n with
      | File _ => Some (File data)
      | Dir _ => None
      end
  | c :: rest =>
      match n with
      | File _ => None
      | Dir es =>
          match assoc es c with
          | Some m =>
              match write_node m rest data with
              | Some m' => Some (Dir (replace es c m'))
              | None => None
              end
          | None =>
              match rest with
              | [] => Some (Dir (es ++ [(c, File data)])%list)
              | _ :: _ => None
              end
          end
      end
  end.

(** [mkdir -p]: create the missing directories along [p]; fails when a
    component is a regular file. *)
Fixpoint mkdir_node (n : node) (p : list string) {struct p} : option node :=
  match p with
  | [] =>
      match n with
      | File _ => None
      | Dir _ => Some n
      end
  | c :: rest =>
      match n with
      | File _ => None
      | Dir es =>
          match assoc es c with
          | Some m =>
              match mkdir_node m rest with
              | Some m' => Some (Dir (replace es c m'))
              | None => None
              end
          | None =>
              match mkdir_node (Dir []) rest with
              | Some m' => Some (Dir (es ++ [(c, m')])%list)
              | None => None
              end
          end
      end
  end.

(** Remove the regular file at [p]; fails when [p] names nothing or a
    directory. *)
Fixpoint rm_node (n : node) (p : list string) {struct p} : option node :=
  match p with
  | [] => None
  | c :: rest =>
      match n with
      | File _ => None
      | Dir es =>
          match assoc es c with
          | None => None
          | Some m =>
              match rest with
              | [] =>
                  match m with
                  | File _ => Some (Dir (remove es c))
                  | Dir _ => None
                  end
              | _ :: _ =>
                  match rm_node m rest with
                  | Some m' => Some (Dir (replace es c m'))
                  | None => None
                  end
              end
          end
      end
  end.

(** [fs.Dirent] *)
Record Dirent : Type := mkDirent {
  name : string;
  isFile : bool
}.

Definition dirent_of (e : string * node) : Dirent :=
  match e with
  | (k, File _) => mkDirent k true
  | (k, Dir _) => mkDirent k false
  end.

(** [FS.readFile(path, "utf8")] *)
Definition readFile (path : string) : M FileSystem string :=
  fun w =>
    match parse_path path with
    | Some (p, false) =>
        match find_node (store w) p with
        | Some (File content) => (Ok content, w)
        | _ => (Throw IOError, w)
        end
    | _ => (Throw IOError, w)
    end.

(** [FS.writeFile(path, data, "utf8")]; [data] is [None] when the caller
    passes [undefined], which the call rejects. *)
Definition writeFile (path : string) (data : option string)
  : M FileSystem unit :=
  fun w =>
    match data with
    | None => (Throw TypeError, w)
    | Some text =>
        match parse_path path with
        | Some (p, false) =>
            match write_node (store w) p text with
            | Some n' => (Ok tt, mkWorld (allocated w) n')
            | None => (Throw IOError, w)
            end
        | _ => (Throw IOError, w)
        end
    end.

(** [FS.mkdir(path, { recursive: true })] *)
Definition mkdir (path : string) : M FileSystem unit :=
  fun w =>
    match parse_path path with
    | Some (p, _) =>
        match mkdir_node (store w) p with
        | Some n' => (Ok tt, mkWorld (allocated w) n')
        | None => (Throw IOError, w)
        end
    | None => (Throw IOError, w)
    end.

(** [FS.rm(path)] *)
Definition rm (path : string) : M FileSystem unit :=
  fun w =>
    match parse_path path with
    | Some (p, false) =>
        match rm_node (store w) p with
        | Some n' => (Ok tt, mkWorld (allocated w) n')
        | None => (Throw IOError, w)
        end
    | _ => (Throw IOError, w)
    end.

(** [FS.readdir(path, { withFileTypes: true })].  The entries come in the
    order they were made; Node gives them in the order of the operating
    system. *)
Definition readdir (path : string) : M FileSystem (list Dirent) :=
  fun w =>
    match parse_path path with
    | Some (p, _) =>
        match find_node (store w) p with
        | Some (Dir es) => (Ok (map dirent_of es), w)
        | _ => (Throw IOError, w)
        end
    | None => (Throw IOError, w)
    end.

End FS.

(* ================================================================== *)
(** ** The storage interface and its derived operations *)
(* ================================================================== *)

Definition get_store {St} : M St St := fun w => (Ok (store w), w).

Definition put_store {St} (s : St) : M St unit :=
  fun w => (Ok tt, mkWorld (allocated w) s).

(** The five operations every storage class implements ([abstract] in
    [SyncStorage] and [AsyncStorage]).  A call that leaves [settings] out
    is a call with [DEFAULT_REQUEST_SETTINGS], the default value of the
    parameter.  [get] returns [VUndefined] for "no value". *)
Class BaseStorage (St : Type) : Type := {
  pairs : string -> RequestSettings -> M St (list tuple);
  has : string -> RequestSettings -> M St bool;
  get : string -> RequestSettings -> M St value;
  set : string -> value -> RequestSettings -> M St bool;
  del : string -> RequestSettings -> M St bool
}.

(** [type DataPredicate<T>] and [type DataModifier<T>]: the callback gets
    the data and the key, and may use the storage it is run on. *)
Definition DataPredicate (St : Type) : Type := value -> string -> M St bool.
Definition DataModifier (St : Type) : Type := value -> string -> M St value.

(** [type DataAction<T>]: a callback run for its effects. *)
Definition DataAction (St : Type) : Type := value -> string -> M St unit.

Section Loops.

Context {St A B : Type}.

(** [items.map(f)] with the effects of [f] in order. *)
Fixpoint map_M (f : A -> M St B) (items : list A) : M St (list B) :=
  match items with
  | [] => ret []
  | x :: rest =>
      y <- f x;;
      ys <- map_M f rest;;
      ret (y :: ys)
  end.

(** [items.every(f)]: stops at the first [false]. *)
Fixpoint every (f : A -> M St bool) (items : list A) : M St bool :=
  match items with
  | [] => ret true
  | x :: rest =>
      b <- f x;;
      if b then every f rest else ret false
  end.

(** [items.some(f)]: stops at the first [true]. *)
Fixpoint some (f : A -> M St bool) (items : list A) : M St bool :=
  match items with
  | [] => ret false
  | x :: rest =>
      b <- f x;;
      if b then ret true else some f rest
  end.

(** [for (const x of items) result &&= await f(x)]: [f] is only run
    while [result] is true. *)
Fixpoint for_and (f : A -> M St bool) (items : list A) (result : bool)
  : M St bool :=
  match items with
  | [] => ret result
  | x :: rest =>
      result' <- (if result then f x else ret result);;
      for_and f rest result'
  end.

(** [for (const x of items) result ||= await f(x)]: [f] is only run
    while [result] is false. *)
Fixpoint for_or (f : A -> M St bool) (items : list A) (result : bool)
  : M St bool :=
  match items with
  | [] => ret result
  | x :: rest =>
      result' <- (if result then ret result else f x);;
      for_or f rest result'
  end.

End Loops.

(** *** [abstract class SyncStorage] *)

Module SyncStorage.
Section Derived.

Context {St : Type} `{BaseStorage St}.

Definition has_all (keys : list string) (settings : RequestSettings)
  : M St bool :=
  every (fun key => has key settings) keys.

Definition has_any (keys : list string) (settings : RequestSettings)
  : M St bool :=
  some (fun key => has key settings) keys.

Definition get_all (keys : list string) (settings : RequestSettings)
  : M St (list value) :=
  vs <- map_M (fun key => get key settings) keys;;
  ret (map (fun v => v) (filter (fun v => negb (negb (truthy v))) vs)).

Definition set_all (pairs : list (string * value))
  (settings : RequestSettings) : M St bool :=
  every (fun '(key, val) => set key val settings) pairs.

Definition del_all (keys : list string) (settings : RequestSettings)
  : M St bool :=
  every (fun key => del key settings) keys.

Definition assert (key : string) (callback : DataPredicate St)
  (settings : RequestSettings) : M St bool :=
  h <- has key settings;;
  if h then (v <- get key settings;; callback v key) else ret false.

Definition assert_all (keys : list string) (callback : DataPredicate St)
  (settings : RequestSettings) : M St bool :=
  for_and (fun key => assert key callback settings) keys true.

Definition assert_any (keys : list string) (callback : DataPredicate St)
  (settings : RequestSettings) : M St bool :=
  for_or (fun key => assert key callback settings) keys false.

(** The write-back calls [set] with two arguments: its [settings] is the
    default. *)
Definition modify (key : string) (callback : DataModifier St)
  (settings : RequestSettings) : M St bool :=
  h <- has key settings;;
  if h then
    (v <- get key settings;;
     d <- callback v key;;
     set key d DEFAULT_REQUEST_SETTINGS)
  else ret false.

Definition modify_all (keys : list string) (callback : DataModifier St)
  (settings : RequestSettings) : M St bool :=
  for_and (fun key => modify key callback settings) keys true.

Definition keys (dir : string) (settings : RequestSettings)
  : M St (list string) :=
  entries <- pairs dir settings;;
  ret (map tuple_key entries).

Definition values (dir : string) (settings : RequestSettings)
  : M St (list value) :=
  entries <- pairs dir settings;;
  ret (map tuple_val entries).

Definition ensure (key : string) (fallback : value)
  (settings : RequestSettings) : M St value :=
  h <- has key settings;;
  if h then get key settings
  else (set key fallback settings;;; ret fallback).

Definition ensure_all (keys : list string) (fallback : value)
  (settings : RequestSettings) : M St (list value) :=
  map_M (fun key => ensure key fallback settings) keys.

Definition action (key : string) (callback : DataAction St)
  (settings : RequestSettings) : M St unit :=
  h <- has key settings;;
  if h then (v <- get key settings;; callback v key) else ret tt.

Definition action_if (key : string) (callback : DataAction St)
  (predicate : DataPredicate St) (settings : RequestSettings) : M St unit :=
  a <- assert key predicate settings;;
  if a then (v <- get key settings;; callback v key) else ret tt.

Definition modify_if (key : string) (callback : DataModifier St)
  (predicate : DataPredicate St) (settings : RequestSettings) : M St bool :=
  a <- assert key predicate settings;;
  if a then modify key callback settings else ret false.

Definition modify_all_if (keys : list string) (callback : DataModifier St)
  (predicate : DataPredicate St) (settings : RequestSettings) : M St bool :=
  for_and (fun key => modify_if key callback predicate settings) keys true.

End Derived.
End SyncStorage.

(** *** [abstract class AsyncStorage] *)

Module AsyncStorage.
Section Derived.

Context {St : Type} `{BaseStorage St}.

Definition has_all (keys : list string) (settings : RequestSettings)
  : M St bool :=
  for_and (fun key => has key settings) keys true.

Definition has_any (keys : list string) (settings : RequestSettings)
  : M St bool :=
  for_or (fun key => has key settings) keys false.

(** The loop of [get_all], [result] being the array built so far. *)
Fixpoint get_all_loop (keys : list string) (settings : RequestSettings)
  (result : list value) : M St (list value) :=
  match keys with
  | [] => ret result
  | key :: rest =>
      val <- get key settings;;
      get_all_loop rest settings
        (if negb (negb (truthy val)) then (result ++ [val])%list else result)
  end.

Definition get_all (keys : list string) (settings : RequestSettings)
  : M St (list value) :=
  get_all_loop keys settings [].

Definition set_all (pairs : list (string * value))
  (settings : RequestSettings) : M St bool :=
  for_and (fun '(key, val) => set key val settings) pairs true.

Definition del_all (keys : list string) (settings : RequestSettings)
  : M St bool :=
  for_and (fun key => del key settings) keys true.

Definition assert (key : string) (callback : DataPredicate St)
  (settings : RequestSettings) : M St bool :=
  h <- has key settings;;
  if h then (v <- get key settings;; callback v key) else ret false.

Definition assert_all (keys : list string) (callback : DataPredicate St)
  (settings : RequestSettings) : M St bool :=
  for_and (fun key => assert key callback settings) keys true.

Definition assert_any (keys : list string) (callback : DataPredicate St)
  (settings : RequestSettings) : M St bool :=
  for_or (fun key => assert key callback settings) keys false.

(** The write-back calls [set] with two arguments: its [settings] is the
    default. *)
Definition modify (key : string) (callback : DataModifier St)
  (settings : RequestSettings) : M St bool :=
  h <- has key settings;;
  if h then
    (v <- get key settings;;
     d <- callback v key;;
     set key d DEFAULT_REQUEST_SETTINGS)
  else ret false.

Definition modify_all (keys : list string) (callback : DataModifier St)
  (settings : RequestSettings) : M St bool :=
  for_and (fun key => modify key callback settings) keys true.

Definition keys (dir : string) (settings : RequestSettings)
  : M St (list string) :=
  entries <- pairs dir settings;;
  ret (map tuple_key entries).

Definition values (dir : string) (settings : RequestSettings)
  : M St (list value) :=
  entries <- pairs dir settings;;
  ret (map tuple_val entries).

Definition ensure (key : string) (fallback : value)
  (settings : RequestSettings) : M St value :=
  h <- has key settings;;
  if h then get key settings
  else (set key fallback settings;;; ret fallback).

(** The loop of [ensure_all], [result] being the array built so far. *)
Fixpoint ensure_all_loop (keys : list string) (fallback : value)
  (settings : RequestSettings) (result : list value) : M St (list value) :=
  match keys with
  | [] => ret result
  | key :: rest =>
      v <- ensure key fallback settings;;
      ensure_all_loop rest fallback settings (result ++ [v])%list
  end.

Definition ensure_all (keys : list string) (fallback : value)
  (settings : RequestSettings) : M St (list value) :=
  ensure_all_loop keys fallback settings [].

Definition action (key : string) (callback : DataAction St)
  (settings : RequestSettings) : M St unit :=
  h <- has key settings;;
  if h then (v <- get key settings;; callback v key) else ret tt.

Fixpoint action_all (keys : list string) (callback : DataAction St)
  (settings : RequestSettings) : M St unit :=
  match keys with
  | [] => ret tt
  | key :: rest =>
      action key callback settings;;; action_all rest callback settings
  end.

Definition action_if (key : string) (callback : DataAction St)
  (predicate : DataPredicate St) (settings : RequestSettings) : M St unit :=
  a <- assert key predicate settings;;
  if a then (v <- get key settings;; callback v key) else ret tt.

Fixpoint action_all_if (keys : list string) (callback : DataAction St)
  (predicate : DataPredicate St) (settings : RequestSettings) : M St unit :=
  match keys with
  | [] => ret tt
  | key :: rest =>
      action_if key callback predicate settings;;;
      action_all_if rest callback predicate settings
  end.

Definition modify_if (key : string) (callback : DataModifier St)
  (predicate : DataPredicate St) (settings : RequestSettings) : M St bool :=
  a <- assert key predicate settings;;
  if a then modify key callback settings else ret false.

Definition modify_all_if (keys : list string) (callback : DataModifier St)
  (predicate : DataPredicate St) (settings : RequestSettings) : M St bool :=
  for_and (fun key => modify_if key callback predicate settings) keys true.

End Derived.
End AsyncStorage.

(* ================================================================== *)
(** ** [class CacheStorage extends SyncStorage] *)
(* ================================================================== *)

Module CacheStorage.

(** The private field [__storage]. *)
Definition t : Type := JsMap.t.

Definition pairs (dir : string) (settings : RequestSettings)
  : M t (list tuple) :=
  if flag (ignore_cache settings) || flag (deny_read settings) then ret []
  else
    __storage <- get_store;;
    map_M (fun '(k, v) => new_tuple k v)
          (filter (fun '(k, _) => JsString.startsWith k dir)
                  (JsMap.entries __storage)).

Definition has (key : string) (settings : RequestSettings) : M t bool :=
  if flag (ignore_cache settings) then ret false
  else
    __storage <- get_store;;
    ret (JsMap.has __storage key).

Definition get (key : string) (settings : RequestSettings) : M t value :=
  if flag (ignore_cache settings) || flag (deny_read settings)
  then ret VUndefined
  else
    __storage <- get_store;;
    ret (JsMap.get __storage key).

Definition set (key : string) (data : value) (settings : RequestSettings)
  : M t bool :=
  if flag (ignore_cache settings) || flag (deny_write settings)
  then ret false
  else
    __storage <- get_store;;
    put_store (JsMap.set __storage key data);;;
    __storage <- get_store;;
    ret (strict_equals (JsMap.get __storage key) data).

(** [Map.prototype.delete] returns whether an entry was removed. *)
Definition del (key : string) (settings : RequestSettings) : M t bool :=
  if flag (ignore_cache settings) || flag (deny_write settings)
  then ret false
  else
    __storage <- get_store;;
    put_store (JsMap.delete __storage key);;;
    ret (JsMap.has __storage key).

(** [new CacheStorage()] *)
Definition new : t := JsMap.empty.

End CacheStorage.

#[export] Instance CacheStorage_BaseStorage : BaseStorage CacheStorage.t := {|
  pairs := CacheStorage.pairs;
  has := CacheStorage.has;
  get := CacheStorage.get;
  set := CacheStorage.set;
  del := CacheStorage.del
|}.

(* ================================================================== *)
(** ** [JSON] *)
(* ================================================================== *)

(** The two functions of the global [JSON] object the stores call.
    [JSON.stringify(v, null, "\t")] throws [e] when [JSON_stringify_error v]
    is [Some e] (a [TypeError] for a big integer or a cyclic object);
    otherwise it returns [JSON_stringify v], [None] for [undefined].
    [JSON_parse s] is [JSON.parse(s)], [None] when the call throws a
    [SyntaxError]. *)
Record JSONCodec : Type := {
  JSON_stringify : value -> option string;
  JSON_parse : string -> option value;
  JSON_stringify_error : value -> option exn
}.

(* ================================================================== *)
(** ** [class FileStorage extends AsyncStorage] *)
(* ================================================================== *)

Module FileStorage.
Section WithJSON.

Variable JSON : JSONCodec.

(** The store keeps nothing in the process: its state is the disk. *)
Definition t : Type := FS.FileSystem.

Definition has (key : string) (settings : RequestSettings) : M t bool :=
  if flag (ignore_files settings) || flag (deny_read settings) then ret false
  else
    let path := __into_file_path key (data_type settings) DEFAULT_DATA_ROOT in
    result <- autoCatch (FS.readFile path);;
    ret (success result).

Definition get (key : string) (settings : RequestSettings) : M t value :=
  if flag (ignore_files settings) || flag (deny_read settings)
  then ret VUndefined
  else
    let path := __into_file_path key (data_type settings) DEFAULT_DATA_ROOT in
    result <- autoCatch (FS.readFile path);;
    match result with
    | Failure _ => ret VUndefined
    | Success content =>
        if is_json settings then
          match JSON_parse JSON content with
          | Some v => ret v
          | None => throw SyntaxError
          end
        else ret (VStr content)
    end.

(** [settings.data_type === "json" ? JSON.stringify(data, null, "\t") :
    `${data}`]: the text to write, [None] for [undefined].  The expression
    is not inside [autoCatch]: what it throws leaves [set]. *)
Definition raw_of (data : value) (settings : RequestSettings)
  : M t (option string) :=
  if is_json settings then
    match JSON_stringify_error JSON data with
    | Some e => throw e
    | None => ret (JSON_stringify JSON data)
    end
  else
    match to_string data with
    | Some text => ret (Some text)
    | None => throw TypeError
    end.

Definition set (key : string) (data : value) (settings : RequestSettings)
  : M t bool :=
  if flag (ignore_files settings) || flag (deny_write settings)
  then ret false
  else
    let path := __into_file_path key (data_type settings) DEFAULT_DATA_ROOT in
    raw <- raw_of data settings;;
    autoCatch
      (FS.mkdir (JsString.slice0 path (JsString.lastIndexOf path "/")));;;
    result <- autoCatch (FS.writeFile path raw);;
    ret (success result).

Definition del (key : string) (settings : RequestSettings) : M t bool :=
  if flag (ignore_files settings) || flag (deny_write settings)
  then ret false
  else
    let path := __into_file_path key (data_type settings) DEFAULT_DATA_ROOT in
    result <- autoCatch (FS.rm path);;
    ret (success result).

(** The loop of [pairs] over the directory entries, [output] being the
    array built so far. *)
Fixpoint pairs_loop (path : string) (settings : RequestSettings)
  (content : list FS.Dirent) (output : list tuple) : M t (list tuple) :=
  match content with
  | [] => ret output
  | dirent :: rest =>
      if negb (FS.isFile dirent) then pairs_loop path settings rest output
      else
        let key := path ++ FS.name dirent in
        val <- get key settings;;
        entry <- new_tuple key val;;
        pairs_loop path settings rest (output ++ [entry])%list
  end.

Definition pairs (dir : string) (settings : RequestSettings)
  : M t (list tuple) :=
  if flag (ignore_files settings) || flag (deny_read settings) then ret []
  else
    let path := __into_dir_path dir DEFAULT_DATA_ROOT in
    result <- autoCatch (FS.readdir path);;
    match result with
    | Failure _ => ret []
    | Success content => pairs_loop path settings content []
    end.

End WithJSON.
End FileStorage.

#[export] Instance FileStorage_BaseStorage (JSON : JSONCodec)
  : BaseStorage FileStorage.t := {|
  pairs := FileStorage.pairs JSON;
  has := FileStorage.has;
  get := FileStorage.get JSON;
  set := FileStorage.set JSON;
  del := FileStorage.del
|}.

(* ================================================================== *)
(** ** [class DualStorage extends AsyncStorage] *)
(* ================================================================== *)

Module DualStorage.

(** The private [CacheStorage] instance, and the disk the private
    [FileStorage] instance works on. *)
Record t : Type := mk {
  __cache : CacheStorage.t;
  __files : FileStorage.t
}.

(** [this.__cache.m(...)] and [this.__files.m(...)] *)
Definition on_cache {A} (m : M CacheStorage.t A) : M t A :=
  zoom __cache (fun s c => mk c (__files s)) m.

Definition on_files {A} (m : M FileStorage.t A) : M t A :=
  zoom __files (fun s f => mk (__cache s) f) m.

Section WithJSON.

Variable JSON : JSONCodec.

Definition pairs (dir : string) (settings : RequestSettings)
  : M t (list tuple) :=
  cache <- on_cache (CacheStorage.pairs dir settings);;
  files <- on_files (FileStorage.pairs JSON dir settings);;
  ret (Set_of [] (cache ++ files)%list).

Definition has (key : string) (settings : RequestSettings) : M t bool :=
  cache <- on_cache (CacheStorage.has key settings);;
  if cache then ret true else on_files (FileStorage.has key settings).

Definition get (key : string) (settings : RequestSettings) : M t value :=
  cache <- on_cache (CacheStorage.get key settings);;
  files <- (if strict_equals cache VUndefined
            then on_files (FileStorage.get JSON key settings)
            else ret VUndefined);;
  (if strict_equals cache VUndefined && negb (strict_equals files VUndefined)
   then on_cache (CacheStorage.set key files settings);;; ret tt
   else ret tt);;;
  ret (nullish_coalesce cache files).

Definition set (key : string) (data : value) (settings : RequestSettings)
  : M t bool :=
  r <- on_cache (CacheStorage.set key data settings);;
  let cache := r || or_false (ignore_cache settings) in
  r <- on_files (FileStorage.set JSON key data settings);;
  let files := r || or_false (ignore_files settings) in
  ret (cache && files).

Definition del (key : string) (settings : RequestSettings) : M t bool :=
  r <- on_cache (CacheStorage.del key settings);;
  let cache := r || or_false (ignore_cache settings) in
  r <- on_files (FileStorage.del key settings);;
  let files := r || or_false (ignore_files settings) in
  ret (cache && files).

End WithJSON.

(** [new DualStorage()] over the disk [disk]. *)
Definition new (disk : FS.FileSystem) : t := mk CacheStorage.new disk.

End DualStorage.

#[export] Instance DualStorage_BaseStorage (JSON : JSONCodec)
  : BaseStorage DualStorage.t := {|
  pairs := DualStorage.pairs JSON;
  has := DualStorage.has;
  get := DualStorage.get JSON;
  set := DualStorage.set JSON;
  del := DualStorage.del
|}.

(** Run a computation from a state in which no tuple was allocated. *)
Definition run {St A} (m : M St A) (s : St) : Outcome A * St :=
  let '(r, w) := m (mkWorld 0 s) in (r, store w).

(* ================================================================== *)
(** ** A [JSON] for the value universe *)
(* ================================================================== *)

(** [JSON.stringify(v, null, "\t")] and [JSON.parse] on the values of the
    universe, for running the stores on concrete data.  Numbers are
    integers, so [parse] gives up on a fraction or an exponent, and on a
    [\u] escape above 255; an object keeps the members in the order of the
    text, a repeated name included. *)
Module JSON.

(** The double quote. *)
Definition dquote : ascii := "034"%char.

Definition hex_digit (n : nat) : ascii :=
  nth n ["0"; "1"; "2"; "3"; "4"; "5"; "6"; "7"; "8"; "9";
         "a"; "b"; "c"; "d"; "e"; "f"]%char "0"%char.

Definition escape (c : ascii) : string :=
  let n := nat_of_ascii c in
  if Ascii.eqb c dquote then String "\" (String dquote "")
  else if Ascii.eqb c "\"%char then "\\"
  else if Nat.eqb n 8 then "\b"
  else if Nat.eqb n 9 then "\t"
  else if Nat.eqb n 10 then "\n"
  else if Nat.eqb n 12 then "\f"
  else if Nat.eqb n 13 then "\r"
  else if Nat.ltb n 32 then
    "\u00" ++ String (hex_digit (n / 16)) (String (hex_digit (n mod 16)) "")
  else String c "".

Fixpoint escape_all (s : string) : string :=
  match s with
  | EmptyString => ""
  | String c s' => escape c ++ escape_all s'
  end.

Definition quote (s : string) : string :=
  String dquote (escape_all s ++ String dquote "").

Definition newline : string := String (ascii_of_nat 10) "".
Definition tab : string := String (ascii_of_nat 9) "".

Fixpoint join (sep : string) (parts : list string) : string :=
  match parts with
  | [] => ""
  | [x] => x
  | x :: rest => x ++ sep ++ join sep rest
  end.

(** The values [JSON.stringify] has no text for: [undefined] and the
    symbols. *)
Definition is_undefined (v : value) : bool :=
  match v with
  | VUndefined | VSymbol _ => true
  | _ => false
  end.

(** [JSON.stringify] throws a [TypeError] when it meets a big integer. *)
Fixpoint has_bigint (v : value) : bool :=
  match v with
  | VBigInt _ => true
  | VArr items =>
      (fix some (l : list value) : bool :=
         match l with
         | [] => false
         | x :: rest => has_bigint x || some rest
         end) items
  | VObj fields =>
      (fix some (fs : list (string * value)) : bool :=
         match fs with
         | [] => false
         | (_, x) :: rest => has_bigint x || some rest
         end) fields
  | _ => false
  end.

(** The text of [v] at indentation [indent], for a [v] without big
    integer; [undefined] and a symbol (as array items) and [NaN] are
    written [null]; a field holding [undefined] or a symbol is left
    out. *)
Fixpoint serialize (indent : string) (v : value) {struct v} : string :=
  let inner := indent ++ tab in
  match v with
  | VUndefined | VNull | VNaN | VSymbol _ => "null"
  | VBool true => "true"
  | VBool false => "false"
  | VNum n | VBigInt n => string_of_Z n
  | VStr s => quote s
  | VArr [] => "[]"
  | VArr items =>
      "[" ++ newline ++ inner
          ++ join ("," ++ newline ++ inner) (map (serialize inner) items)
          ++ newline ++ indent ++ "]"
  | VObj fields =>
      let members :=
        (fix members (fs : list (string * value)) : list string :=
           match fs with
           | [] => []
           | (k, x) :: fs' =>
               if is_undefined x then members fs'
               else (quote k ++ ": " ++ serialize inner x) :: members fs'
           end) fields in
      match members with
      | [] => "{}"
      | _ => "{" ++ newline ++ inner
                 ++ join ("," ++ newline ++ inner) members
                 ++ newline ++ indent ++ "}"
      end
  end.

Definition stringify (v : value) : option string :=
  if is_undefined v then None else Some (serialize "" v).

(** *** Parsing *)

Definition is_ws (c : ascii) : bool :=
  let n := nat_of_ascii c in
  Nat.eqb n 32 || Nat.eqb n 9 || Nat.eqb n 10 || Nat.eqb n 13.

Fixpoint skip_ws (s : string) : string :=
  match s with
  | String c s' => if is_ws c then skip_ws s' else s
  | EmptyString => s
  end.

Definition digit_of (c : ascii) : option Z :=
  let n := nat_of_ascii c in
  if Nat.leb 48 n && Nat.leb n 57 then Some (Z.of_nat (n - 48)) else None.

Definition hex_of (c : ascii) : option nat :=
  let n := nat_of_ascii c in
  if Nat.leb 48 n && Nat.leb n 57 then Some (n - 48)
  else if Nat.leb 97 n && Nat.leb n 102 then Some (n - 87)
  else if Nat.leb 65 n && Nat.leb n 70 then Some (n - 55)
  else None.

(** The digits at the head of [s], read onto [acc]. *)
Fixpoint digits (s : string) (acc : Z) : Z * string :=
  match s with
  | String c s' =>
      match digit_of c with
      | Some d => digits s' (10 * acc + d)
      | None => (acc, s)
      end
  | EmptyString => (acc, s)
  end.

Definition no_fraction (s : string) : bool :=
  match s with
  | String c _ =>
      negb (Ascii.eqb c "."%char || Ascii.eqb c "e"%char
            || Ascii.eqb c "E"%char)
  | EmptyString => true
  end.

(** An integer without sign: a lone [0], or digits not led by [0]. *)
Definition natural (s : string) : option (Z * string) :=
  match s with
  | String c s' =>
      match digit_of c with
      | Some 0%Z =>
          match s' with
          | String c' _ =>
              match digit_of c' with
              | Some _ => None
              | None => if no_fraction s' then Some (0%Z, s') else None
              end
          | EmptyString => Some (0%Z, s')
          end
      | Some d =>
          let '(n, rest) := digits s' d in
          if no_fraction rest then Some (n, rest) else None
      | None => None
      end
  | EmptyString => None
  end.

(** The characters of a string literal after its opening quote. *)
Fixpoint string_body (s : string) (acc : string) : option (string * string) :=
  match s with
  | EmptyString => None
  | String c s' =>
      if Ascii.eqb c dquote then Some (JsString.rev acc, s')
      else if Ascii.eqb c "\"%char then
        match s' with
        | String e s'' =>
            let plain (d : nat) := string_body s'' (String (ascii_of_nat d) acc) in
            if Ascii.eqb e dquote then plain 34%nat
            else if Ascii.eqb e "\"%char then plain 92%nat
            else if Ascii.eqb e "/"%char then plain 47%nat
            else if Ascii.eqb e "b"%char then plain 8%nat
            else if Ascii.eqb e "f"%char then plain 12%nat
            else if Ascii.eqb e "n"%char then plain 10%nat
            else if Ascii.eqb e "r"%char then plain 13%nat
            else if Ascii.eqb e "t"%char then plain 9%nat
            else if Ascii.eqb e "u"%char then
              match s'' with
              | String h1 (String h2 (String h3 (String h4 s3))) =>
                  match hex_of h1, hex_of h2, hex_of h3, hex_of h4 with
                  | Some 0%nat, Some 0%nat, Some a, Some b =>
                      string_body s3 (String (ascii_of_nat (16 * a + b)) acc)
                  | _, _, _, _ => None
                  end
              | _ => None
              end
            else None
        | EmptyString => None
        end
      else if Nat.ltb (nat_of_ascii c) 32 then None
      else string_body s' (String c acc)
  end.

(** One JSON value at the head of [s] and the text after it. *)
Fixpoint element (fuel : nat) (s : string) {struct fuel}
  : option (value * string) :=
  match fuel with
  | O => None
  | S fuel' =>
      match skip_ws s with
      | String "n" (String "u" (String "l" (String "l" r))) =>
          Some (VNull, r)
      | String "t" (String "r" (String "u" (String "e" r))) =>
          Some (VBool true, r)
      | String "f" (String "a" (String "l" (String "s" (String "e" r)))) =>
          Some (VBool false, r)
      | String "034" r =>
          match string_body r "" with
          | Some (text, r') => Some (VStr text, r')
          | None => None
          end
      | String "-" r =>
          match natural r with
          | Some (n, r') => Some (VNum (- n), r')
          | None => None
          end
      | String "[" r =>
          match skip_ws r with
          | String "]" r' => Some (VArr [], r')
          | r' =>
              match elements fuel' r' with
              | Some (items, r'') => Some (VArr items, r'')
              | None => None
              end
          end
      | String "{" r =>
          match skip_ws r with
          | String "}" r' => Some (VObj [], r')
          | r' =>
              match members fuel' r' with
              | Some (fields, r'') => Some (VObj fields, r'')
              | None => None
              end
          end
      | r =>
          match natural r with
          | Some (n, r') => Some (VNum n, r')
          | None => None
          end
      end
  end

(** The items of an array up to its closing bracket. *)
with elements (fuel : nat) (s : string) {struct fuel}
  : option (list value * string) :=
  match fuel with
  | O => None
  | S fuel' =>
      match element fuel' s with
      | Some (v, r) =>
          match skip_ws r with
          | String "]" r' => Some ([v], r')
          | String "," r' =>
              match elements fuel' r' with
              | Some (vs, r'') => Some (v :: vs, r'')
              | None => None
              end
          | _ => None
          end
      | None => None
      end
  end

(** The members of an object up to its closing brace. *)
with members (fuel : nat) (s : string) {struct fuel}
  : option (list (string * value) * string) :=
  match fuel with
  | O => None
  | S fuel' =>
      match skip_ws s with
      | String "034" r =>
          match string_body r "" with
          | Some (k, r1) =>
              match skip_ws r1 with
              | String ":" r2 =>
                  match element fuel' r2 with
                  | Some (v, r3) =>
                      match skip_ws r3 with
                      | String "}" r4 => Some ([(k, v)], r4)
                      | String "," r4 =>
                          match members fuel' r4 with
                          | Some (fs, r5) => Some ((k, v) :: fs, r5)
                          | None => None
                          end
                      | _ => None
                      end
                  | None => None
                  end
              | _ => None
              end
          | None => None
          end
      | _ => None
      end
  end.

Definition parse (s : string) : option value :=
  match element (2 * String.length s + 2) s with
  | Some (v, r) =>
      match skip_ws r with
      | EmptyString => Some v
      | String _ _ => None
      end
  | None => None
  end.

Definition stringify_error (v : value) : option exn :=
  if has_bigint v then Some TypeError else None.

Definition codec : JSONCodec := {|
  JSON_stringify := stringify;
  JSON_parse := parse;
  JSON_stringify_error := stringify_error
|}.

End JSON.

(* ================================================================== *)
(** ** The properties, in the vocabulary of the stores *)
(* ================================================================== *)

(** The result of a computation run from the store [s]. *)
Definition result_of {St A} (m : M St A) (s : St) : Outcome A := fst (run m s).

(** The store a computation leaves when run from [s]. *)
Definition store_after {St A} (m : M St A) (s : St) : St := snd (run m s).


(** Settings that deny and ignore nothing. *)
Definition permissive (settings : RequestSettings) : bool :=
  negb (flag (deny_read settings)) && negb (flag (deny_write settings))
  && negb (flag (ignore_cache settings)) && negb (flag (ignore_files settings)).


(** The object literal [{ deny_read: true }]. *)
Definition only_deny_read : RequestSettings := {|
  deny_read := Some true;
  deny_write := None;
  data_type := None;
  ignore_cache := None;
  ignore_files := None
|}.

(** The object literal [{ deny_write: true }]. *)
Definition only_deny_write : RequestSettings := {|
  deny_read := None;
  deny_write := Some true;
  data_type := None;
  ignore_cache := None;
  ignore_files := None
|}.

(** What [FileStorage.set] writes for [data]; [None] when there is
    nothing to write: the text is [undefined], or making it throws. *)
Definition encode (JSON : JSONCodec) (settings : RequestSettings)
  (data : value) : option string :=
  if is_json settings then
    match JSON_stringify_error JSON data with
    | Some _ => None
    | None => JSON_stringify JSON data
    end
  else to_string data.

(** What [FileStorage.set] throws for [data] before it writes, if it
    does. *)
Definition encode_error (JSON : JSONCodec) (settings : RequestSettings)
  (data : value) : option exn :=
  if is_json settings then JSON_stringify_error JSON data
  else match to_string data with
       | Some _ => None
       | None => Some TypeError
       end.

(** What [FileStorage.get] makes of the text of a file. *)
Definition decode (JSON : JSONCodec) (settings : RequestSettings)
  (content : string) : Outcome value :=
  if is_json settings then
    match JSON_parse JSON content with
    | Some v => Ok v
    | None => Throw SyntaxError
    end
  else Ok (VStr content).

(** The text of the regular file at a list of path components, when
    there is one. *)
Definition file_text (n : FS.node) (p : list string) : option string :=
  match FS.find_node n p with
  | Some (FS.File content) => Some content
  | _ => None
  end.

(** The path of the file of a key, for the settings of a request. *)
Definition file_of (key : string) (settings : RequestSettings) : string :=
  __into_file_path key (data_type settings) DEFAULT_DATA_ROOT.

(** The names a path goes through: its pieces between slashes, the empty
    ones and [.] left out. *)
Definition components (path : string) : list string :=
  filter (fun c => negb (FS.is_dot c)) (JsString.split path "/").

(** The path has no [..] piece: it names a place below the working
    directory, whatever the directories on the disk. *)
Definition stays_below (path : string) : bool :=
  negb (existsb (String.eqb "..") (JsString.split path "/")).

(* ================================================================== *)
(** ** Registries: [Map<K, V>] *)
(* ================================================================== *)

(** The maps of callbacks and of definitions: the entries in insertion
    order, the keys compared by [eqb] (strings by content, symbols by
    identity). *)
Module JsMapOf.
Section WithKey.

Variables K V : Type.
Variable eqb : K -> K -> bool.

Definition t : Type := list (K * V).

Fixpoint has (m : t) (key : K) : bool :=
  match m with
  | [] => false
  | (k, _) :: m' => if eqb k key then true else has m' key
  end.

(** [m.get(key)], [None] for [undefined]. *)
Fixpoint get (m : t) (key : K) : option V :=
  match m with
  | [] => None
  | (k, v) :: m' => if eqb k key then Some v else get m' key
  end.

(** [m.set(key, data)]: an existing entry keeps its place. *)
Fixpoint set (m : t) (key : K) (data : V) : t :=
  match m with
  | [] => [(key, data)]
  | (k, v) :: m' =>
      if eqb k key then (k, data) :: m' else (k, v) :: set m' key data
  end.

Fixpoint delete (m : t) (key : K) : t :=
  match m with
  | [] => []
  | (k, v) :: m' =>
      if eqb k key then delete m' key else (k, v) :: delete m' key
  end.

Definition values (m : t) : list V := map snd m.

End WithKey.
End JsMapOf.

(* ================================================================== *)
(** ** Actions: [internal/action.ts] *)
(* ================================================================== *)

(** [new EmbedBuilder().setColor(..).setTitle(..).setDescription(..)] *)
Record Embed : Type := mkEmbed {
  embed_color : string;
  embed_title : string;
  embed_description : string
}.

(** What the managers use of the bot and of discord.js.  [Bot] is the state
    the logger and the interactions act on: the bot but for the registry
    of the manager at hand.  One interaction is handled at a time.
    [setTitle] and [setDescription] give the error the embed builder
    throws for a text it does not accept, if any.  [template e] is the
    text of [e] in a template literal, or what the conversion throws (a
    [TypeError] for a symbol). *)
Class Host (Bot Interaction : Type) : Type := {
  constructor_name : Interaction -> string;
  isRepliable : Interaction -> M Bot bool;
  deferred : Interaction -> M Bot bool;
  followUp : Interaction -> Embed -> M Bot unit;
  reply : Interaction -> Embed -> bool -> M Bot unit;
  setTitle : string -> option exn;
  setDescription : string -> option exn;
  logger_info : string -> M Bot unit;
  logger_error : string -> M Bot unit;
  template : exn -> Outcome string
}.

(** [ActionContext]: the field [bot] is the state of the computation. *)
Record ActionContext (I : Type) : Type := mkContext {
  interaction : I;
  custom_data : list string
}.

(** [id.includes(";") ? id.split(";")[0]! : id] *)
Definition raw_id_of (id : string) : string :=
  if JsString.includes id ";" then hd EmptyString (JsString.split id ";")
  else id.

(** [id.split(";").slice(1)] *)
Definition custom_data_of (id : string) : list string :=
  tl (JsString.split id ";").

(** A line break and a tab, then an arrow: ["\n\t-> "] *)
Definition arrow_line : string :=
  String "010" (String "009" "-> ").

Module Context.
Section WithInteraction.

Variables Bot I Permission : Type.

(** [interaction.memberPermissions], [None] for [null], with its method
    [has]; [interaction.member.user.id], [None] when the member is [null];
    [process.env["OWNER"]], [None] when the variable is not set. *)
Variable memberPermissions : I -> option (Permission -> bool).
Variable member_user_id : I -> option string.
Variable OWNER : option string.

Definition api_member (context : ActionContext I) : M Bot string :=
  match member_user_id (interaction context) with
  | None => throw (Raised (VStr "Expected member!"))
  | Some id => ret id
  end.

Definition expect_owner (context : ActionContext I) : M Bot unit :=
  id <- api_member context;;
  if negb (match OWNER with
           | Some owner => String.eqb id owner
           | None => false
           end)
  then throw (Raised (VStr "Invalid permissions!"))
  else ret tt.

Fixpoint require_loop (held : Permission -> bool)
  (permissions : list Permission) : M Bot unit :=
  match permissions with
  | [] => ret tt
  | permission :: rest =>
      if negb (held permission)
      then throw (Raised (VStr "Invalid permissions!"))
      else require_loop held rest
  end.

Definition require_permissions (context : ActionContext I)
  (permissions : list Permission) : M Bot unit :=
  match memberPermissions (interaction context) with
  | None => throw (Raised (VStr "Invalid permissions!"))
  | Some held => require_loop held permissions
  end.

End WithInteraction.
End Context.

Module BaseActionManager.
Section WithHost.

Context {Bot I : Type} `{Host Bot I}.

(** The functions registered as callbacks. *)
Variable Callback : Type.

Record t : Type := mk {
  _bot : Bot;
  _callbacks : JsMapOf.t string Callback
}.

(** [callback(context)].  The call runs the function up to the promise it
    returns, or throws; the promise, awaited, resolves or rejects.  An
    [async] function never throws at the call.  The callback is handed
    the bot, from which the manager is reached: the call and the promise
    act on the manager as a whole, its registry included. *)
Variable call : Callback -> ActionContext I -> M t (M t unit).

(** What a call does to the bot, seen from the manager. *)
Definition on_bot {A} (m : M Bot A) : M t A :=
  zoom _bot (fun s b => mk b (_callbacks s)) m.

Definition on (id : string) (callback : Callback) : M t unit :=
  let id := raw_id_of id in
  this <- get_store;;
  put_store (mk (_bot this)
                (JsMapOf.set String.eqb (_callbacks this) id callback)).

(** The [try] block of [invoke]: the error embed is sent. *)
Definition send_error (raw_id : string) (reason : exn) (interaction : I)
  : M Bot unit :=
  repliable <- isRepliable interaction;;
  if negb repliable
  then throw (Raised (VStr "Interaction is not replyable!"))
  else
    let title := "Error invoking action callback for "
                 ++ String JSON.dquote (raw_id ++ String JSON.dquote "") in
    match setTitle title with
    | Some e => throw e
    | None =>
        match template reason with
        | Throw e => throw e
        | Ok text =>
            match setDescription ("> " ++ text) with
            | Some e => throw e
            | None =>
                let embed := mkEmbed "Red" title ("> " ++ text) in
                is_deferred <- deferred interaction;;
                if is_deferred then followUp interaction embed
                else reply interaction embed true
            end
        end
    end.

(** The [catch] block of [invoke]: the two errors are logged.  The
    template literal is outside any [try]: what the conversion of an
    error throws leaves [invoke]. *)
Definition log_error (type raw_id : string) (reason error : exn)
  : M Bot unit :=
  match template reason with
  | Throw e => throw e
  | Ok reason_text =>
      match template error with
      | Throw e => throw e
      | Ok error_text =>
          logger_error ("Error sending error embed for "
                        ++ type ++ " " ++ raw_id
                        ++ arrow_line ++ reason_text
                        ++ arrow_line ++ error_text)
      end
  end.

(** [this._callbacks.get(raw_id)!] is called as it is: calling
    [undefined] is a [TypeError].  The call [callback(context)] is the
    argument of [autoCatch]: it is made before [autoCatch] is entered, and
    what it throws leaves [invoke]. *)
Definition invoke (id : string) (interaction : I) : M t unit :=
  let raw_id := raw_id_of id in
  let custom_data := custom_data_of id in
  let context := mkContext interaction custom_data in
  let type := constructor_name interaction in
  this <- get_store;;
  if JsMapOf.has String.eqb (_callbacks this) raw_id then
    match JsMapOf.get String.eqb (_callbacks this) raw_id with
    | None => throw TypeError
    | Some callback =>
        promise <- call callback context;;
        result <- autoCatch promise;;
        match result with
        | Success _ =>
            on_bot (logger_info ("Invoked action callback for "
                                 ++ type ++ " " ++ raw_id))
        | Failure reason =>
            sent <- autoCatch (on_bot (send_error raw_id reason interaction));;
            match sent with
            | Success _ => ret tt
            | Failure error => on_bot (log_error type raw_id reason error)
            end
        end
    end
  else
    on_bot (logger_error ("Missing action callback for "
                          ++ type ++ " " ++ raw_id)).

End WithHost.
End BaseActionManager.

(** [define] and [on] of a manager with definitions; [invoke] is the one
    of the base class. *)
Module DefinedActionManager.
Section WithCallbacks.

Context {Bot : Type}.

(** The functions registered as callbacks, and the type of the
    definitions, [D]. *)
Variables Callback D : Type.

Record t : Type := mk {
  base : @BaseActionManager.t Bot Callback;
  _definitions : JsMapOf.t string D
}.

(** [super.m(...)] *)
Definition on_base {A} (m : M (@BaseActionManager.t Bot Callback) A)
  : M t A :=
  zoom base (fun s b => mk b (_definitions s)) m.

Definition define (id : string) (data : D) : M t unit :=
  let id := raw_id_of id in
  this <- get_store;;
  put_store (mk (base this)
                (JsMapOf.set String.eqb (_definitions this) id data)).

Definition on (id : string) (callback : Callback) : M t unit :=
  let id := raw_id_of id in
  this <- get_store;;
  if negb (JsMapOf.has String.eqb (_definitions this) id)
  then throw (Raised (VStr ("Missing associated definition for " ++ id)))
  else on_base (BaseActionManager.on id callback).

End WithCallbacks.
End DefinedActionManager.

(** A host for running the managers on concrete data: the bot is the list
    of the lines logged and of the embeds sent, the latest first; every
    interaction can be replied to and none is deferred. *)
Definition say (line : string) : M (list string) unit :=
  fun w => (Ok tt, mkWorld (allocated w) (line :: store w)).

#[export] Instance console_host : Host (list string) unit := {|
  constructor_name := fun _ => "ButtonInteraction";
  isRepliable := fun _ => ret true;
  deferred := fun _ => ret false;
  followUp := fun _ embed => say ("followUp: " ++ embed_title embed);
  reply := fun _ embed _ => say ("reply: " ++ embed_title embed);
  setTitle := fun _ => None;
  setDescription := fun _ => None;
  logger_info := fun line => say ("info: " ++ line);
  logger_error := fun line => say ("error: " ++ line);
  template := fun e => match e with
                       | Raised v => match to_string v with
                                     | Some text => Ok text
                                     | None => Throw TypeError
                                     end
                       | _ => Ok "Error"
                       end
|}.

(** Callbacks for running a manager on concrete data:
    [async (context) => say(context.custom_data.join(","))],
    [async () => { throw "no" }], [() => { throw "no" }] and
    [async (context) => { context.bot.action.buttons.on(id, ...) }]. *)
Inductive sample_callback : Type :=
| SaysData
| Rejects
| ThrowsAtCall
| Registers (id : string).

Definition call_sample (callback : sample_callback)
  (context : ActionContext unit)
  : M (@BaseActionManager.t (list string) sample_callback)
      (M (@BaseActionManager.t (list string) sample_callback) unit) :=
  match callback with
  | SaysData =>
      ret (BaseActionManager.on_bot
             (say (String.concat "," (custom_data context))))
  | Rejects => ret (throw (Raised (VStr "no")))
  | ThrowsAtCall => throw (Raised (VStr "no"))
  | Registers id => ret (BaseActionManager.on id SaysData)
  end.

(* ================================================================== *)
(** ** The timer: [internal/timer.ts] *)
(* ================================================================== *)

(** [Symbol(description)]: a new identity, from the counter of the
    identities allocated so far. *)
Definition new_symbol {St} : M St nat :=
  fun w => (Ok (allocated w), mkWorld (S (allocated w)) (store w)).

(** The registry of the timer.  [add] and [remove] store and drop a
    callback without calling it, so the callbacks are any type.  [tick],
    which starts every callback at once and awaits them together, and
    [start] and [stop], which hand [tick] to [setInterval], are not
    modelled. *)
Module Timer.
Section WithClient.

Variable Client : Type.

(** The functions registered as callbacks. *)
Variable TimerCallback : Type.

Record t : Type := mk {
  __client : Client;
  __callbacks : JsMapOf.t nat TimerCallback
}.

Definition add (callback : TimerCallback) : M t nat :=
  id <- new_symbol;;
  this <- get_store;;
  put_store (mk (__client this)
                (JsMapOf.set Nat.eqb (__callbacks this) id callback));;;
  ret id.

(** [Map.prototype.delete] returns whether an entry was removed. *)
Definition remove (id : nat) : M t bool :=
  this <- get_store;;
  put_store (mk (__client this) (JsMapOf.delete Nat.eqb (__callbacks this) id));;;
  ret (JsMapOf.has Nat.eqb (__callbacks this) id).

End WithClient.
End Timer.

(* ================================================================== *)
(** ** The client: [index.ts] *)
(* ================================================================== *)

(** [ClientSettings], without [intents] and [partials], which go to the
    discord.js client as they are. *)
Module ClientSettings.

Record t : Type := mk {
  token : string;
  header : option string;
  color : option string;
  dev_guilds : option (list string);
  global_update : option bool;
  timer_interval : option Z;
  silent : option bool;
  save_logs : option bool
}.

End ClientSettings.

Module WyvernClient.

(** [field ?? fallback] for an optional field. *)
Definition or_default {A} (field : option A) (fallback : A) : A :=
  match field with
  | Some a => a
  | None => fallback
  end.

(** [this.env.get(key)!] *)
Definition env_get (key : string) : M CacheStorage.t value :=
  CacheStorage.get key DEFAULT_REQUEST_SETTINGS.

Definition token := env_get "token".
Definition development_guilds := env_get "cmd_guilds".
Definition global_update := env_get "cmd_global".
Definition header := env_get "log_header".
Definition color := env_get "log_color".
Definition logs_enabled := env_get "log_enable".
Definition logs_stored := env_get "log_store".
Definition timer_delay := env_get "timer_delay".

(** What the constructor gives the logger: the color of ["main"], and the
    fields [enabled] and [store]. *)
Record LoggerSetup : Type := mkLoggerSetup {
  logger_main : value;
  logger_enabled : value;
  logger_store : value
}.

(** The constructor, as far as the environment and the logger go. *)
Definition constructor (settings : ClientSettings.t)
  : M CacheStorage.t LoggerSetup :=
  CacheStorage.set "token" (VStr (ClientSettings.token settings))
                   DEFAULT_REQUEST_SETTINGS;;;
  CacheStorage.set "cmd_guilds"
    (VArr (map VStr (or_default (ClientSettings.dev_guilds settings) [])))
    DEFAULT_REQUEST_SETTINGS;;;
  CacheStorage.set "cmd_global"
    (VBool (or_default (ClientSettings.global_update settings) false))
    DEFAULT_REQUEST_SETTINGS;;;
  CacheStorage.set "log_color"
    (VStr (or_default (ClientSettings.color settings) "#5865F2"))
    DEFAULT_REQUEST_SETTINGS;;;
  CacheStorage.set "log_header"
    (VStr (or_default (ClientSettings.header settings) "Wyvern Client"))
    DEFAULT_REQUEST_SETTINGS;;;
  CacheStorage.set "log_enable"
    (VBool (negb (or_default (ClientSettings.silent settings) false)))
    DEFAULT_REQUEST_SETTINGS;;;
  CacheStorage.set "log_store"
    (VBool (or_default (ClientSettings.save_logs settings) false))
    DEFAULT_REQUEST_SETTINGS;;;
  CacheStorage.set "timer_delay"
    (VNum (or_default (ClientSettings.timer_interval settings) 30000%Z))
    DEFAULT_REQUEST_SETTINGS;;;
  main <- color;;
  enabled <- logs_enabled;;
  stored <- logs_stored;;
  ret (mkLoggerSetup main enabled stored).

End WyvernClient.

(* ================================================================== *)
(** ** Facts about [Map] *)
(* ================================================================== *)

Section JsMapFacts.

Variables (m : JsMap.t) (key : string).

Lemma JsMap_get_set (data : value) :
  JsMap.get (JsMap.set m key data) key = data.
Proof.
  induction m as [| [k v] m' IH]; simpl.
  - now rewrite String.eqb_refl.
  - destruct (String.eqb k key) eqn:E; simpl; now rewrite E.
Qed.

Lemma JsMap_has_set (data : value) :
  JsMap.has (JsMap.set m key data) key = true.
Proof.
  induction m as [| [k v] m' IH]; simpl.
  - now rewrite String.eqb_refl.
  - destruct (String.eqb k key) eqn:E; simpl; now rewrite E.
Qed.

Lemma JsMap_has_delete : JsMap.has (JsMap.delete m key) key = false.
Proof.
  induction m as [| [k v] m' IH]; simpl; [reflexivity |].
  destruct (String.eqb k key) eqn:E; simpl; [assumption | now rewrite E].
Qed.

Lemma JsMap_get_absent : JsMap.has m key = false -> JsMap.get m key = VUndefined.
Proof.
  induction m as [| [k v] m' IH]; simpl; [reflexivity |].
  destruct (String.eqb k key); [discriminate | assumption].
Qed.

End JsMapFacts.

(** [v === undefined] holds for [undefined] alone. *)
Lemma strict_equals_undefined (v : value) :
  strict_equals v VUndefined = true <-> v = VUndefined.
Proof.
  destruct v; simpl; split; congruence.
Qed.

Lemma strict_equals_undefined_false (v : value) :
  v <> VUndefined -> strict_equals v VUndefined = false.
Proof.
  intros Hv. destruct (strict_equals v VUndefined) eqn:E; [| reflexivity].
  apply strict_equals_undefined in E. contradiction.
Qed.

(* ================================================================== *)
(** ** Facts about the file system *)
(* ================================================================== *)

Section FSFacts.

Import FS.

Lemma assoc_replace es c n n' :
  assoc es c = Some n -> assoc (replace es c n') c = Some n'.
Proof.
  induction es as [| [k x] es' IH]; simpl; [discriminate |].
  destruct (String.eqb k c) eqn:E; simpl; rewrite E; auto.
Qed.

Lemma assoc_app_new es c n :
  assoc es c = None -> assoc (es ++ [(c, n)])%list c = Some n.
Proof.
  induction es as [| [k x] es' IH]; simpl.
  - now rewrite String.eqb_refl.
  - destruct (String.eqb k c); [discriminate | assumption].
Qed.

Lemma assoc_remove es c : assoc (remove es c) c = None.
Proof.
  induction es as [| [k x] es' IH]; simpl; [reflexivity |].
  destruct (String.eqb k c) eqn:E; simpl; [assumption | now rewrite E].
Qed.

(** A file that was written is there, with the text written. *)
Lemma find_after_write p : forall n n' data,
  write_node n p data = Some n' -> find_node n' p = Some (File data).
Proof.
  induction p as [| c rest IH]; intros n n' data; simpl.
  - destruct n; [intros [= <-]; reflexivity | discriminate].
  - destruct n as [| es]; [discriminate |].
    destruct (assoc es c) as [m |] eqn:Ec.
    + destruct (write_node m rest data) as [m' |] eqn:Ew; [| discriminate].
      intros [= <-]. simpl. rewrite (assoc_replace _ _ m' Ec). eauto.
    + destruct rest; [| discriminate].
      intros [= <-]. simpl. now rewrite (assoc_app_new _ _ _ Ec).
Qed.

(** Only a regular file can be removed. *)
Lemma rm_needs_file p : forall n n',
  rm_node n p = Some n' -> exists content, find_node n p = Some (File content).
Proof.
  induction p as [| c rest IH]; intros n n'; simpl; [discriminate |].
  destruct n as [| es]; [discriminate |].
  destruct (assoc es c) as [m |] eqn:Ec; [| discriminate].
  destruct rest as [| c' rest'].
  - destruct m; [| discriminate]. intros _. simpl. eauto.
  - destruct (rm_node m (c' :: rest')) as [m' |] eqn:Er; [| discriminate].
    intros _. eapply IH. eassumption.
Qed.

(** A regular file can be removed. *)
Lemma rm_of_file p : forall n content,
  p <> [] -> find_node n p = Some (File content) ->
  exists n', rm_node n p = Some n'.
Proof.
  induction p as [| c rest IH]; intros n content Hp; [contradiction |].
  simpl. destruct n as [| es]; [discriminate |].
  destruct (assoc es c) as [m |] eqn:Ec; [| discriminate].
  destruct rest as [| c' rest'].
  - simpl. intros [= ->]. eauto.
  - intros Hf. destruct (IH m content) as [m' Hm']; [discriminate | assumption |].
    rewrite Hm'. eauto.
Qed.

(** A file that was removed is not there any more. *)
Lemma find_after_rm p : forall n n',
  rm_node n p = Some n' -> find_node n' p = None.
Proof.
  induction p as [| c rest IH]; intros n n'; simpl; [discriminate |].
  destruct n as [| es]; [discriminate |].
  destruct (assoc es c) as [m |] eqn:Ec; [| discriminate].
  destruct rest as [| c' rest'].
  - destruct m; [| discriminate]. intros [= <-]. simpl.
    now rewrite assoc_remove.
  - destruct (rm_node m (c' :: rest')) as [m' |] eqn:Er; [| discriminate].
    intros [= <-]. simpl. rewrite (assoc_replace _ _ m' Ec). eauto.
Qed.

Lemma filter_dots_nonempty cs :
  is_dot (last cs "") = false ->
  filter (fun c => negb (is_dot c)) cs <> [].
Proof.
  induction cs as [| c cs' IH]; simpl; [discriminate |].
  destruct cs' as [| c' cs''].
  - intros E. simpl. rewrite E. simpl. discriminate.
  - intros E. destruct (negb (is_dot c)); [discriminate | auto].
Qed.

(** A path that may name a regular file has a component. *)
Lemma parse_path_file path p :
  parse_path path = Some (p, false) -> p <> [].
Proof.
  unfold parse_path.
  destruct (String.eqb path ""); [discriminate |].
  destruct (existsb _ _); [discriminate |].
  intros [= <- E]. now apply filter_dots_nonempty.
Qed.

End FSFacts.

(* ================================================================== *)
(** ** Facts about the primitive operations *)
(* ================================================================== *)

Lemma permissive_flags (settings : RequestSettings) :
  permissive settings = true ->
  flag (deny_read settings) = false /\ flag (deny_write settings) = false /\
  flag (ignore_cache settings) = false /\ flag (ignore_files settings) = false.
Proof.
  unfold permissive.
  destruct (flag (deny_read settings)), (flag (deny_write settings)),
    (flag (ignore_cache settings)), (flag (ignore_files settings));
    simpl; intros; try discriminate; auto.
Qed.

Section CacheFacts.

Variables (key : string) (settings : RequestSettings).
Variable w : World CacheStorage.t.

Lemma CacheStorage_get_run :
  flag (ignore_cache settings) = false -> flag (deny_read settings) = false ->
  CacheStorage.get key settings w = (Ok (JsMap.get (store w) key), w).
Proof.
  intros Hc Hr. unfold CacheStorage.get. now rewrite Hc, Hr.
Qed.

Lemma CacheStorage_has_run :
  flag (ignore_cache settings) = false ->
  CacheStorage.has key settings w = (Ok (JsMap.has (store w) key), w).
Proof.
  intros Hc. unfold CacheStorage.has. now rewrite Hc.
Qed.

Lemma CacheStorage_set_run (data : value) :
  flag (ignore_cache settings) = false -> flag (deny_write settings) = false ->
  CacheStorage.set key data settings w
  = (Ok (strict_equals data data),
     mkWorld (allocated w) (JsMap.set (store w) key data)).
Proof.
  intros Hc Hw. unfold CacheStorage.set. rewrite Hc, Hw. simpl.
  unfold bind, get_store, put_store, ret. simpl.
  now rewrite JsMap_get_set.
Qed.

Lemma CacheStorage_del_run :
  flag (ignore_cache settings) = false -> flag (deny_write settings) = false ->
  CacheStorage.del key settings w
  = (Ok (JsMap.has (store w) key),
     mkWorld (allocated w) (JsMap.delete (store w) key)).
Proof.
  intros Hc Hw. unfold CacheStorage.del. now rewrite Hc, Hw.
Qed.

(** [set] and [del] return, whatever the settings. *)
Lemma CacheStorage_set_total (data : value) :
  exists b w', CacheStorage.set key data settings w = (Ok b, w').
Proof.
  unfold CacheStorage.set.
  destruct (flag (ignore_cache settings) || flag (deny_write settings));
    unfold bind, get_store, put_store, ret; simpl; eauto.
Qed.

End CacheFacts.

Section FileFacts.

Variable JSON : JSONCodec.
Variables (key : string) (settings : RequestSettings).
Variable w : World FileStorage.t.

(** Making the text to write returns it or throws, and leaves the disk
    as it is. *)
Lemma raw_of_run (data : value) :
  FileStorage.raw_of JSON data settings w
  = match encode_error JSON settings data with
    | Some e => (Throw e, w)
    | None => (Ok (encode JSON settings data), w)
    end.
Proof.
  unfold FileStorage.raw_of, encode_error, encode.
  destruct (is_json settings).
  - now destruct (JSON_stringify_error JSON data).
  - now destruct (to_string data).
Qed.

(** [set] throws exactly what making the text throws, before it touches
    the disk, and this only when the files are neither ignored nor
    protected; in every other case it returns. *)
Lemma FileStorage_set_outcome (data : value) :
  match (if flag (ignore_files settings) || flag (deny_write settings)
         then None else encode_error JSON settings data) with
  | Some e => FileStorage.set JSON key data settings w = (Throw e, w)
  | None => exists b w', FileStorage.set JSON key data settings w = (Ok b, w')
  end.
Proof.
  unfold FileStorage.set.
  destruct (flag (ignore_files settings) || flag (deny_write settings));
    [unfold ret; eauto |].
  destruct (encode_error JSON settings data) as [e |] eqn:Ee;
    unfold bind at 1; rewrite raw_of_run, Ee; [reflexivity |].
  unfold bind.
  destruct (autoCatch (FS.mkdir _) w) as [[r1 | e1] w1] eqn:E1.
  - destruct (autoCatch (FS.writeFile _ _) w1) as [[r2 | e2] w2] eqn:E2.
    + unfold ret. eauto.
    + unfold autoCatch in E2.
      destruct (FS.writeFile _ _ w1) as [[? | ?] ?]; discriminate.
  - unfold autoCatch in E1.
    destruct (FS.mkdir _ w) as [[? | ?] ?]; discriminate.
Qed.

(** Reading leaves the world as it is. *)
Lemma readFile_world path r w' : FS.readFile path w = (r, w') -> w' = w.
Proof.
  unfold FS.readFile.
  destruct (FS.parse_path path) as [[p [|]] |]; cbv beta iota;
    try (intros E; injection E as _ <-; reflexivity).
  destruct (FS.find_node _ p) as [[content | es] |];
    intros E; injection E as _ <-; reflexivity.
Qed.

End FileFacts.

Section DualFacts.

Variable w : World DualStorage.t.

Lemma on_cache_run {A} (m : M CacheStorage.t A) r wc :
  m (mkWorld (allocated w) (DualStorage.__cache (store w))) = (r, wc) ->
  DualStorage.on_cache m w
  = (r, mkWorld (allocated wc)
          (DualStorage.mk (store wc) (DualStorage.__files (store w)))).
Proof.
  intros E. unfold DualStorage.on_cache, zoom. now rewrite E.
Qed.

Lemma on_files_run {A} (m : M FileStorage.t A) r wf :
  m (mkWorld (allocated w) (DualStorage.__files (store w))) = (r, wf) ->
  DualStorage.on_files m w
  = (r, mkWorld (allocated wf)
          (DualStorage.mk (DualStorage.__cache (store w)) (store wf))).
Proof.
  intros E. unfold DualStorage.on_files, zoom. now rewrite E.
Qed.

End DualFacts.

(* ================================================================== *)
(** ** The two sets of derived operations agree *)
(* ================================================================== *)

(** [SyncStorage] writes its batch operations with [every], [some], [map]
    and [filter], [AsyncStorage] with loops; run one call after the other
    they compute the same. *)
Section SyncAsync.

Context {St : Type} {backend : BaseStorage St}.

Lemma for_and_false {A} (f : A -> M St bool) (items : list A) (w : World St) :
  for_and f items false w = (Ok false, w).
Proof.
  induction items as [| x rest IH]; [reflexivity |].
  cbn [for_and]. unfold bind, ret. exact IH.
Qed.

Lemma for_or_true {A} (f : A -> M St bool) (items : list A) (w : World St) :
  for_or f items true w = (Ok true, w).
Proof.
  induction items as [| x rest IH]; [reflexivity |].
  cbn [for_or]. unfold bind, ret. exact IH.
Qed.

Lemma for_and_every {A} (f : A -> M St bool) (items : list A) :
  forall w : World St, for_and f items true w = every f items w.
Proof.
  induction items as [| x rest IH]; intros w; [reflexivity |].
  cbn [for_and every]. unfold bind.
  destruct (f x w) as [[[|] | e] w']; [apply IH | apply for_and_false | reflexivity].
Qed.

Lemma for_or_some {A} (f : A -> M St bool) (items : list A) :
  forall w : World St, for_or f items false w = some f items w.
Proof.
  induction items as [| x rest IH]; intros w; [reflexivity |].
  cbn [for_or some]. unfold bind.
  destruct (f x w) as [[[|] | e] w']; [apply for_or_true | apply IH | reflexivity].
Qed.

Lemma get_all_loop_map (settings : RequestSettings) (keys : list string) :
  forall (result : list value) (w : World St),
    AsyncStorage.get_all_loop keys settings result w
    = match map_M (fun key => get key settings) keys w with
      | (Ok vs, w') => (Ok (result ++ filter truthy vs)%list, w')
      | (Throw e, w') => (Throw e, w')
      end.
Proof.
  induction keys as [| key rest IH]; intros result w.
  - cbn. unfold ret. now rewrite app_nil_r.
  - cbn [AsyncStorage.get_all_loop map_M]. unfold bind.
    destruct (get key settings w) as [[val | e] w1]; [| reflexivity].
    rewrite IH.
    destruct (map_M _ rest w1) as [[vs | e] w2]; [| reflexivity].
    unfold ret. cbn [filter]. rewrite negb_involutive.
    destruct (truthy val); [| reflexivity].
    now rewrite <- app_assoc.
Qed.

Lemma get_all_agree (keys : list string) (settings : RequestSettings)
  (w : World St) :
  AsyncStorage.get_all keys settings w = SyncStorage.get_all keys settings w.
Proof.
  unfold AsyncStorage.get_all, SyncStorage.get_all. rewrite get_all_loop_map.
  unfold bind. destruct (map_M _ keys w) as [[vs | e] w']; [| reflexivity].
  unfold ret. cbn [app]. rewrite map_id. do 2 f_equal.
  apply filter_ext. intros v. now rewrite negb_involutive.
Qed.

End SyncAsync.

(* ================================================================== *)
(** ** C10: the batch operations on no key *)
(* ================================================================== *)

(** C10.  On an empty list of keys (or of pairs), with any settings, any
    callback and any backend, in [SyncStorage] as in [AsyncStorage]:
    [has_all], [set_all], [del_all], [assert_all] and [modify_all] return
    [true], [has_any] and [assert_any] return [false], and the store is as
    it was. *)
Theorem C10_empty_batches (St : Type) (backend : BaseStorage St)
  (settings : RequestSettings) (predicate : DataPredicate St)
  (modifier : DataModifier St) (w : World St) :
  (SyncStorage.has_all [] settings w = (Ok true, w)
   /\ SyncStorage.set_all [] settings w = (Ok true, w)
   /\ SyncStorage.del_all [] settings w = (Ok true, w)
   /\ SyncStorage.assert_all [] predicate settings w = (Ok true, w)
   /\ SyncStorage.modify_all [] modifier settings w = (Ok true, w)
   /\ SyncStorage.has_any [] settings w = (Ok false, w)
   /\ SyncStorage.assert_any [] predicate settings w = (Ok false, w))
  /\
  (AsyncStorage.has_all [] settings w = (Ok true, w)
   /\ AsyncStorage.set_all [] settings w = (Ok true, w)
   /\ AsyncStorage.del_all [] settings w = (Ok true, w)
   /\ AsyncStorage.assert_all [] predicate settings w = (Ok true, w)
   /\ AsyncStorage.modify_all [] modifier settings w = (Ok true, w)
   /\ AsyncStorage.has_any [] settings w = (Ok false, w)
   /\ AsyncStorage.assert_any [] predicate settings w = (Ok false, w)).
Proof.
  repeat split; reflexivity.
Qed.

(* ================================================================== *)
(** ** C3: what [DualStorage.set] returns *)
(* ================================================================== *)




(* ================================================================== *)
(** ** C1: [set] then [get] *)
(* ================================================================== *)

(** What the write of the files throws, [DualStorage.set] throws. *)
Lemma DualStorage_set_throws (JSON : JSONCodec) (key : string) (v : value)
  (settings : RequestSettings) (w : World DualStorage.t) (e : exn) :
  (if flag (ignore_files settings) || flag (deny_write settings) then None
   else encode_error JSON settings v) = Some e ->
  exists w1, DualStorage.set JSON key v settings w = (Throw e, w1).
Proof.
  intros Hthrown.
  destruct (CacheStorage_set_total key settings
              (mkWorld (allocated w) (DualStorage.__cache (store w))) v)
    as (c & wc & Hc).
  unfold DualStorage.set, bind.
  erewrite on_cache_run by exact Hc.
  match goal with
  | |- context [DualStorage.on_files ?m ?w1] =>
      pose proof (FileStorage_set_outcome JSON key settings
                    (mkWorld (allocated w1) (DualStorage.__files (store w1))) v)
        as Hset;
      rewrite Hthrown in Hset;
      rewrite (@on_files_run w1 _ m _ _ Hset)
  end.
  eexists. reflexivity.
Qed.

Section RoundTrip.

Variable JSON : JSONCodec.
Variables (key : string) (settings : RequestSettings) (v : value).
Hypothesis Hsettings : permissive settings = true.


(** After a [set] that reported success, [get] decodes the text that
    [set] encoded. *)
Lemma FileStorage_set_get (w w' : World FileStorage.t) :
  FileStorage.set JSON key v settings w = (Ok true, w') ->
  exists raw,
    encode JSON settings v = Some raw
    /\ FileStorage.get JSON key settings w' = (decode JSON settings raw, w').
Proof.
  destruct (permissive_flags _ Hsettings) as (Hr & Hw & _ & Hf).
  unfold FileStorage.set, FileStorage.get. rewrite Hf, Hr, Hw. simpl.
  unfold bind at 1. rewrite raw_of_run.
  destruct (encode_error JSON settings v) as [e |]; [discriminate |].
  unfold bind at 1.
  destruct (autoCatch (FS.mkdir _) w) as [[r1 | e1] w1]; [| discriminate].
  unfold bind at 1. unfold autoCatch at 1. unfold FS.writeFile.
  destruct (encode JSON settings v) as [raw |]; [| discriminate].
  destruct (FS.parse_path _) as [[p [|]] |] eqn:Ep; try discriminate.
  destruct (FS.write_node _ p raw) as [n' |] eqn:Ew; [| discriminate].
  unfold ret. intros [= <-]. exists raw. split; [reflexivity |].
  unfold bind, autoCatch, FS.readFile. rewrite Ep. simpl.
  rewrite (find_after_write _ _ _ Ew).
  unfold decode. destruct (is_json settings); [| reflexivity].
  destruct (JSON_parse JSON raw); reflexivity.
Qed.


(** In the dual store the cache answers, unless the value is one that
    [get] takes for "no value".  [set] returns when making the text of the
    value does not throw. *)
Lemma DualStorage_set_cache (w : World DualStorage.t) :
  encode_error JSON settings v = None ->
  exists b w',
    DualStorage.set JSON key v settings w = (Ok b, w')
    /\ DualStorage.__cache (store w')
       = JsMap.set (DualStorage.__cache (store w)) key v.
Proof.
  intros Hreturns.
  destruct (permissive_flags _ Hsettings) as (Hr & Hw & Hc & Hf).
  unfold DualStorage.set, bind.
  erewrite on_cache_run by (apply CacheStorage_set_run; assumption).
  match goal with
  | |- context [DualStorage.on_files ?m ?w1] =>
      pose proof (FileStorage_set_outcome JSON key settings
                    (mkWorld (allocated w1) (DualStorage.__files (store w1))) v)
        as Hset;
      rewrite Hf, Hw, Hreturns in Hset; cbn [orb] in Hset;
      destruct Hset as (f & wf & Hset);
      rewrite (@on_files_run w1 _ m _ _ Hset)
  end.
  unfold ret. eexists. eexists. split; reflexivity.
Qed.

Lemma DualStorage_get_cached (w : World DualStorage.t) :
  JsMap.get (DualStorage.__cache (store w)) key = v ->
  v <> VUndefined -> v <> VNull ->
  fst (DualStorage.get JSON key settings w) = Ok v.
Proof.
  intros Hget Hu Hn.
  destruct (permissive_flags _ Hsettings) as (Hr & Hw & Hc & Hf).
  unfold DualStorage.get, bind.
  erewrite on_cache_run by (apply CacheStorage_get_run; assumption).
  simpl. rewrite Hget, (strict_equals_undefined_false Hu). simpl.
  destruct v; try reflexivity; contradiction.
Qed.


End RoundTrip.




(* ================================================================== *)
(** ** C2: a value read from the files is put into the cache *)
(* ================================================================== *)

(** [FileStorage.get] only reads. *)
Lemma FileStorage_get_world (JSON : JSONCodec) (key : string)
  (settings : RequestSettings) (w w' : World FileStorage.t) (r : Outcome value) :
  FileStorage.get JSON key settings w = (r, w') -> w' = w.
Proof.
  unfold FileStorage.get.
  destruct (flag (ignore_files settings) || flag (deny_read settings));
    [intros [= _ <-]; reflexivity |].
  unfold bind, autoCatch.
  destruct (FS.readFile _ w) as [[content | e] w1] eqn:E;
    apply readFile_world in E; subst w1.
  - destruct (is_json settings); [| intros [= _ <-]; reflexivity].
    destruct (JSON_parse JSON content); intros [= _ <-]; reflexivity.
  - intros [= _ <-]. reflexivity.
Qed.

(** What [DualStorage.get] does when the cache has no entry for the key:
    it asks the files, and puts what they answer, unless it is
    [undefined], into the cache. *)
Lemma DualStorage_get_miss (JSON : JSONCodec) (key : string)
  (c : CacheStorage.t) (f : FileStorage.t) :
  JsMap.has c key = false ->
  run (DualStorage.get JSON key DEFAULT_REQUEST_SETTINGS) (DualStorage.mk c f)
  = match run (FileStorage.get JSON key DEFAULT_REQUEST_SETTINGS) f with
    | (Ok v, _) =>
        (Ok v, DualStorage.mk
                 (if strict_equals v VUndefined then c else JsMap.set c key v) f)
    | (Throw e, _) => (Throw e, DualStorage.mk c f)
    end.
Proof.
  intros Habsent. unfold run, DualStorage.get. unfold bind at 1.
  erewrite on_cache_run by (apply CacheStorage_get_run; reflexivity).
  cbn [store allocated DualStorage.__cache DualStorage.__files].
  rewrite (JsMap_get_absent _ _ Habsent).
  change (strict_equals VUndefined VUndefined) with true.
  cbv beta iota. unfold bind at 1.
  destruct (FileStorage.get JSON key DEFAULT_REQUEST_SETTINGS (mkWorld 0 f))
    as [r wf] eqn:Eg.
  pose proof (FileStorage_get_world _ _ _ _ Eg) as ->.
  erewrite on_files_run by exact Eg.
  cbn [store allocated DualStorage.__cache DualStorage.__files].
  destruct r as [v | e]; [| reflexivity].
  destruct (strict_equals v VUndefined) eqn:Ev.
  - apply strict_equals_undefined in Ev. subst v. reflexivity.
  - cbn [andb negb]. unfold bind at 1. unfold bind at 1.
    erewrite on_cache_run by (apply CacheStorage_set_run; reflexivity).
    unfold bind, ret. cbn [store allocated]. reflexivity.
Qed.

(** C2.  Default settings.  When the cache of a dual store has no entry
    for [key], the file store has the key, and [DualStorage.get] resolves
    with [v], then [v] is what the file store reads for [key], and the
    cache that [get] leaves, asked directly, returns [v] and (for [v] a
    value, as [JSON.parse] only gives values) has an entry for [key]; the
    files are left as they were. *)
Theorem C2_cache_promotion (JSON : JSONCodec) (key : string) (v : value)
  (d : DualStorage.t) :
  result_of (CacheStorage.has key DEFAULT_REQUEST_SETTINGS)
            (DualStorage.__cache d) = Ok false ->
  result_of (FileStorage.has key DEFAULT_REQUEST_SETTINGS)
            (DualStorage.__files d) = Ok true ->
  result_of (DualStorage.get JSON key DEFAULT_REQUEST_SETTINGS) d = Ok v ->
  let d' := store_after (DualStorage.get JSON key DEFAULT_REQUEST_SETTINGS) d in
  result_of (FileStorage.get JSON key DEFAULT_REQUEST_SETTINGS)
            (DualStorage.__files d) = Ok v
  /\ result_of (CacheStorage.get key DEFAULT_REQUEST_SETTINGS)
               (DualStorage.__cache d') = Ok v
  /\ (v <> VUndefined ->
      result_of (CacheStorage.has key DEFAULT_REQUEST_SETTINGS)
                (DualStorage.__cache d') = Ok true)
  /\ DualStorage.__files d' = DualStorage.__files d.
Proof.
  destruct d as [c f]. cbn [DualStorage.__cache DualStorage.__files].
  intros Habsent _ Hget.
  assert (Hc : JsMap.has c key = false).
  { unfold result_of, run in Habsent.
    rewrite CacheStorage_has_run in Habsent by reflexivity.
    now injection Habsent. }
  unfold result_of, store_after in *.
  rewrite (@DualStorage_get_miss JSON key c f Hc) in *.
  destruct (run (FileStorage.get JSON key DEFAULT_REQUEST_SETTINGS) f)
    as [[v0 | e] f'] eqn:Ef; cbn [fst snd] in *; [| discriminate].
  injection Hget as ->.
  cbn [DualStorage.__cache DualStorage.__files].
  split; [reflexivity | split; [| split; [| reflexivity]]].
  - unfold run. rewrite CacheStorage_get_run by reflexivity. cbn [fst store].
    destruct (strict_equals v VUndefined) eqn:Ev.
    + apply strict_equals_undefined in Ev. subst v.
      now rewrite (JsMap_get_absent _ _ Hc).
    + now rewrite JsMap_get_set.
  - intros Hv. rewrite (strict_equals_undefined_false Hv).
    unfold run. rewrite CacheStorage_has_run by reflexivity. cbn [fst store].
    now rewrite JsMap_has_set.
Qed.

(** C2 at work: a new dual store over a disk on which the file of ["a/b"]
    holds [{ x: 1 }]. *)
Lemma C2_cache_promotion_witness :
  let disk := store_after (FileStorage.set JSON.codec "a/b"
                             (VObj [("x", VNum 1)]) DEFAULT_REQUEST_SETTINGS)
                          FS.empty in
  let d := DualStorage.new disk in
  let d' := store_after (DualStorage.get JSON.codec "a/b"
                           DEFAULT_REQUEST_SETTINGS) d in
  result_of (DualStorage.get JSON.codec "a/b" DEFAULT_REQUEST_SETTINGS) d
  = Ok (VObj [("x", VNum 1)])
  /\ result_of (CacheStorage.get "a/b" DEFAULT_REQUEST_SETTINGS)
               (DualStorage.__cache d') = Ok (VObj [("x", VNum 1)])
  /\ result_of (CacheStorage.has "a/b" DEFAULT_REQUEST_SETTINGS)
               (DualStorage.__cache d') = Ok true.
Proof.
  intros disk d d'.
  assert (Hget : result_of (DualStorage.get JSON.codec "a/b"
                              DEFAULT_REQUEST_SETTINGS) d
                 = Ok (VObj [("x", VNum 1)])) by (vm_compute; reflexivity).
  destruct (@C2_cache_promotion JSON.codec "a/b" (VObj [("x", VNum 1)]) d
              eq_refl eq_refl Hget) as (_ & Hcache & Hhas & _).
  split; [exact Hget | split; [exact Hcache | apply Hhas; discriminate]].
Defined.

(* ================================================================== *)
(** ** C4: [del] *)
(* ================================================================== *)

Section Delete.

Variables (key : string) (settings : RequestSettings).
Hypothesis Hsettings : permissive settings = true.

(** In the file store [del] returns what [has] returned before it, and
    [has] returns [false] after it. *)
Lemma FileStorage_del_run (w : World FileStorage.t) :
  exists b w',
    FileStorage.has key settings w = (Ok b, w)
    /\ FileStorage.del key settings w = (Ok b, w')
    /\ FileStorage.has key settings w' = (Ok false, w').
Proof.
  destruct (permissive_flags _ Hsettings) as (Hr & Hw & _ & Hf).
  unfold FileStorage.has, FileStorage.del. rewrite Hf, Hr, Hw.
  cbn [orb]. unfold bind, autoCatch, FS.readFile, FS.rm, ret.
  destruct (FS.parse_path _) as [[p [|]] |] eqn:Ep;
    try (exists false, w; repeat split; reflexivity).
  pose proof (parse_path_file _ Ep) as Hp.
  destruct (FS.rm_node _ p) as [n' |] eqn:Er.
  - destruct (rm_needs_file _ _ Er) as (content & Hfind).
    rewrite Hfind. exists true. eexists. repeat split.
    cbn [store]. now rewrite (find_after_rm _ _ Er).
  - destruct (FS.find_node _ p) as [[content | es] |] eqn:Hfind;
      try (exists false, w; repeat split; try rewrite Hfind; reflexivity).
    destruct (rm_of_file _ Hp Hfind) as (n' & Hn').
    unfold FileStorage.t in *. congruence.
Qed.

(** In the dual store [del] returns [true] when both layers had the
    key, and no layer has the key after it. *)
Lemma DualStorage_del_run (w : World DualStorage.t) :
  exists f w' w'',
    DualStorage.has key settings w
    = (Ok (JsMap.has (DualStorage.__cache (store w)) key || f), w'')
    /\ DualStorage.del key settings w
       = (Ok (JsMap.has (DualStorage.__cache (store w)) key && f), w')
    /\ fst (DualStorage.has key settings w') = Ok false.
Proof.
  destruct (permissive_flags _ Hsettings) as (Hr & Hw & Hc & Hf).
  destruct (FileStorage_del_run
              (mkWorld (allocated w) (DualStorage.__files (store w))))
    as (f & wf & Hhas & Hdel & Hhas').
  exists f.
  unfold DualStorage.has, DualStorage.del, bind.
  erewrite !on_cache_run by (first [apply CacheStorage_has_run
                                   | apply CacheStorage_del_run]; assumption).
  cbn [store allocated DualStorage.__cache DualStorage.__files].
  erewrite !on_files_run by eassumption.
  unfold or_false. unfold flag in Hc, Hf. rewrite Hc, Hf, !orb_false_r.
  unfold ret. eexists. eexists. split; [| split; [reflexivity |]].
  - destruct (JsMap.has (DualStorage.__cache (store w)) key);
      cbn [orb]; [reflexivity |].
    erewrite on_files_run by (cbn [store allocated]; exact Hhas).
    reflexivity.
  - erewrite on_cache_run
      by (apply CacheStorage_has_run; unfold flag; assumption).
    cbn [store allocated DualStorage.__cache DualStorage.__files].
    rewrite JsMap_has_delete.
    destruct wf as [n sf]. cbn [store allocated] in *.
    erewrite on_files_run by (cbn [store allocated]; exact Hhas').
    reflexivity.
Qed.

End Delete.

(** C4, as stated, fails: on a key that no layer has, [del] with the
    default settings returns [false] in each of the three stores. *)
Lemma C4_del_of_absent_key_fails :
  (result_of (CacheStorage.has "k" DEFAULT_REQUEST_SETTINGS) CacheStorage.new
   = Ok false
   /\ result_of (CacheStorage.del "k" DEFAULT_REQUEST_SETTINGS) CacheStorage.new
      = Ok false)
  /\ (result_of (FileStorage.has "k" DEFAULT_REQUEST_SETTINGS) FS.empty
      = Ok false
      /\ result_of (FileStorage.del "k" DEFAULT_REQUEST_SETTINGS) FS.empty
         = Ok false)
  /\ (result_of (DualStorage.has "k" DEFAULT_REQUEST_SETTINGS)
                (DualStorage.new FS.empty) = Ok false
      /\ result_of (DualStorage.del "k" DEFAULT_REQUEST_SETTINGS)
                   (DualStorage.new FS.empty) = Ok false)
  /\ result_of (CacheStorage.del "k" DEFAULT_REQUEST_SETTINGS) CacheStorage.new
     <> Ok true.
Proof.
  split; [| split; [| split]]; try (split; vm_compute; reflexivity).
  vm_compute. discriminate.
Qed.

(** C4, amended.  With the default settings and for every key: in each of
    the three stores, [del] of a key that the store does not have ([has]
    returns [false]) returns [false], and [del] followed by [has] returns
    [false].  In the cache [del] returns [true] exactly when the key had an
    entry. *)
Theorem C4_del_amended (key : string) :
  (forall c : CacheStorage.t,
      result_of (CacheStorage.del key DEFAULT_REQUEST_SETTINGS) c
      = Ok (JsMap.has c key)
      /\ (result_of (CacheStorage.has key DEFAULT_REQUEST_SETTINGS) c = Ok false ->
          result_of (CacheStorage.del key DEFAULT_REQUEST_SETTINGS) c = Ok false)
      /\ result_of (CacheStorage.del key DEFAULT_REQUEST_SETTINGS;;;
                    CacheStorage.has key DEFAULT_REQUEST_SETTINGS) c = Ok false)
  /\ (forall disk : FileStorage.t,
        (result_of (FileStorage.has key DEFAULT_REQUEST_SETTINGS) disk = Ok false ->
         result_of (FileStorage.del key DEFAULT_REQUEST_SETTINGS) disk = Ok false)
        /\ result_of (FileStorage.del key DEFAULT_REQUEST_SETTINGS;;;
                      FileStorage.has key DEFAULT_REQUEST_SETTINGS) disk
           = Ok false)
  /\ (forall d : DualStorage.t,
        (result_of (DualStorage.has key DEFAULT_REQUEST_SETTINGS) d = Ok false ->
         result_of (DualStorage.del key DEFAULT_REQUEST_SETTINGS) d = Ok false)
        /\ result_of (DualStorage.del key DEFAULT_REQUEST_SETTINGS;;;
                      DualStorage.has key DEFAULT_REQUEST_SETTINGS) d
           = Ok false).
Proof.
  split; [| split].
  - intros c. unfold result_of, run, bind.
    rewrite CacheStorage_del_run, CacheStorage_has_run by reflexivity.
    rewrite CacheStorage_has_run by reflexivity.
    cbn [fst store]. rewrite JsMap_has_delete. repeat split. auto.
  - intros disk. unfold result_of, run, bind.
    destruct (@FileStorage_del_run key DEFAULT_REQUEST_SETTINGS eq_refl
                (mkWorld 0 disk)) as (b & w' & Hh & Hd & Hh').
    rewrite Hh, Hd, Hh'. cbn [fst]. split; auto.
  - intros d. unfold result_of, run, bind.
    destruct (@DualStorage_del_run key DEFAULT_REQUEST_SETTINGS eq_refl
                (mkWorld 0 d)) as (f & w' & w'' & Hh & Hd & Hh').
    rewrite Hh, Hd. cbn [fst store allocated]. split.
    + intros [= E]. apply orb_false_iff in E as [-> ->]. reflexivity.
    + destruct (DualStorage.has key DEFAULT_REQUEST_SETTINGS w') as [r w3].
      cbn [fst] in *. assumption.
Qed.

(** The amended C4 at work, on stores that hold nothing. *)
Lemma C4_del_amended_witness :
  result_of (CacheStorage.del "k" DEFAULT_REQUEST_SETTINGS) CacheStorage.new
  = Ok false
  /\ result_of (FileStorage.del "k" DEFAULT_REQUEST_SETTINGS) FS.empty
     = Ok false
  /\ result_of (DualStorage.del "k" DEFAULT_REQUEST_SETTINGS)
               (DualStorage.new FS.empty) = Ok false.
Proof.
  destruct (C4_del_amended "k") as (Hc & Hf & Hd).
  split; [| split].
  - apply (proj1 (proj2 (Hc CacheStorage.new))). reflexivity.
  - apply (proj1 (Hf FS.empty)). reflexivity.
  - apply (proj1 (Hd (DualStorage.new FS.empty))). reflexivity.
Defined.

(* ================================================================== *)
(** ** C5: [deny_read] *)
(* ================================================================== *)

(** [get] and [pairs] of the three stores, and [has] of the file store,
    answer "nothing" to a request that may not read. *)
Lemma deny_read_honoured (JSON : JSONCodec) (key dir : string)
  (settings : RequestSettings) :
  flag (deny_read settings) = true ->
  (forall w, CacheStorage.get key settings w = (Ok VUndefined, w))
  /\ (forall w, CacheStorage.pairs dir settings w = (Ok [], w))
  /\ (forall w, FileStorage.has key settings w = (Ok false, w))
  /\ (forall w, FileStorage.get JSON key settings w = (Ok VUndefined, w))
  /\ (forall w, FileStorage.pairs JSON dir settings w = (Ok [], w))
  /\ (forall d, run (DualStorage.get JSON key settings) d = (Ok VUndefined, d))
  /\ (forall d, run (DualStorage.pairs JSON dir settings) d = (Ok [], d)).
Proof.
  intros Hr.
  assert (Hcg : forall w, CacheStorage.get key settings w = (Ok VUndefined, w)).
  { intros w. unfold CacheStorage.get. now rewrite Hr, orb_true_r. }
  assert (Hcp : forall w, CacheStorage.pairs dir settings w = (Ok [], w)).
  { intros w. unfold CacheStorage.pairs. now rewrite Hr, orb_true_r. }
  assert (Hfg : forall w, FileStorage.get JSON key settings w = (Ok VUndefined, w)).
  { intros w. unfold FileStorage.get. now rewrite Hr, orb_true_r. }
  assert (Hfp : forall w, FileStorage.pairs JSON dir settings w = (Ok [], w)).
  { intros w. unfold FileStorage.pairs. now rewrite Hr, orb_true_r. }
  repeat split; try assumption.
  - intros w. unfold FileStorage.has. now rewrite Hr, orb_true_r.
  - intros [c f]. unfold run, DualStorage.get, bind.
    erewrite on_cache_run by apply Hcg. cbn [strict_equals value_eqb].
    erewrite on_files_run by apply Hfg. reflexivity.
  - intros [c f]. unfold run, DualStorage.pairs, bind.
    erewrite on_cache_run by apply Hcp.
    erewrite on_files_run by apply Hfp. reflexivity.
Qed.

(** C5, on the code: after [set("a", 1)], [has("a", { deny_read: true })]
    returns [true] in the cache and in the dual store, where the claim has
    [false]; the file store returns [false]. *)
Theorem C5_has_reads_despite_deny_read :
  result_of (CacheStorage.set "a" (VNum 1) DEFAULT_REQUEST_SETTINGS;;;
             CacheStorage.has "a" only_deny_read) CacheStorage.new
  = Ok true
  /\ result_of (DualStorage.set JSON.codec "a" (VNum 1) DEFAULT_REQUEST_SETTINGS;;;
                DualStorage.has "a" only_deny_read) (DualStorage.new FS.empty)
     = Ok true
  /\ result_of (FileStorage.set JSON.codec "a" (VNum 1) DEFAULT_REQUEST_SETTINGS;;;
                FileStorage.has "a" only_deny_read) FS.empty
     = Ok false.
Proof.
  repeat split; vm_compute; reflexivity.
Qed.

(* ================================================================== *)
(** ** C6: [modify] under [deny_write] *)
(* ================================================================== *)

(** In the cache, [modify] of a key that has an entry writes what the
    callback returns, whatever [deny_write] says. *)
Lemma SyncStorage_modify_cache (key : string) (settings : RequestSettings)
  (f : value -> value) (c : CacheStorage.t) :
  flag (ignore_cache settings) = false -> flag (deny_read settings) = false ->
  JsMap.has c key = true ->
  let d := f (JsMap.get c key) in
  run (SyncStorage.modify key (fun v _ => ret (f v)) settings) c
  = (Ok (strict_equals d d), JsMap.set c key d).
Proof.
  intros Hc Hr Hhas. unfold run, SyncStorage.modify, bind. cbn [has get set].
  cbn [CacheStorage_BaseStorage].
  rewrite CacheStorage_has_run by assumption. cbn [store]. rewrite Hhas.
  rewrite CacheStorage_get_run by assumption. unfold ret at 1.
  rewrite CacheStorage_set_run by reflexivity. reflexivity.
Qed.

(** C6, on the code: with ["a"] holding [1], [modify("a", () => 2,
    { deny_write: true })] returns [true] and leaves [2] at ["a"], in the
    cache through [SyncStorage.modify] and in the dual store (cache and
    file) through [AsyncStorage.modify]; the claim has [false] and [1]. *)
Theorem C6_modify_writes_despite_deny_write :
  run (CacheStorage.set "a" (VNum 1) DEFAULT_REQUEST_SETTINGS;;;
       SyncStorage.modify "a" (fun _ _ => ret (VNum 2)) only_deny_write)
      CacheStorage.new
  = (Ok true, [("a", VNum 2)])
  /\ run (DualStorage.set JSON.codec "a" (VNum 1) DEFAULT_REQUEST_SETTINGS;;;
          AsyncStorage.modify (H := DualStorage_BaseStorage JSON.codec)
            "a" (fun _ _ => ret (VNum 2)) only_deny_write)
         (DualStorage.new FS.empty)
     = (Ok true,
        DualStorage.mk [("a", VNum 2)]
          (FS.Dir [("data", FS.Dir [("a.json", FS.File "2")])])).
Proof.
  split; vm_compute; reflexivity.
Qed.

(* ================================================================== *)
(** ** C7: [get_all] *)
(* ================================================================== *)

(** In the cache, [get_all] returns the stored values that are truthy. *)
Lemma SyncStorage_get_all_cache (keys : list string) (c : CacheStorage.t) :
  run (SyncStorage.get_all keys DEFAULT_REQUEST_SETTINGS) c
  = (Ok (filter truthy (map (JsMap.get c) keys)), c).
Proof.
  assert (Hmap : forall w : World CacheStorage.t,
             map_M (fun key => get key DEFAULT_REQUEST_SETTINGS) keys w
             = (Ok (map (JsMap.get (store w)) keys), w)).
  { induction keys as [| key rest IH]; intros w; [reflexivity |].
    cbn [map_M map]. unfold bind. cbn [get CacheStorage_BaseStorage].
    rewrite CacheStorage_get_run by reflexivity. now rewrite IH. }
  unfold run, SyncStorage.get_all, bind. rewrite Hmap. unfold ret.
  cbn [store]. rewrite map_id. do 2 f_equal.
  apply filter_ext. intros v. now rewrite negb_involutive.
Qed.

(** C7, on the code: with [0], [1], the empty string and [false] stored
    under four keys, [get_all] of the four keys and of a key with no value
    returns [[1]] alone, in [SyncStorage] (cache) as in [AsyncStorage]
    (files), although [has] and [get] find each of the four. *)
Theorem C7_get_all_drops_falsy_values :
  let stored := [("zero", VNum 0); ("one", VNum 1); ("empty", VStr "");
                 ("no", VBool false)] in
  let keys := ["zero"; "one"; "empty"; "no"; "missing"] in
  result_of (SyncStorage.set_all stored DEFAULT_REQUEST_SETTINGS;;;
             h <- SyncStorage.has_all ["zero"; "one"; "empty"; "no"]
                    DEFAULT_REQUEST_SETTINGS;;
             zero <- CacheStorage.get "zero" DEFAULT_REQUEST_SETTINGS;;
             all <- SyncStorage.get_all keys DEFAULT_REQUEST_SETTINGS;;
             ret (h, zero, all)) CacheStorage.new
  = Ok (true, VNum 0, [VNum 1])
  /\ result_of (AsyncStorage.set_all (H := FileStorage_BaseStorage JSON.codec)
                  stored DEFAULT_REQUEST_SETTINGS;;;
                h <- AsyncStorage.has_all
                       (H := FileStorage_BaseStorage JSON.codec)
                       ["zero"; "one"; "empty"; "no"] DEFAULT_REQUEST_SETTINGS;;
                zero <- FileStorage.get JSON.codec "zero"
                          DEFAULT_REQUEST_SETTINGS;;
                all <- AsyncStorage.get_all
                         (H := FileStorage_BaseStorage JSON.codec)
                         keys DEFAULT_REQUEST_SETTINGS;;
                ret (h, zero, all)) FS.empty
     = Ok (true, VNum 0, [VNum 1]).
Proof.
  split; vm_compute; reflexivity.
Qed.

(* ================================================================== *)
(** ** C8: [FileStorage.pairs] *)
(* ================================================================== *)

Section PairsEntries.

Variable JSON : JSONCodec.
Variable settings : RequestSettings.

(** What [FileStorage.get] returns depends on the disk alone. *)
Lemma FileStorage_get_store (key : string) (w1 w2 : World FileStorage.t) :
  store w1 = store w2 ->
  fst (FileStorage.get JSON key settings w1)
  = fst (FileStorage.get JSON key settings w2).
Proof.
  intros E. unfold FileStorage.get.
  destruct (flag (ignore_files settings) || flag (deny_read settings));
    [reflexivity |].
  unfold bind, autoCatch, FS.readFile.
  destruct (FS.parse_path _) as [[p [|]] |]; try reflexivity.
  unfold FileStorage.t in E. rewrite E.
  destruct (FS.find_node _ p) as [[content | es] |]; try reflexivity.
  destruct (is_json settings); [| reflexivity].
  destruct (JSON_parse JSON content); reflexivity.
Qed.

(** The loop of [pairs] makes one entry for each regular file of the
    listing, in order, keyed by the path of the file, with the value [get]
    returns for that path taken as a key. *)
Lemma FileStorage_pairs_loop_entries (path : string) (content : list FS.Dirent) :
  forall (output ts : list tuple) (w w' : World FileStorage.t),
    FileStorage.pairs_loop JSON path settings content output w = (Ok ts, w') ->
    exists added,
      ts = (output ++ added)%list
      /\ map tuple_key added
         = map (fun d => path ++ FS.name d) (filter FS.isFile content)
      /\ Forall (fun t => fst (FileStorage.get JSON (tuple_key t) settings w)
                          = Ok (tuple_val t)) added
      /\ store w' = store w.
Proof.
  induction content as [| dirent rest IH]; intros output ts w w'.
  - simpl. unfold ret. intros [= <- <-]. exists [].
    rewrite app_nil_r. simpl. auto.
  - cbn [FileStorage.pairs_loop filter].
    destruct (FS.isFile dirent); cbn [negb]; [| apply IH].
    unfold bind at 1.
    destruct (FileStorage.get JSON _ settings w) as [[val | e] w1] eqn:Eg;
      [| discriminate].
    pose proof (FileStorage_get_world _ _ _ _ Eg) as ->.
    unfold bind at 1. unfold new_tuple at 1.
    intros Hloop. apply IH in Hloop as (added & -> & Hkeys & Hvals & Hstore).
    cbn [store] in Hstore.
    eexists (_ :: added). rewrite <- app_assoc. repeat split.
    + simpl. now rewrite Hkeys.
    + constructor.
      * cbn [tuple_key tuple_val]. now rewrite Eg.
      * eapply Forall_impl; [| exact Hvals]. intros t Ht.
        rewrite <- Ht. now apply FileStorage_get_store.
    + assumption.
Qed.

Lemma FileStorage_pairs_entries (dir : string) (content : list FS.Dirent)
  (ts : list tuple) (w w' : World FileStorage.t) :
  flag (ignore_files settings) || flag (deny_read settings) = false ->
  FS.readdir (__into_dir_path dir DEFAULT_DATA_ROOT) w = (Ok content, w) ->
  FileStorage.pairs JSON dir settings w = (Ok ts, w') ->
  map tuple_key ts
  = map (fun d => __into_dir_path dir DEFAULT_DATA_ROOT ++ FS.name d)
        (filter FS.isFile content)
  /\ Forall (fun t => fst (FileStorage.get JSON (tuple_key t) settings w)
                      = Ok (tuple_val t)) ts
  /\ store w' = store w.
Proof.
  intros Hflags Hdir. unfold FileStorage.pairs. rewrite Hflags.
  unfold bind, autoCatch. rewrite Hdir. intros Hloop.
  apply FileStorage_pairs_loop_entries in Hloop
    as (added & -> & Hkeys & Hvals & Hstore).
  auto.
Qed.

End PairsEntries.

(** C8, on the code: with [1] stored at ["users/a"] and [2] at
    ["users/sub/b"], [pairs("users")] returns the one entry
    [["data/users/a.json", undefined]]: the directory is skipped, but the
    key is the path of the file, which does not start with ["users"], and
    the value is what [get] finds at that path taken as a key, that is
    nothing, while [get("users/a")] returns [1]. *)
Theorem C8_pairs_returns_paths_without_values :
  result_of (FileStorage.set JSON.codec "users/a" (VNum 1)
               DEFAULT_REQUEST_SETTINGS;;;
             FileStorage.set JSON.codec "users/sub/b" (VNum 2)
               DEFAULT_REQUEST_SETTINGS;;;
             entries <- FileStorage.pairs JSON.codec "users"
                          DEFAULT_REQUEST_SETTINGS;;
             at_path <- FileStorage.get JSON.codec "data/users/a.json"
                          DEFAULT_REQUEST_SETTINGS;;
             at_key <- FileStorage.get JSON.codec "users/a"
                         DEFAULT_REQUEST_SETTINGS;;
             ret (entries_of entries, at_path, at_key)) FS.empty
  = Ok ([("data/users/a.json", VUndefined)], VUndefined, VNum 1)
  /\ JsString.startsWith "data/users/a.json" "users" = false.
Proof.
  split; vm_compute; reflexivity.
Qed.

(* ================================================================== *)
(** ** C9: [DualStorage.pairs] *)
(* ================================================================== *)

Section FreshTuples.

(** A set built from arrays with different identities keeps them all. *)
Lemma Set_of_distinct (items : list tuple) : forall seen : list nat,
  NoDup (map tuple_ref items) ->
  (forall r, In r (map tuple_ref items) -> ~ In r seen) ->
  Set_of seen items = items.
Proof.
  induction items as [| t rest IH]; intros seen Hnd Hseen; [reflexivity |].
  simpl in *. inversion Hnd as [| r l Hnotin Hnd']; subst.
  destruct (existsb (Nat.eqb (tuple_ref t)) seen) eqn:E.
  - apply existsb_exists in E as (r & Hin & Heq).
    apply Nat.eqb_eq in Heq. subst r.
    exfalso. apply (Hseen (tuple_ref t)); auto.
  - f_equal. apply IH; [assumption |].
    intros r Hr [<- | Hin]; [contradiction |].
    apply (Hseen r); auto.
Qed.

(** The tuples made from a list of entries carry the next identities. *)
Lemma map_M_new_tuple {St} (es : list (string * value)) : forall w : World St,
  exists ts,
    map_M (fun '(k, v) => new_tuple k v) es w
    = (Ok ts, mkWorld (allocated w + length ts) (store w))
    /\ map tuple_ref ts = seq (allocated w) (length ts)
    /\ entries_of ts = es.
Proof.
  induction es as [| [k v] rest IH]; intros w.
  - exists []. simpl. unfold ret. rewrite Nat.add_0_r. destruct w; auto.
  - destruct (IH (mkWorld (S (allocated w)) (store w))) as (ts & Hrun & Hrefs & Hent).
    exists (mkTuple (allocated w) k v :: ts).
    cbn [map_M]. unfold bind at 1. unfold new_tuple at 1.
    unfold bind at 1. rewrite Hrun. unfold ret. cbn [allocated store] in *.
    repeat split.
    + do 2 f_equal. simpl. lia.
    + simpl. now rewrite Hrefs.
    + unfold entries_of in *. simpl. now rewrite Hent.
Qed.

Lemma CacheStorage_pairs_fresh (dir : string) (settings : RequestSettings)
  (w : World CacheStorage.t) :
  exists ts,
    CacheStorage.pairs dir settings w
    = (Ok ts, mkWorld (allocated w + length ts) (store w))
    /\ map tuple_ref ts = seq (allocated w) (length ts).
Proof.
  unfold CacheStorage.pairs.
  destruct (flag (ignore_cache settings) || flag (deny_read settings)).
  - exists []. unfold ret. simpl. rewrite Nat.add_0_r. destruct w; auto.
  - unfold bind, get_store.
    destruct (map_M_new_tuple
                (filter (fun '(k, _) => JsString.startsWith k dir)
                        (JsMap.entries (store w))) w) as (ts & Hrun & Hrefs & _).
    exists ts. split; assumption.
Qed.

Variable JSON : JSONCodec.

Lemma FileStorage_pairs_loop_fresh (path : string) (settings : RequestSettings)
  (content : list FS.Dirent) :
  forall (output ts : list tuple) (w w' : World FileStorage.t),
    FileStorage.pairs_loop JSON path settings content output w = (Ok ts, w') ->
    exists added,
      ts = (output ++ added)%list
      /\ map tuple_ref added = seq (allocated w) (length added)
      /\ allocated w' = allocated w + length added.
Proof.
  induction content as [| dirent rest IH]; intros output ts w w'.
  - simpl. unfold ret. intros [= <- <-]. exists [].
    rewrite app_nil_r. simpl. auto.
  - cbn [FileStorage.pairs_loop].
    destruct (negb (FS.isFile dirent)); [apply IH |].
    unfold bind at 1.
    destruct (FileStorage.get JSON _ settings w) as [[val | e] w1] eqn:Eg;
      [| discriminate].
    apply FileStorage_get_world in Eg. subst w1.
    unfold bind at 1. unfold new_tuple at 1. cbn [allocated store].
    intros Hloop. apply IH in Hloop as (added & -> & Hrefs & Halloc).
    cbn [allocated] in *.
    eexists (_ :: added). rewrite <- app_assoc. repeat split.
    + simpl. now rewrite Hrefs.
    + simpl. lia.
Qed.

Lemma FileStorage_pairs_fresh (dir : string) (settings : RequestSettings)
  (ts : list tuple) (w w' : World FileStorage.t) :
  FileStorage.pairs JSON dir settings w = (Ok ts, w') ->
  map tuple_ref ts = seq (allocated w) (length ts).
Proof.
  unfold FileStorage.pairs.
  destruct (flag (ignore_files settings) || flag (deny_read settings));
    [unfold ret; intros [= <- _]; reflexivity |].
  unfold bind, autoCatch, FS.readdir.
  destruct (FS.parse_path _) as [[p b] |];
    [| unfold ret; intros [= <- _]; reflexivity].
  destruct (FS.find_node _ p) as [[c | es] |];
    try (unfold ret; intros [= <- _]; reflexivity).
  intros Hloop.
  apply FileStorage_pairs_loop_fresh in Hloop as (added & -> & Hrefs & _).
  exact Hrefs.
Qed.

(** [DualStorage.pairs] returns the entries of the cache followed by the
    entries of the files: the set removes none. *)
Lemma DualStorage_pairs_concat (dir : string) (settings : RequestSettings)
  (w : World DualStorage.t) (ts : list tuple) (w' : World DualStorage.t) :
  DualStorage.pairs JSON dir settings w = (Ok ts, w') ->
  exists cache files w1,
    DualStorage.on_cache (CacheStorage.pairs dir settings) w = (Ok cache, w1)
    /\ DualStorage.on_files (FileStorage.pairs JSON dir settings) w1
       = (Ok files, w')
    /\ ts = (cache ++ files)%list.
Proof.
  unfold DualStorage.pairs. unfold bind at 1.
  destruct (CacheStorage_pairs_fresh dir settings
              (mkWorld (allocated w) (DualStorage.__cache (store w))))
    as (cache & Hc & Hcrefs).
  erewrite on_cache_run by exact Hc.
  cbn [allocated store] in *. unfold bind at 1.
  match goal with
  | |- context [DualStorage.on_files ?m ?w1] =>
      destruct (m (mkWorld (allocated w1) (DualStorage.__files (store w1))))
        as [[files | e] wf] eqn:Ef;
      rewrite (@on_files_run w1 _ m _ _ Ef); [| discriminate]
  end.
  cbn [allocated store DualStorage.__files DualStorage.__cache] in *.
  pose proof (FileStorage_pairs_fresh _ _ _ Ef) as Hfrefs.
  cbn [allocated] in Hfrefs.
  unfold ret. intros E. injection E as Hts Hw'.
  exists cache, files. eexists. split; [reflexivity | split].
  - erewrite on_files_run by exact Ef. now rewrite <- Hw'.
  - rewrite <- Hts. apply Set_of_distinct.
    + rewrite map_app, Hcrefs, Hfrefs, <- seq_app. apply seq_NoDup.
    + intros r _ [].
Qed.

End FreshTuples.

(** C9, on the code.  After [set("users/a", 1)] on a new dual store,
    [pairs("users/")] has two entries for the one key stored, the entry of
    the cache and the entry of the files.  After [set("data/x", 1)] and
    [set("data/data/x.json", 1)], [pairs("data")] has the entry
    [["data/data/x.json", 1]] twice, once from each layer: [new Set] keeps
    both, the two tuples being different arrays. *)
Theorem C9_pairs_keeps_both_entries :
  result_of (DualStorage.set JSON.codec "users/a" (VNum 1)
               DEFAULT_REQUEST_SETTINGS;;;
             entries <- DualStorage.pairs JSON.codec "users/"
                          DEFAULT_REQUEST_SETTINGS;;
             ret (entries_of entries)) (DualStorage.new FS.empty)
  = Ok [("users/a", VNum 1); ("data/users/a.json", VUndefined)]
  /\ result_of (DualStorage.set JSON.codec "data/x" (VNum 1)
                  DEFAULT_REQUEST_SETTINGS;;;
                DualStorage.set JSON.codec "data/data/x.json" (VNum 1)
                  DEFAULT_REQUEST_SETTINGS;;;
                entries <- DualStorage.pairs JSON.codec "data"
                             DEFAULT_REQUEST_SETTINGS;;
                ret (entries_of entries)) (DualStorage.new FS.empty)
     = Ok [("data/x", VNum 1); ("data/data/x.json", VNum 1);
           ("data/data/x.json", VNum 1)].
Proof.
  split; vm_compute; reflexivity.
Qed.

(* ================================================================== *)
(** ** More about the cache *)
(* ================================================================== *)

Lemma value_eqb_refl : forall v : value, value_eqb v v = true.
Proof.
  fix IH 1.
  intros [ | | b | n | | s | items | fields | n | id]; simpl;
    try reflexivity.
  - apply Bool.eqb_reflx.
  - apply Z.eqb_refl.
  - apply String.eqb_refl.
  - revert items. fix IHitems 1. intros [| x xs]; [reflexivity |].
    rewrite IH. simpl. apply IHitems.
  - revert fields. fix IHfields 1. intros [| [k x] fs]; [reflexivity |].
    rewrite String.eqb_refl, IH. simpl. apply IHfields.
  - apply Z.eqb_refl.
  - apply Nat.eqb_refl.
Qed.

(** [v === v] fails for [NaN] alone. *)
Lemma strict_equals_self (v : value) :
  strict_equals v v = match v with VNaN => false | _ => true end.
Proof.
  destruct v; try reflexivity; unfold strict_equals; apply value_eqb_refl.
Qed.

Section JsMapFrame.

Variables (m : JsMap.t) (key key' : string).
Hypothesis Hother : key' <> key.

Lemma JsMap_get_set_other (data : value) :
  JsMap.get (JsMap.set m key data) key' = JsMap.get m key'.
Proof.
  induction m as [| [k v] m' IH]; simpl.
  - destruct (String.eqb_spec key key'); [congruence | reflexivity].
  - destruct (String.eqb_spec k key) as [-> | Hk]; simpl.
    + destruct (String.eqb_spec key key'); [congruence | reflexivity].
    + destruct (String.eqb k key'); [reflexivity | assumption].
Qed.

Lemma JsMap_has_set_other (data : value) :
  JsMap.has (JsMap.set m key data) key' = JsMap.has m key'.
Proof.
  induction m as [| [k v] m' IH]; simpl.
  - destruct (String.eqb_spec key key'); [congruence | reflexivity].
  - destruct (String.eqb_spec k key) as [-> | Hk]; simpl.
    + destruct (String.eqb_spec key key'); [congruence | reflexivity].
    + destruct (String.eqb k key'); [reflexivity | assumption].
Qed.

Lemma JsMap_get_delete_other :
  JsMap.get (JsMap.delete m key) key' = JsMap.get m key'.
Proof.
  induction m as [| [k v] m' IH]; simpl; [reflexivity |].
  destruct (String.eqb_spec k key) as [-> | Hk]; simpl.
  - destruct (String.eqb_spec key key'); [congruence | assumption].
  - destruct (String.eqb k key'); [reflexivity | assumption].
Qed.

Lemma JsMap_has_delete_other :
  JsMap.has (JsMap.delete m key) key' = JsMap.has m key'.
Proof.
  induction m as [| [k v] m' IH]; simpl; [reflexivity |].
  destruct (String.eqb_spec k key) as [-> | Hk]; simpl.
  - destruct (String.eqb_spec key key'); [congruence | assumption].
  - destruct (String.eqb k key'); [reflexivity | assumption].
Qed.

End JsMapFrame.

(** What [set] and [del] of the cache leave, whatever the settings. *)
Lemma CacheStorage_set_store (key : string) (data : value)
  (settings : RequestSettings) (c : CacheStorage.t) :
  store_after (CacheStorage.set key data settings) c
  = if flag (ignore_cache settings) || flag (deny_write settings) then c
    else JsMap.set c key data.
Proof.
  unfold store_after, run, CacheStorage.set.
  destruct (flag (ignore_cache settings) || flag (deny_write settings));
    reflexivity.
Qed.

Lemma CacheStorage_del_store (key : string) (settings : RequestSettings)
  (c : CacheStorage.t) :
  store_after (CacheStorage.del key settings) c
  = if flag (ignore_cache settings) || flag (deny_write settings) then c
    else JsMap.delete c key.
Proof.
  unfold store_after, run, CacheStorage.del.
  destruct (flag (ignore_cache settings) || flag (deny_write settings));
    reflexivity.
Qed.

(** What [has] and [get] of the cache return depends on the map alone. *)
Lemma CacheStorage_has_result (key : string) (settings : RequestSettings)
  (c : CacheStorage.t) :
  result_of (CacheStorage.has key settings) c
  = Ok (if flag (ignore_cache settings) then false else JsMap.has c key).
Proof.
  unfold result_of, run, CacheStorage.has.
  destruct (flag (ignore_cache settings)); reflexivity.
Qed.

Lemma CacheStorage_get_result (key : string) (settings : RequestSettings)
  (c : CacheStorage.t) :
  result_of (CacheStorage.get key settings) c
  = Ok (if flag (ignore_cache settings) || flag (deny_read settings)
        then VUndefined else JsMap.get c key).
Proof.
  unfold result_of, run, CacheStorage.get.
  destruct (flag (ignore_cache settings) || flag (deny_read settings));
    reflexivity.
Qed.

(** X1.  In the cache, [set] and [del] of a key change nothing for another
    key: [has] and [get] of the other key, asked with any settings,
    return after the write what they returned before it. *)
Theorem X1_cache_write_is_local (key key' : string) (data : value)
  (settings settings' : RequestSettings) (c : CacheStorage.t) :
  key' <> key ->
  let after_set := store_after (CacheStorage.set key data settings) c in
  let after_del := store_after (CacheStorage.del key settings) c in
  result_of (CacheStorage.has key' settings') after_set
  = result_of (CacheStorage.has key' settings') c
  /\ result_of (CacheStorage.get key' settings') after_set
     = result_of (CacheStorage.get key' settings') c
  /\ result_of (CacheStorage.has key' settings') after_del
     = result_of (CacheStorage.has key' settings') c
  /\ result_of (CacheStorage.get key' settings') after_del
     = result_of (CacheStorage.get key' settings') c.
Proof.
  intros Hother after_set after_del. subst after_set after_del.
  rewrite CacheStorage_set_store, CacheStorage_del_store.
  rewrite !CacheStorage_has_result, !CacheStorage_get_result.
  destruct (flag (ignore_cache settings) || flag (deny_write settings));
    [repeat split |].
  rewrite (JsMap_has_set_other _ Hother), (JsMap_get_set_other _ Hother),
    (JsMap_has_delete_other _ Hother), (JsMap_get_delete_other _ Hother).
  repeat split.
Qed.

(** X1 at work. *)
Lemma X1_cache_write_is_local_witness :
  let c := [("a", VNum 1); ("b", VNum 2)] in
  result_of (CacheStorage.get "b" DEFAULT_REQUEST_SETTINGS)
            (store_after (CacheStorage.set "a" (VNum 7)
                            DEFAULT_REQUEST_SETTINGS) c)
  = result_of (CacheStorage.get "b" DEFAULT_REQUEST_SETTINGS) c.
Proof.
  intros c.
  apply (@X1_cache_write_is_local "a" "b" (VNum 7) DEFAULT_REQUEST_SETTINGS
           DEFAULT_REQUEST_SETTINGS c).
  discriminate.
Defined.

Lemma JsMap_has_In (m : JsMap.t) (key : string) :
  JsMap.has m key = true <-> In key (map fst m).
Proof.
  induction m as [| [k v] m' IH]; simpl; [split; [discriminate | tauto] |].
  destruct (String.eqb_spec k key) as [-> | Hk]; [tauto |].
  rewrite IH. split; [auto | intros [E | H]; [contradiction | assumption]].
Qed.

Lemma JsMap_set_keys (m : JsMap.t) (key : string) (data : value) :
  map fst (JsMap.set m key data)
  = if JsMap.has m key then map fst m else (map fst m ++ [key])%list.
Proof.
  induction m as [| [k v] m' IH]; simpl; [reflexivity |].
  destruct (String.eqb k key); simpl; [reflexivity |].
  rewrite IH. destruct (JsMap.has m' key); reflexivity.
Qed.

Lemma JsMap_delete_keys (m : JsMap.t) (key : string) :
  map fst (JsMap.delete m key)
  = filter (fun k => negb (String.eqb k key)) (map fst m).
Proof.
  induction m as [| [k v] m' IH]; simpl; [reflexivity |].
  destruct (String.eqb k key); simpl; now rewrite IH.
Qed.

Lemma NoDup_keys_filter {A} (f : string * A -> bool) (l : list (string * A)) :
  NoDup (map fst l) -> NoDup (map fst (filter f l)).
Proof.
  induction l as [| [k v] l' IH]; simpl; [auto |].
  intros Hnd. inversion Hnd as [| x xs Hnotin Hnd']; subst.
  destruct (f (k, v)); simpl; [| auto].
  constructor; [| auto].
  intros Hin. apply Hnotin.
  apply in_map_iff in Hin as ([k' v'] & Hk & Hin). simpl in Hk. subst k'.
  apply filter_In in Hin as [Hin _].
  apply in_map_iff. exists (k, v'). auto.
Qed.

(** What [pairs] of the cache returns: a new tuple for each entry whose key
    starts with [dir], in the order of the map. *)
Lemma CacheStorage_pairs_run (dir : string) (settings : RequestSettings)
  (w : World CacheStorage.t) :
  exists ts,
    CacheStorage.pairs dir settings w
    = (Ok ts, mkWorld (allocated w + length ts) (store w))
    /\ entries_of ts
       = if flag (ignore_cache settings) || flag (deny_read settings) then []
         else filter (fun '(k, _) => JsString.startsWith k dir) (store w).
Proof.
  unfold CacheStorage.pairs.
  destruct (flag (ignore_cache settings) || flag (deny_read settings)).
  - exists []. unfold ret. simpl. rewrite Nat.add_0_r. destruct w; auto.
  - unfold bind, get_store.
    destruct (map_M_new_tuple
                (filter (fun '(k, _) => JsString.startsWith k dir)
                        (JsMap.entries (store w))) w) as (ts & Hrun & _ & Hent).
    exists ts. split; assumption.
Qed.

(** X2.  The keys of the cache stay distinct: a new cache has no key, and
    [set] and [del], with any arguments and settings, turn a map with
    distinct keys into a map with distinct keys; so [pairs] never returns
    a key twice. *)
Theorem X2_cache_keys_stay_distinct (key dir : string) (data : value)
  (settings : RequestSettings) (c : CacheStorage.t) :
  NoDup (map fst CacheStorage.new)
  /\ (NoDup (map fst c) ->
      NoDup (map fst (store_after (CacheStorage.set key data settings) c))
      /\ NoDup (map fst (store_after (CacheStorage.del key settings) c))
      /\ forall ts, result_of (CacheStorage.pairs dir settings) c = Ok ts ->
                    NoDup (map tuple_key ts)).
Proof.
  split; [constructor |]. intros Hnd.
  rewrite CacheStorage_set_store, CacheStorage_del_store.
  split; [| split].
  - destruct (flag (ignore_cache settings) || flag (deny_write settings));
      [assumption |].
    rewrite JsMap_set_keys. destruct (JsMap.has c key) eqn:Hhas; [assumption |].
    apply NoDup_app; [assumption | repeat constructor; auto |].
    intros k Hin [<- | []].
    apply JsMap_has_In in Hin. congruence.
  - destruct (flag (ignore_cache settings) || flag (deny_write settings));
      [assumption |].
    rewrite JsMap_delete_keys. now apply NoDup_filter.
  - intros ts. unfold result_of, run.
    destruct (CacheStorage_pairs_run dir settings (mkWorld 0 c))
      as (ts' & Hrun & Hent).
    rewrite Hrun. cbn [fst store]. intros [= <-].
    replace (map tuple_key ts') with (map fst (entries_of ts'))
      by (unfold entries_of; rewrite map_map; reflexivity).
    rewrite Hent.
    destruct (flag (ignore_cache settings) || flag (deny_read settings));
      [constructor | now apply NoDup_keys_filter].
Qed.

(** X2 at work. *)
Lemma X2_cache_keys_stay_distinct_witness :
  NoDup (map fst (store_after (CacheStorage.set "a" (VNum 7)
                                 DEFAULT_REQUEST_SETTINGS)
                              [("a", VNum 1); ("b", VNum 2)])).
Proof.
  apply (@X2_cache_keys_stay_distinct "a" "" (VNum 7) DEFAULT_REQUEST_SETTINGS
           [("a", VNum 1); ("b", VNum 2)]).
  repeat constructor; simpl; intuition discriminate.
Defined.

(** X3.  With settings that neither ignore the cache nor deny reading,
    [pairs(dir)] of the cache returns the entries of the map whose key
    starts with [dir], each once, in insertion order, [keys(dir)] their
    keys and [values(dir)] their values, and none of the three changes the
    map.  So an entry is returned exactly when it is stored and its key
    starts with [dir]. *)
Theorem X3_cache_pairs_by_prefix (dir : string) (settings : RequestSettings)
  (c : CacheStorage.t) :
  flag (ignore_cache settings) || flag (deny_read settings) = false ->
  let matching := filter (fun '(k, _) => JsString.startsWith k dir) c in
  (exists ts, run (CacheStorage.pairs dir settings) c = (Ok ts, c)
              /\ entries_of ts = matching)
  /\ run (SyncStorage.keys dir settings) c = (Ok (map fst matching), c)
  /\ run (SyncStorage.values dir settings) c = (Ok (map snd matching), c)
  /\ (forall k v, In (k, v) matching
                  <-> In (k, v) c /\ JsString.startsWith k dir = true).
Proof.
  intros Hflags matching.
  destruct (CacheStorage_pairs_run dir settings (mkWorld 0 c))
    as (ts & Hrun & Hent).
  rewrite Hflags in Hent. cbn [store] in Hent.
  split; [| split; [| split]].
  - exists ts. unfold run. rewrite Hrun. auto.
  - unfold run, SyncStorage.keys, bind. cbn [pairs CacheStorage_BaseStorage].
    rewrite Hrun. unfold ret. cbn [store]. subst matching. rewrite <- Hent.
    unfold entries_of. now rewrite map_map.
  - unfold run, SyncStorage.values, bind. cbn [pairs CacheStorage_BaseStorage].
    rewrite Hrun. unfold ret. cbn [store]. subst matching. rewrite <- Hent.
    unfold entries_of. now rewrite map_map.
  - intros k v. subst matching. rewrite filter_In. reflexivity.
Qed.

(** X3 at work: the prefix ["users/"] keeps ["users/a"] and leaves out
    ["users"] and ["admins/b"]. *)
Lemma X3_cache_pairs_by_prefix_witness :
  run (SyncStorage.keys "users/" DEFAULT_REQUEST_SETTINGS)
      [("users", VNum 0); ("users/a", VNum 1); ("admins/b", VNum 2)]
  = (Ok ["users/a"],
     [("users", VNum 0); ("users/a", VNum 1); ("admins/b", VNum 2)]).
Proof.
  apply (@X3_cache_pairs_by_prefix "users/" DEFAULT_REQUEST_SETTINGS
           [("users", VNum 0); ("users/a", VNum 1); ("admins/b", VNum 2)]
           eq_refl).
Defined.

(* ================================================================== *)
(** ** Batch operations on the cache *)
(* ================================================================== *)

Section PureLoops.

Context {St A : Type}.
Variable f : A -> M St bool.
Variable g : A -> St -> bool.
Hypothesis Hpure : forall x w, f x w = (Ok (g x (store w)), w).

Lemma every_pure (items : list A) (w : World St) :
  every f items w = (Ok (forallb (fun x => g x (store w)) items), w).
Proof.
  induction items as [| x rest IH]; [reflexivity |].
  cbn [every forallb]. unfold bind. rewrite Hpure.
  destruct (g x (store w)); [exact IH | reflexivity].
Qed.

Lemma some_pure (items : list A) (w : World St) :
  some f items w = (Ok (existsb (fun x => g x (store w)) items), w).
Proof.
  induction items as [| x rest IH]; [reflexivity |].
  cbn [some existsb]. unfold bind. rewrite Hpure.
  destruct (g x (store w)); [reflexivity | exact IH].
Qed.

End PureLoops.

(** X4.  With settings that neither ignore the cache nor deny reading, and
    a predicate [q] without effects: on the cache, [has_all] is true
    exactly when every key has an entry and [has_any] when some key has;
    [assert] is true exactly when the key has an entry and [q] holds of
    its value; [assert_all] and [assert_any] are the conjunction and the
    disjunction of [assert] over the keys.  None of them changes the map,
    and this is so in [SyncStorage] as in [AsyncStorage]. *)
Theorem X4_cache_queries (keys : list string) (settings : RequestSettings)
  (q : value -> string -> bool) (c : CacheStorage.t) :
  flag (ignore_cache settings) || flag (deny_read settings) = false ->
  let holds key := JsMap.has c key && q (JsMap.get c key) key in
  let predicate : DataPredicate CacheStorage.t := fun v key => ret (q v key) in
  (run (SyncStorage.has_all keys settings) c
   = (Ok (forallb (JsMap.has c) keys), c)
   /\ run (SyncStorage.has_any keys settings) c
      = (Ok (existsb (JsMap.has c) keys), c)
   /\ run (SyncStorage.assert_all keys predicate settings) c
      = (Ok (forallb holds keys), c)
   /\ run (SyncStorage.assert_any keys predicate settings) c
      = (Ok (existsb holds keys), c))
  /\
  (run (AsyncStorage.has_all keys settings) c
   = (Ok (forallb (JsMap.has c) keys), c)
   /\ run (AsyncStorage.has_any keys settings) c
      = (Ok (existsb (JsMap.has c) keys), c)
   /\ run (AsyncStorage.assert_all keys predicate settings) c
      = (Ok (forallb holds keys), c)
   /\ run (AsyncStorage.assert_any keys predicate settings) c
      = (Ok (existsb holds keys), c)).
Proof.
  intros Hflags holds predicate.
  apply orb_false_iff in Hflags as [Hc Hr].
  assert (Hhas : forall key (w : World CacheStorage.t),
             has key settings w = (Ok (JsMap.has (store w) key), w)).
  { intros key w. now apply CacheStorage_has_run. }
  assert (Hassert : forall key (w : World CacheStorage.t),
             SyncStorage.assert key predicate settings w
             = (Ok (JsMap.has (store w) key
                    && q (JsMap.get (store w) key) key), w)).
  { intros key w. unfold SyncStorage.assert, bind. rewrite Hhas.
    destruct (JsMap.has (store w) key); [| reflexivity].
    cbn [get CacheStorage_BaseStorage].
    rewrite CacheStorage_get_run by assumption. reflexivity. }
  assert (Hsync :
    run (SyncStorage.has_all keys settings) c
    = (Ok (forallb (JsMap.has c) keys), c)
    /\ run (SyncStorage.has_any keys settings) c
       = (Ok (existsb (JsMap.has c) keys), c)
    /\ run (SyncStorage.assert_all keys predicate settings) c
       = (Ok (forallb holds keys), c)
    /\ run (SyncStorage.assert_any keys predicate settings) c
       = (Ok (existsb holds keys), c)).
  { unfold run, SyncStorage.has_all, SyncStorage.has_any,
      SyncStorage.assert_all, SyncStorage.assert_any.
    rewrite for_and_every, for_or_some.
    rewrite (every_pure _ (fun key m => JsMap.has m key) Hhas).
    rewrite (some_pure _ (fun key m => JsMap.has m key) Hhas).
    rewrite (every_pure _ (fun key m => JsMap.has m key && q (JsMap.get m key) key)
               Hassert).
    rewrite (some_pure _ (fun key m => JsMap.has m key && q (JsMap.get m key) key)
               Hassert).
    repeat split. }
  split; [exact Hsync |].
  destruct Hsync as (H1 & H2 & H3 & H4).
  unfold run in *.
  unfold AsyncStorage.has_all, AsyncStorage.has_any, AsyncStorage.assert_all,
    AsyncStorage.assert_any.
  unfold SyncStorage.has_all, SyncStorage.has_any, SyncStorage.assert_all,
    SyncStorage.assert_any in *.
  rewrite !for_and_every, !for_or_some.
  rewrite for_and_every in H3. rewrite for_or_some in H4.
  repeat split; assumption.
Qed.

(** X4 at work. *)
Lemma X4_cache_queries_witness :
  run (SyncStorage.has_all ["a"; "b"] DEFAULT_REQUEST_SETTINGS)
      [("a", VNum 1); ("b", VNum 0)]
  = (Ok true, [("a", VNum 1); ("b", VNum 0)])
  /\ run (AsyncStorage.assert_all ["a"; "b"] (fun v _ => ret (truthy v))
            DEFAULT_REQUEST_SETTINGS) [("a", VNum 1); ("b", VNum 0)]
     = (Ok false, [("a", VNum 1); ("b", VNum 0)]).
Proof.
  destruct (@X4_cache_queries ["a"; "b"] DEFAULT_REQUEST_SETTINGS
              (fun v _ => truthy v) [("a", VNum 1); ("b", VNum 0)] eq_refl)
    as ((Hall & _) & (_ & _ & Hassert & _)).
  split; [exact Hall | exact Hassert].
Defined.

Lemma JsMap_delete_absent (m : JsMap.t) (key : string) :
  JsMap.has m key = false -> JsMap.delete m key = m.
Proof.
  induction m as [| [k v] m' IH]; simpl; [reflexivity |].
  destruct (String.eqb k key); [discriminate |].
  intros E. now rewrite IH.
Qed.

Lemma fold_delete_absent (keys : list string) : forall (m : JsMap.t) (key : string),
  JsMap.has m key = false ->
  JsMap.has (fold_left JsMap.delete keys m) key = false.
Proof.
  induction keys as [| k rest IH]; intros m key Habsent; [assumption |].
  cbn [fold_left]. apply IH.
  destruct (String.eqb_spec key k) as [-> | Hne].
  - apply JsMap_has_delete.
  - now rewrite JsMap_has_delete_other.
Qed.

Section CacheWrites.

Variable settings : RequestSettings.
Hypothesis Hflags :
  flag (ignore_cache settings) || flag (deny_write settings) = false.

Lemma CacheStorage_set_result (key : string) (data : value)
  (w : World CacheStorage.t) :
  CacheStorage.set key data settings w
  = (Ok (match data with VNaN => false | _ => true end),
     mkWorld (allocated w) (JsMap.set (store w) key data)).
Proof.
  apply orb_false_iff in Hflags as [Hc Hw].
  rewrite CacheStorage_set_run by assumption.
  now rewrite strict_equals_self.
Qed.

Lemma set_all_no_NaN (pairs : list (string * value)) :
  forall w : World CacheStorage.t,
    Forall (fun p => snd p <> VNaN) pairs ->
    every (fun '(key, val) => set key val settings) pairs w
    = (Ok true,
       mkWorld (allocated w)
         (fold_left (fun m '(key, val) => JsMap.set m key val) pairs (store w))).
Proof.
  induction pairs as [| [key val] rest IH]; intros w Hall.
  - destruct w; reflexivity.
  - inversion Hall as [| p l Hval Hrest]; subst. cbn [every fold_left].
    unfold bind. cbn [set CacheStorage_BaseStorage].
    rewrite CacheStorage_set_result.
    destruct val; try (rewrite IH by assumption; reflexivity).
    now contradiction Hval.
Qed.

Lemma del_all_present (keys : list string) :
  forall w : World CacheStorage.t,
    NoDup keys -> Forall (fun key => JsMap.has (store w) key = true) keys ->
    every (fun key => del key settings) keys w
    = (Ok true,
       mkWorld (allocated w) (fold_left JsMap.delete keys (store w))).
Proof.
  apply orb_false_iff in Hflags as [Hc Hw].
  induction keys as [| key rest IH]; intros w Hnd Hall.
  - destruct w; reflexivity.
  - inversion Hnd as [| k l Hnotin Hnd']; subst.
    inversion Hall as [| k l Hkey Hrest]; subst.
    cbn [every fold_left]. unfold bind. cbn [del CacheStorage_BaseStorage].
    rewrite CacheStorage_del_run by assumption. rewrite Hkey.
    rewrite IH; [reflexivity | assumption |].
    cbn [store]. rewrite Forall_forall in *. intros k Hk.
    rewrite JsMap_has_delete_other; [now apply Hrest |].
    intros ->. contradiction.
Qed.

End CacheWrites.

(** X5.  With settings that neither ignore the cache nor deny writing,
    [set] of the cache always stores the value, and returns [false] for
    [NaN] and [true] for every other value.  So [set_all] of pairs without
    a [NaN] value returns [true] and has stored every pair, a later pair
    of a key overwriting an earlier one; and [set_all] stops after the
    first pair with a [NaN] value: it returns [false], that pair and the
    pairs before it are stored, the pairs after it are not. *)
Theorem X5_cache_set_all (settings : RequestSettings)
  (before after : list (string * value)) (key : string) (data : value)
  (c : CacheStorage.t) :
  flag (ignore_cache settings) || flag (deny_write settings) = false ->
  Forall (fun p => snd p <> VNaN) before ->
  let store_all := fold_left (fun m '(k, v) => JsMap.set m k v) in
  run (CacheStorage.set key data settings) c
  = (Ok (match data with VNaN => false | _ => true end), JsMap.set c key data)
  /\ run (SyncStorage.set_all before settings) c = (Ok true, store_all before c)
  /\ run (SyncStorage.set_all (before ++ (key, VNaN) :: after) settings) c
     = (Ok false, JsMap.set (store_all before c) key VNaN)
  /\ run (AsyncStorage.set_all (before ++ (key, VNaN) :: after) settings) c
     = (Ok false, JsMap.set (store_all before c) key VNaN).
Proof.
  intros Hflags Hbefore store_all.
  assert (Hstop : forall w : World CacheStorage.t,
             every (fun '(k, v) => set k v settings)
                   (before ++ (key, VNaN) :: after) w
             = (Ok false,
                mkWorld (allocated w)
                  (JsMap.set (store_all before (store w)) key VNaN))).
  { induction before as [| [k v] rest IH]; intros w.
    - cbn [app every]. unfold bind. cbn [set CacheStorage_BaseStorage].
      now rewrite (@CacheStorage_set_result _ Hflags).
    - inversion Hbefore as [| p l Hv Hrest]; subst.
      cbn [app every]. unfold bind. cbn [set CacheStorage_BaseStorage].
      rewrite (@CacheStorage_set_result _ Hflags).
      destruct v; try (rewrite (IH Hrest); reflexivity).
      now contradiction Hv. }
  split; [| split; [| split]].
  - unfold run. now rewrite (@CacheStorage_set_result _ Hflags).
  - unfold run, SyncStorage.set_all.
    now rewrite (@set_all_no_NaN _ Hflags _ _ Hbefore).
  - unfold run, SyncStorage.set_all. now rewrite Hstop.
  - unfold run, AsyncStorage.set_all. rewrite for_and_every. now rewrite Hstop.
Qed.

(** X5 at work. *)
Lemma X5_cache_set_all_witness :
  run (SyncStorage.set_all [("a", VNum 1); ("b", VNaN); ("c", VNum 3)]
         DEFAULT_REQUEST_SETTINGS) CacheStorage.new
  = (Ok false, [("a", VNum 1); ("b", VNaN)]).
Proof.
  apply (@X5_cache_set_all DEFAULT_REQUEST_SETTINGS [("a", VNum 1)]
           [("c", VNum 3)] "b" VNull CacheStorage.new eq_refl).
  repeat constructor. discriminate.
Defined.

(** X6.  With settings that neither ignore the cache nor deny writing,
    [del_all] of the cache stops at the first key that has no entry: it
    returns [false], the keys before it are removed (they had an entry)
    and the keys after it are left as they are.  When the keys are
    distinct and each has an entry, [del_all] returns [true] and removes
    them all. *)
Theorem X6_cache_del_all (settings : RequestSettings)
  (before after : list string) (key : string) (c : CacheStorage.t) :
  flag (ignore_cache settings) || flag (deny_write settings) = false ->
  NoDup before -> Forall (fun k => JsMap.has c k = true) before ->
  let removed := fold_left JsMap.delete before c in
  run (SyncStorage.del_all before settings) c = (Ok true, removed)
  /\ run (AsyncStorage.del_all before settings) c = (Ok true, removed)
  /\ Forall (fun k => JsMap.has removed k = false) before
  /\ (JsMap.has removed key = false ->
      run (SyncStorage.del_all (before ++ key :: after) settings) c
      = (Ok false, removed)
      /\ run (AsyncStorage.del_all (before ++ key :: after) settings) c
         = (Ok false, removed)).
Proof.
  intros Hflags Hnd Hall removed.
  assert (Hstop : JsMap.has removed key = false ->
            forall n, every (fun k => del k settings) (before ++ key :: after)
                        (mkWorld n c)
                      = (Ok false, mkWorld n removed)).
  { subst removed. revert c Hall.
    induction before as [| k rest IH]; intros c Hall Habsent n.
    - cbn [app every fold_left] in *. unfold bind.
      cbn [del CacheStorage_BaseStorage].
      apply orb_false_iff in Hflags as [Hc Hw].
      rewrite CacheStorage_del_run by assumption. cbn [store allocated].
      rewrite Habsent. now rewrite (JsMap_delete_absent _ _ Habsent).
    - inversion Hnd as [| x l Hnotin Hnd']; subst.
      inversion Hall as [| x l Hk Hrest]; subst.
      cbn [app every fold_left] in *. unfold bind.
      cbn [del CacheStorage_BaseStorage].
      pose proof Hflags as Hflags'.
      apply orb_false_iff in Hflags' as [Hc Hw].
      rewrite CacheStorage_del_run by assumption. cbn [store allocated].
      rewrite Hk. apply IH; [assumption | | assumption].
      rewrite Forall_forall in *. intros x Hx.
      rewrite JsMap_has_delete_other; [now apply Hrest |].
      intros ->. contradiction. }
  assert (Hgone : Forall (fun k => JsMap.has removed k = false) before).
  { subst removed. clear Hstop Hall. revert c.
    induction before as [| k rest IH]; intros c; [constructor |].
    inversion Hnd as [| x l Hnotin Hnd']; subst.
    cbn [fold_left]. constructor; [| now apply IH].
    apply fold_delete_absent, JsMap_has_delete. }
  split; [| split; [| split]].
  - unfold run, SyncStorage.del_all.
    now rewrite (@del_all_present _ Hflags _ (mkWorld 0 c) Hnd Hall).
  - unfold run, AsyncStorage.del_all. rewrite for_and_every.
    now rewrite (@del_all_present _ Hflags _ (mkWorld 0 c) Hnd Hall).
  - exact Hgone.
  - intros Habsent. split.
    + unfold run, SyncStorage.del_all. now rewrite (Hstop Habsent).
    + unfold run, AsyncStorage.del_all. rewrite for_and_every.
      now rewrite (Hstop Habsent).
Qed.

(** X6 at work: ["b"] has no entry, so ["c"] is not removed. *)
Lemma X6_cache_del_all_witness :
  run (SyncStorage.del_all ["a"; "b"; "c"] DEFAULT_REQUEST_SETTINGS)
      [("a", VNum 1); ("c", VNum 3)]
  = (Ok false, [("c", VNum 3)]).
Proof.
  refine (proj1 (proj2 (proj2 (proj2
    (@X6_cache_del_all DEFAULT_REQUEST_SETTINGS ["a"] ["c"] "b"
       [("a", VNum 1); ("c", VNum 3)] eq_refl _ _))) eq_refl)).
  - repeat constructor. simpl. tauto.
  - repeat constructor.
Defined.

(* ================================================================== *)
(** ** Writes that are denied, layers that are ignored *)
(* ================================================================== *)

Section Refused.

Variable JSON : JSONCodec.
Variables (key : string) (data : value) (settings : RequestSettings).

Lemma CacheStorage_write_refused (w : World CacheStorage.t) :
  flag (ignore_cache settings) || flag (deny_write settings) = true ->
  CacheStorage.set key data settings w = (Ok false, w)
  /\ CacheStorage.del key settings w = (Ok false, w).
Proof.
  intros E. unfold CacheStorage.set, CacheStorage.del. rewrite E. auto.
Qed.

Lemma FileStorage_write_refused (w : World FileStorage.t) :
  flag (ignore_files settings) || flag (deny_write settings) = true ->
  FileStorage.set JSON key data settings w = (Ok false, w)
  /\ FileStorage.del key settings w = (Ok false, w).
Proof.
  intros E. unfold FileStorage.set, FileStorage.del. rewrite E. auto.
Qed.

Lemma DualStorage_write_refused (d : DualStorage.t) :
  flag (ignore_cache settings) || flag (deny_write settings) = true ->
  flag (ignore_files settings) || flag (deny_write settings) = true ->
  let outcome := flag (ignore_cache settings) && flag (ignore_files settings) in
  run (DualStorage.set JSON key data settings) d = (Ok outcome, d)
  /\ run (DualStorage.del key settings) d = (Ok outcome, d).
Proof.
  intros Ec Ef. destruct d as [c f].
  unfold run, DualStorage.set, DualStorage.del, bind.
  erewrite !on_cache_run by (apply CacheStorage_write_refused; exact Ec).
  cbn [store allocated DualStorage.__cache DualStorage.__files].
  erewrite !on_files_run by (apply FileStorage_write_refused; exact Ef).
  split; reflexivity.
Qed.

End Refused.

(** X7.  A request with [deny_write] writes nothing: [set] and [del] of
    the cache and of the file store return [false] and leave the map and
    the disk as they are, [set_all] and [del_all] of one pair or key or
    more return [false] likewise, and [set] and [del] of the dual store
    leave cache and disk as they are; the dual store returns [false]
    unless both layers are ignored as well, when it returns [true]. *)
Theorem X7_deny_write_writes_nothing (JSON : JSONCodec) (key : string)
  (data : value) (pairs : list (string * value)) (keys : list string)
  (settings : RequestSettings) :
  flag (deny_write settings) = true ->
  (forall c : CacheStorage.t,
      run (CacheStorage.set key data settings) c = (Ok false, c)
      /\ run (CacheStorage.del key settings) c = (Ok false, c)
      /\ run (SyncStorage.set_all ((key, data) :: pairs) settings) c
         = (Ok false, c)
      /\ run (SyncStorage.del_all (key :: keys) settings) c = (Ok false, c))
  /\ (forall disk : FileStorage.t,
        run (FileStorage.set JSON key data settings) disk = (Ok false, disk)
        /\ run (FileStorage.del key settings) disk = (Ok false, disk)
        /\ run (AsyncStorage.set_all (H := FileStorage_BaseStorage JSON)
                  ((key, data) :: pairs) settings) disk = (Ok false, disk)
        /\ run (AsyncStorage.del_all (H := FileStorage_BaseStorage JSON)
                  (key :: keys) settings) disk = (Ok false, disk))
  /\ (forall d : DualStorage.t,
        let outcome :=
          flag (ignore_cache settings) && flag (ignore_files settings) in
        run (DualStorage.set JSON key data settings) d = (Ok outcome, d)
        /\ run (DualStorage.del key settings) d = (Ok outcome, d)).
Proof.
  intros Hw. split; [| split].
  - intros c.
    assert (E : flag (ignore_cache settings) || flag (deny_write settings) = true)
      by (rewrite Hw; apply orb_true_r).
    pose proof (fun w => CacheStorage_write_refused key data settings w E) as H.
    unfold run, SyncStorage.set_all, SyncStorage.del_all. cbn [every].
    unfold bind. cbn [set del CacheStorage_BaseStorage].
    rewrite (proj1 (H _)), (proj2 (H _)). repeat split.
  - intros disk.
    assert (E : flag (ignore_files settings) || flag (deny_write settings) = true)
      by (rewrite Hw; apply orb_true_r).
    pose proof (fun w => FileStorage_write_refused JSON key data settings w E) as H.
    unfold run, AsyncStorage.set_all, AsyncStorage.del_all. cbn [for_and].
    unfold bind. cbn [set del FileStorage_BaseStorage].
    rewrite (proj1 (H _)), (proj2 (H _)). rewrite !for_and_false. repeat split.
  - intros d. apply DualStorage_write_refused; rewrite Hw; apply orb_true_r.
Qed.

(** X7 at work: [set_all] of two pairs with [{ deny_write: true }]. *)
Lemma X7_deny_write_writes_nothing_witness :
  run (SyncStorage.set_all [("k1", VNum 1); ("k2", VNum 2)] only_deny_write)
      [("k1", VNum 0)]
  = (Ok false, [("k1", VNum 0)]).
Proof.
  destruct (@X7_deny_write_writes_nothing JSON.codec "k1" (VNum 1)
              [("k2", VNum 2)] [] only_deny_write eq_refl) as (Hc & _).
  apply (Hc [("k1", VNum 0)]).
Defined.

(** X8.  A request that ignores both the cache and the files does nothing
    in the dual store and says so nowhere: [set] and [del] return [true],
    [has] returns [false], [get] returns [undefined], [pairs] returns no
    entry, and cache and disk are as they were. *)
Theorem X8_dual_ignoring_both_layers (JSON : JSONCodec) (key dir : string)
  (data : value) (settings : RequestSettings) (d : DualStorage.t) :
  flag (ignore_cache settings) = true -> flag (ignore_files settings) = true ->
  run (DualStorage.set JSON key data settings) d = (Ok true, d)
  /\ run (DualStorage.del key settings) d = (Ok true, d)
  /\ run (DualStorage.has key settings) d = (Ok false, d)
  /\ run (DualStorage.get JSON key settings) d = (Ok VUndefined, d)
  /\ run (DualStorage.pairs JSON dir settings) d = (Ok [], d).
Proof.
  intros Hc Hf.
  destruct (@DualStorage_write_refused JSON key data settings d) as (Hset & Hdel);
    try (rewrite ?Hc, ?Hf; reflexivity).
  rewrite Hc, Hf in Hset, Hdel.
  split; [exact Hset | split; [exact Hdel |]].
  destruct d as [c f]. unfold run.
  assert (Hch : forall w, CacheStorage.has key settings w = (Ok false, w))
    by (intros w; unfold CacheStorage.has; now rewrite Hc).
  assert (Hfh : forall w, FileStorage.has key settings w = (Ok false, w))
    by (intros w; unfold FileStorage.has; now rewrite Hf).
  assert (Hcg : forall w, CacheStorage.get key settings w = (Ok VUndefined, w))
    by (intros w; unfold CacheStorage.get; now rewrite Hc).
  assert (Hfg : forall w, FileStorage.get JSON key settings w = (Ok VUndefined, w))
    by (intros w; unfold FileStorage.get; now rewrite Hf).
  assert (Hcp : forall w, CacheStorage.pairs dir settings w = (Ok [], w))
    by (intros w; unfold CacheStorage.pairs; now rewrite Hc).
  assert (Hfp : forall w, FileStorage.pairs JSON dir settings w = (Ok [], w))
    by (intros w; unfold FileStorage.pairs; now rewrite Hf).
  split; [| split].
  - unfold DualStorage.has, bind.
    erewrite on_cache_run by apply Hch. cbv beta iota.
    erewrite on_files_run by apply Hfh. reflexivity.
  - unfold DualStorage.get, bind.
    erewrite on_cache_run by apply Hcg. cbn [strict_equals value_eqb].
    erewrite on_files_run by apply Hfg. reflexivity.
  - unfold DualStorage.pairs, bind.
    erewrite on_cache_run by apply Hcp.
    erewrite on_files_run by apply Hfp. reflexivity.
Qed.

(** X8 at work. *)
Lemma X8_dual_ignoring_both_layers_witness :
  run (DualStorage.set JSON.codec "a" (VNum 1)
         {| deny_read := None; deny_write := None; data_type := None;
            ignore_cache := Some true; ignore_files := Some true |})
      (DualStorage.new FS.empty)
  = (Ok true, DualStorage.new FS.empty).
Proof.
  apply (@X8_dual_ignoring_both_layers JSON.codec "a" "" (VNum 1)
           {| deny_read := None; deny_write := None; data_type := None;
              ignore_cache := Some true; ignore_files := Some true |}
           (DualStorage.new FS.empty) eq_refl eq_refl).
Defined.

(* ================================================================== *)
(** ** [ensure] and [modify] *)
(* ================================================================== *)

(** X9.  With settings that neither ignore the cache nor deny reading or
    writing, [ensure(key, fallback)] on the cache returns the stored value
    and changes nothing when the key has an entry, and stores and returns
    [fallback] when it has none; so of two calls on a key without entry,
    the second returns the fallback of the first. *)
Theorem X9_cache_ensure (key : string) (fallback other : value)
  (settings : RequestSettings) (c : CacheStorage.t) :
  flag (ignore_cache settings) = false ->
  flag (deny_read settings) = false -> flag (deny_write settings) = false ->
  (JsMap.has c key = true ->
   run (SyncStorage.ensure key fallback settings) c = (Ok (JsMap.get c key), c))
  /\ (JsMap.has c key = false ->
      run (SyncStorage.ensure key fallback settings) c
      = (Ok fallback, JsMap.set c key fallback)
      /\ run (SyncStorage.ensure key fallback settings;;;
              SyncStorage.ensure key other settings) c
         = (Ok fallback, JsMap.set c key fallback)).
Proof.
  intros Hc Hr Hw.
  assert (Hrun : forall w : World CacheStorage.t,
             SyncStorage.ensure key fallback settings w
             = if JsMap.has (store w) key
               then (Ok (JsMap.get (store w) key), w)
               else (Ok fallback,
                     mkWorld (allocated w) (JsMap.set (store w) key fallback))).
  { intros w. unfold SyncStorage.ensure, bind.
    cbn [has get set CacheStorage_BaseStorage].
    rewrite CacheStorage_has_run by assumption.
    destruct (JsMap.has (store w) key).
    - now rewrite CacheStorage_get_run by assumption.
    - now rewrite CacheStorage_set_run by assumption. }
  split.
  - intros Hhas. unfold run. rewrite Hrun. cbn [store]. now rewrite Hhas.
  - intros Habsent. split.
    + unfold run. rewrite Hrun. cbn [store]. now rewrite Habsent.
    + unfold run, bind. rewrite Hrun. cbn [store]. rewrite Habsent.
      unfold SyncStorage.ensure, bind.
      cbn [has get set CacheStorage_BaseStorage].
      rewrite CacheStorage_has_run by assumption. cbn [store].
      rewrite JsMap_has_set.
      rewrite CacheStorage_get_run by assumption. cbn [store].
      now rewrite JsMap_get_set.
Qed.

(** X9 at work. *)
Lemma X9_cache_ensure_witness :
  run (SyncStorage.ensure "k" (VNum 1) DEFAULT_REQUEST_SETTINGS;;;
       SyncStorage.ensure "k" (VNum 2) DEFAULT_REQUEST_SETTINGS)
      CacheStorage.new
  = (Ok (VNum 1), [("k", VNum 1)]).
Proof.
  apply (@X9_cache_ensure "k" (VNum 1) (VNum 2) DEFAULT_REQUEST_SETTINGS
           CacheStorage.new eq_refl eq_refl eq_refl).
  reflexivity.
Defined.

(** [has] of the dual store returns, and leaves cache and disk alone. *)
Lemma DualStorage_has_run (key : string) (settings : RequestSettings)
  (w : World DualStorage.t) :
  exists b,
    DualStorage.has key settings w
    = (Ok b, mkWorld (allocated w)
               (DualStorage.mk (DualStorage.__cache (store w))
                               (DualStorage.__files (store w))))
    /\ (flag (ignore_cache settings) = false ->
        JsMap.has (DualStorage.__cache (store w)) key = true -> b = true).
Proof.
  unfold DualStorage.has, bind.
  assert (Hc : exists b, CacheStorage.has key settings
                 (mkWorld (allocated w) (DualStorage.__cache (store w)))
               = (Ok b, mkWorld (allocated w) (DualStorage.__cache (store w)))
               /\ (flag (ignore_cache settings) = false ->
                   JsMap.has (DualStorage.__cache (store w)) key = true ->
                   b = true)).
  { unfold CacheStorage.has. destruct (flag (ignore_cache settings)).
    - exists false. split; [reflexivity | discriminate].
    - eexists. split; [reflexivity |]. cbn [store]. auto. }
  destruct Hc as (b & Hc & Hb).
  erewrite on_cache_run by exact Hc. cbn [store allocated].
  destruct b; [exists true; split; [reflexivity | auto] |].
  assert (Hf : exists b', FileStorage.has key settings
                 (mkWorld (allocated w) (DualStorage.__files (store w)))
               = (Ok b', mkWorld (allocated w) (DualStorage.__files (store w)))).
  { unfold FileStorage.has.
    destruct (flag (ignore_files settings) || flag (deny_read settings));
      [exists false; reflexivity |].
    unfold bind, autoCatch.
    destruct (FS.readFile _ _) as [[content | e] w1] eqn:E;
      apply readFile_world in E; subst w1; eexists; reflexivity. }
  destruct Hf as (b' & Hf).
  erewrite on_files_run
    by (cbn [store allocated DualStorage.__files]; exact Hf).
  exists b'. split; [reflexivity |].
  intros Hic Hhas. specialize (Hb Hic Hhas). discriminate.
Qed.

(** X10.  Default settings.  On a dual store that does not have the key
    ([has] returns [false]), for a [fallback] that is neither [undefined]
    nor [null]: when [JSON.stringify] accepts the fallback,
    [ensure(key, fallback)] returns [fallback], and a second [ensure] of
    the key with another fallback returns the first one; when
    [JSON.stringify] throws on the fallback, [ensure] throws the same. *)
Theorem X10_dual_ensure (JSON : JSONCodec) (key : string)
  (fallback other : value) (d : DualStorage.t) :
  result_of (DualStorage.has key DEFAULT_REQUEST_SETTINGS) d = Ok false ->
  fallback <> VUndefined -> fallback <> VNull ->
  match JSON_stringify_error JSON fallback with
  | None =>
      result_of (AsyncStorage.ensure (H := DualStorage_BaseStorage JSON)
                   key fallback DEFAULT_REQUEST_SETTINGS) d = Ok fallback
      /\ result_of (AsyncStorage.ensure (H := DualStorage_BaseStorage JSON)
                      key fallback DEFAULT_REQUEST_SETTINGS;;;
                    AsyncStorage.ensure (H := DualStorage_BaseStorage JSON)
                      key other DEFAULT_REQUEST_SETTINGS) d = Ok fallback
  | Some e =>
      result_of (AsyncStorage.ensure (H := DualStorage_BaseStorage JSON)
                   key fallback DEFAULT_REQUEST_SETTINGS) d = Throw e
  end.
Proof.
  intros Habsent Hu Hn. unfold result_of, run in *.
  destruct (DualStorage_has_run key DEFAULT_REQUEST_SETTINGS (mkWorld 0 d))
    as (b & Hhas & _).
  rewrite Hhas in Habsent. cbn [fst] in Habsent. injection Habsent as ->.
  destruct (JSON_stringify_error JSON fallback) as [e |] eqn:Ee.
  { unfold AsyncStorage.ensure. unfold bind at 1.
    cbn [has get set DualStorage_BaseStorage]. rewrite Hhas.
    unfold bind.
    match goal with
    | |- context [DualStorage.set JSON key fallback ?s ?w] =>
        destruct (@DualStorage_set_throws JSON key fallback s w e Ee)
          as (w1 & Hset)
    end.
    now rewrite Hset. }
  assert (Hfirst : exists w',
             AsyncStorage.ensure (H := DualStorage_BaseStorage JSON)
               key fallback DEFAULT_REQUEST_SETTINGS (mkWorld 0 d)
             = (Ok fallback, w')
             /\ JsMap.get (DualStorage.__cache (store w')) key = fallback
             /\ JsMap.has (DualStorage.__cache (store w')) key = true).
  { unfold AsyncStorage.ensure. unfold bind at 1.
    cbn [has get set DualStorage_BaseStorage]. rewrite Hhas.
    unfold bind.
    match goal with
    | |- context [DualStorage.set JSON key fallback ?s ?w] =>
        destruct (@DualStorage_set_cache JSON key s fallback eq_refl w Ee)
          as (b' & w' & Hset & Hcache)
    end.
    rewrite Hset. exists w'. cbn [store DualStorage.__cache] in Hcache.
    rewrite Hcache. split; [reflexivity |].
    split; [apply JsMap_get_set | apply JsMap_has_set]. }
  destruct Hfirst as (w' & Hfirst & Hget & Hcached).
  split; [now rewrite Hfirst |].
  unfold bind at 1. rewrite Hfirst.
  unfold AsyncStorage.ensure. unfold bind at 1.
  cbn [has get set DualStorage_BaseStorage].
  destruct (DualStorage_has_run key DEFAULT_REQUEST_SETTINGS w')
    as (b2 & Hhas2 & Hb2).
  rewrite Hhas2, (Hb2 eq_refl Hcached).
  pose proof (@DualStorage_get_cached JSON key DEFAULT_REQUEST_SETTINGS fallback
                eq_refl
                (mkWorld (allocated w')
                   (DualStorage.mk (DualStorage.__cache (store w'))
                                   (DualStorage.__files (store w'))))
                Hget Hu Hn) as Hg.
  destruct (DualStorage.get JSON key DEFAULT_REQUEST_SETTINGS _) as [r w2].
  cbn [fst] in *. assumption.
Qed.

(** X10 at work. *)
Lemma X10_dual_ensure_witness :
  result_of (AsyncStorage.ensure (H := DualStorage_BaseStorage JSON.codec)
               "k" (VNum 1) DEFAULT_REQUEST_SETTINGS;;;
             AsyncStorage.ensure (H := DualStorage_BaseStorage JSON.codec)
               "k" (VNum 2) DEFAULT_REQUEST_SETTINGS)
            (DualStorage.new FS.empty)
  = Ok (VNum 1).
Proof.
  destruct (@X10_dual_ensure JSON.codec "k" (VNum 1) (VNum 2)
              (DualStorage.new FS.empty) eq_refl) as (_ & Htwice);
    [discriminate | discriminate | exact Htwice].
Defined.

(** X11.  With settings that neither ignore the cache nor deny reading or
    writing, [modify(key, callback)] on the cache does not run the
    callback and returns [false] when the key has no entry; when it has
    one, the callback is run once, on the stored value, and what it
    returns is stored under the key in the map the callback left, [modify]
    returning [true] (for a value other than [NaN]).  [modify_if] does the
    same when the predicate holds of the stored value, and nothing when
    the key has no entry. *)
Theorem X11_cache_modify (key : string) (callback : DataModifier CacheStorage.t)
  (q : value -> string -> bool) (settings : RequestSettings)
  (c : CacheStorage.t) :
  flag (ignore_cache settings) = false ->
  flag (deny_read settings) = false -> flag (deny_write settings) = false ->
  let predicate : DataPredicate CacheStorage.t := fun v k => ret (q v k) in
  (JsMap.has c key = false ->
   run (SyncStorage.modify key callback settings) c = (Ok false, c)
   /\ run (SyncStorage.modify_if key callback predicate settings) c
      = (Ok false, c))
  /\ (forall (d : value) (w : World CacheStorage.t),
        JsMap.has c key = true ->
        callback (JsMap.get c key) key (mkWorld 0 c) = (Ok d, w) ->
        run (SyncStorage.modify key callback settings) c
        = (Ok (match d with VNaN => false | _ => true end),
           JsMap.set (store w) key d)
        /\ run (SyncStorage.modify_if key callback predicate settings) c
           = if q (JsMap.get c key) key
             then (Ok (match d with VNaN => false | _ => true end),
                   JsMap.set (store w) key d)
             else (Ok false, c)).
Proof.
  intros Hc Hr Hw predicate.
  assert (Hassert : forall w : World CacheStorage.t,
             SyncStorage.assert key predicate settings w
             = (Ok (JsMap.has (store w) key
                    && q (JsMap.get (store w) key) key), w)).
  { intros w. unfold SyncStorage.assert, bind.
    cbn [has get CacheStorage_BaseStorage].
    rewrite CacheStorage_has_run by assumption.
    destruct (JsMap.has (store w) key); [| reflexivity].
    rewrite CacheStorage_get_run by assumption. reflexivity. }
  split.
  - intros Habsent.
    assert (Hm : run (SyncStorage.modify key callback settings) c = (Ok false, c)).
    { unfold run, SyncStorage.modify, bind. cbn [has CacheStorage_BaseStorage].
      rewrite CacheStorage_has_run by assumption. cbn [store].
      now rewrite Habsent. }
    split; [exact Hm |].
    unfold run, SyncStorage.modify_if, bind. rewrite Hassert. cbn [store].
    now rewrite Habsent.
  - intros d w Hhas Hcb.
    assert (Hm : SyncStorage.modify key callback settings (mkWorld 0 c)
                 = (Ok (match d with VNaN => false | _ => true end),
                    mkWorld (allocated w) (JsMap.set (store w) key d))).
    { unfold SyncStorage.modify, bind. cbn [has get set CacheStorage_BaseStorage].
      rewrite CacheStorage_has_run by assumption. cbn [store]. rewrite Hhas.
      rewrite CacheStorage_get_run by assumption. cbn [store]. rewrite Hcb.
      rewrite CacheStorage_set_run by reflexivity.
      now rewrite strict_equals_self. }
    split.
    + unfold run. now rewrite Hm.
    + unfold run, SyncStorage.modify_if, bind. rewrite Hassert. cbn [store].
      rewrite Hhas. cbn [andb].
      destruct (q (JsMap.get c key) key); [now rewrite Hm | reflexivity].
Qed.

(** X11 at work: a callback that doubles a number. *)
Lemma X11_cache_modify_witness :
  run (SyncStorage.modify "n"
         (fun v _ => ret (match v with VNum n => VNum (2 * n) | _ => v end))
         DEFAULT_REQUEST_SETTINGS) [("n", VNum 21)]
  = (Ok true, [("n", VNum 42)]).
Proof.
  refine (proj1 (proj2 (@X11_cache_modify "n"
    (fun v _ => ret (match v with VNum n => VNum (2 * n) | _ => v end))
    (fun _ _ => true) DEFAULT_REQUEST_SETTINGS [("n", VNum 21)]
    eq_refl eq_refl eq_refl) (VNum 42) (mkWorld 0 [("n", VNum 21)])
    eq_refl eq_refl)).
Defined.

(* ================================================================== *)
(** ** [SyncStorage] and [AsyncStorage] side by side *)
(* ================================================================== *)

Lemma ensure_all_loop_map {St : Type} {backend : BaseStorage St}
  (fallback : value) (settings : RequestSettings) (keys : list string) :
  forall (result : list value) (w : World St),
    AsyncStorage.ensure_all_loop keys fallback settings result w
    = match map_M (fun key => SyncStorage.ensure key fallback settings) keys w
      with
      | (Ok vs, w') => (Ok (result ++ vs)%list, w')
      | (Throw e, w') => (Throw e, w')
      end.
Proof.
  induction keys as [| key rest IH]; intros result w.
  - cbn. unfold ret. now rewrite app_nil_r.
  - cbn [AsyncStorage.ensure_all_loop map_M]. unfold bind.
    change (AsyncStorage.ensure key fallback settings w)
      with (SyncStorage.ensure key fallback settings w).
    destruct (SyncStorage.ensure key fallback settings w) as [[v | e] w1];
      [| reflexivity].
    rewrite IH.
    destruct (map_M _ rest w1) as [[vs | e] w2]; [| reflexivity].
    unfold ret. now rewrite <- app_assoc.
Qed.

(** X12.  For every backend, settings, keys and callbacks, each batch
    operation of [AsyncStorage] (written with loops) computes what the
    operation of the same name of [SyncStorage] (written with [every],
    [some], [map] and [filter]) computes: the same result, the same
    effects in the same order, the same exception. *)
Theorem X12_async_agrees_with_sync (St : Type) (backend : BaseStorage St)
  (keys : list string) (pairs : list (string * value)) (fallback : value)
  (settings : RequestSettings) (predicate : DataPredicate St)
  (modifier : DataModifier St) (w : World St) :
  AsyncStorage.has_all keys settings w = SyncStorage.has_all keys settings w
  /\ AsyncStorage.has_any keys settings w = SyncStorage.has_any keys settings w
  /\ AsyncStorage.get_all keys settings w = SyncStorage.get_all keys settings w
  /\ AsyncStorage.set_all pairs settings w = SyncStorage.set_all pairs settings w
  /\ AsyncStorage.del_all keys settings w = SyncStorage.del_all keys settings w
  /\ AsyncStorage.ensure_all keys fallback settings w
     = SyncStorage.ensure_all keys fallback settings w
  /\ AsyncStorage.assert_all keys predicate settings w
     = SyncStorage.assert_all keys predicate settings w
  /\ AsyncStorage.assert_any keys predicate settings w
     = SyncStorage.assert_any keys predicate settings w
  /\ AsyncStorage.modify_all keys modifier settings w
     = SyncStorage.modify_all keys modifier settings w
  /\ AsyncStorage.modify_all_if keys modifier predicate settings w
     = SyncStorage.modify_all_if keys modifier predicate settings w.
Proof.
  repeat split.
  - apply for_and_every.
  - apply for_or_some.
  - apply get_all_agree.
  - apply for_and_every.
  - apply for_and_every.
  - unfold AsyncStorage.ensure_all, SyncStorage.ensure_all.
    rewrite ensure_all_loop_map.
    destruct (map_M _ keys w) as [[vs | e] w']; reflexivity.
Qed.

(* ================================================================== *)
(** ** The two layers of the dual store *)
(* ================================================================== *)

(** X13.  With settings that deny and ignore nothing, on a dual store
    whose cache has the key or not ([in_cache]) and whose files have it or
    not ([in_files]): [has] returns [in_cache || in_files]; [del] removes
    the key from both layers and returns [in_cache && in_files].  So [del]
    of a key that is in the files and not (yet) in the cache removes the
    file and returns [false]. *)
Theorem X13_dual_has_and_del (key : string) (settings : RequestSettings)
  (d : DualStorage.t) :
  permissive settings = true ->
  let in_cache := JsMap.has (DualStorage.__cache d) key in
  let d' := store_after (DualStorage.del key settings) d in
  exists in_files : bool,
    result_of (FileStorage.has key settings) (DualStorage.__files d)
    = Ok in_files
    /\ result_of (DualStorage.has key settings) d = Ok (in_cache || in_files)
    /\ result_of (DualStorage.del key settings) d = Ok (in_cache && in_files)
    /\ DualStorage.__cache d' = JsMap.delete (DualStorage.__cache d) key
    /\ result_of (FileStorage.has key settings) (DualStorage.__files d')
       = Ok false.
Proof.
  intros Hp in_cache d'. subst in_cache d'.
  destruct (permissive_flags _ Hp) as (Hr & Hw & Hc & Hf).
  destruct (@FileStorage_del_run key settings Hp
              (mkWorld 0 (DualStorage.__files d)))
    as (f & wf & Hhas & Hdel & Hhas').
  exists f. unfold result_of, store_after, run.
  rewrite Hhas. split; [reflexivity |].
  assert (Hrun_del :
            DualStorage.del key settings (mkWorld 0 d)
            = (Ok (JsMap.has (DualStorage.__cache d) key && f),
               mkWorld (allocated wf)
                 (DualStorage.mk (JsMap.delete (DualStorage.__cache d) key)
                                 (store wf)))).
  { unfold DualStorage.del, bind.
    erewrite on_cache_run by (apply CacheStorage_del_run; assumption).
    cbn [store allocated DualStorage.__cache DualStorage.__files].
    erewrite on_files_run
      by (cbn [store allocated DualStorage.__files]; exact Hdel).
    unfold or_false. unfold flag in Hc, Hf. rewrite Hc, Hf, !orb_false_r.
    reflexivity. }
  rewrite Hrun_del. cbn [fst snd store DualStorage.__cache DualStorage.__files].
  split; [| split; [reflexivity | split; [reflexivity |]]].
  - unfold DualStorage.has, bind.
    erewrite on_cache_run by (apply CacheStorage_has_run; assumption).
    cbn [store allocated DualStorage.__cache DualStorage.__files].
    destruct (JsMap.has (DualStorage.__cache d) key); [reflexivity |].
    erewrite on_files_run
      by (cbn [store allocated DualStorage.__files]; exact Hhas).
    reflexivity.
  - assert (E : fst (FileStorage.has key settings (mkWorld 0 (store wf)))
                = fst (FileStorage.has key settings wf)).
    { clear. unfold FileStorage.has.
      destruct (flag (ignore_files settings) || flag (deny_read settings));
        [reflexivity |].
      unfold bind, autoCatch, FS.readFile.
      destruct (FS.parse_path _) as [[p [|]] |]; try reflexivity.
      cbn [store].
      destruct (FS.find_node _ p) as [[content | es] |]; reflexivity. }
    destruct (FileStorage.has key settings (mkWorld 0 (store wf))) as [r w2].
    cbn [fst] in *. rewrite E, Hhas'. reflexivity.
Qed.

(** X13 at work: a new dual store over a disk that holds the file of
    ["a"]; [del] returns [false] and the file is gone. *)
Lemma X13_dual_has_and_del_witness :
  let disk := FS.Dir [("data", FS.Dir [("a.json", FS.File "1")])] in
  let d := DualStorage.new disk in
  let d' := store_after (DualStorage.del "a" DEFAULT_REQUEST_SETTINGS) d in
  result_of (DualStorage.has "a" DEFAULT_REQUEST_SETTINGS) d = Ok true
  /\ result_of (DualStorage.del "a" DEFAULT_REQUEST_SETTINGS) d = Ok false
  /\ result_of (FileStorage.has "a" DEFAULT_REQUEST_SETTINGS)
               (DualStorage.__files d') = Ok false.
Proof.
  intros disk d d'.
  destruct (@X13_dual_has_and_del "a" DEFAULT_REQUEST_SETTINGS d eq_refl)
    as (in_files & Hf & Hhas & Hdel & _ & Hgone).
  assert (E : in_files = true).
  { assert (Hf' : result_of (FileStorage.has "a" DEFAULT_REQUEST_SETTINGS)
                            (DualStorage.__files d) = Ok true) by reflexivity.
    rewrite Hf in Hf'. now injection Hf'. }
  subst in_files. split; [exact Hhas | split; [exact Hdel | exact Hgone]].
Defined.

(** X14.  With settings that deny and ignore nothing, when the cache of a
    dual store holds for the key a value that is neither [undefined] nor
    [null], [get] returns that value and leaves cache and disk as they
    are, whatever the disk holds for the key: the file is not read. *)
Theorem X14_dual_get_served_by_cache (JSON : JSONCodec) (key : string)
  (settings : RequestSettings) (c : CacheStorage.t) (disk : FileStorage.t) :
  permissive settings = true ->
  JsMap.get c key <> VUndefined -> JsMap.get c key <> VNull ->
  run (DualStorage.get JSON key settings) (DualStorage.mk c disk)
  = (Ok (JsMap.get c key), DualStorage.mk c disk).
Proof.
  intros Hp Hu Hn.
  destruct (permissive_flags _ Hp) as (Hr & Hw & Hc & Hf).
  unfold run, DualStorage.get, bind.
  erewrite on_cache_run by (apply CacheStorage_get_run; assumption).
  cbn [store allocated DualStorage.__cache DualStorage.__files].
  rewrite (strict_equals_undefined_false Hu). cbn [andb]. unfold ret.
  destruct (JsMap.get c key); try reflexivity; contradiction.
Qed.

(** X14 at work: the cache says [1], the file says [2]. *)
Lemma X14_dual_get_served_by_cache_witness :
  let disk := FS.Dir [("data", FS.Dir [("a.json", FS.File "2")])] in
  run (DualStorage.get JSON.codec "a" DEFAULT_REQUEST_SETTINGS)
      (DualStorage.mk [("a", VNum 1)] disk)
  = (Ok (VNum 1), DualStorage.mk [("a", VNum 1)] disk).
Proof.
  intros disk.
  apply (@X14_dual_get_served_by_cache JSON.codec "a" DEFAULT_REQUEST_SETTINGS
           [("a", VNum 1)] disk eq_refl); discriminate.
Defined.

(** X15.  Default settings.  When [set(key, v)] of a dual store returns
    [true], the value is in the file of the key: the file store on the
    disk left, and a new dual store over that disk (an empty cache, as
    after a restart of the process), both read for the key the parse of
    the serialisation of [v]. *)
Theorem X15_dual_set_reaches_the_disk (JSON : JSONCodec) (key : string)
  (v : value) (d d' : DualStorage.t) :
  run (DualStorage.set JSON key v DEFAULT_REQUEST_SETTINGS) d = (Ok true, d') ->
  exists raw,
    JSON_stringify JSON v = Some raw
    /\ result_of (FileStorage.get JSON key DEFAULT_REQUEST_SETTINGS)
                 (DualStorage.__files d')
       = decode JSON DEFAULT_REQUEST_SETTINGS raw
    /\ result_of (DualStorage.get JSON key DEFAULT_REQUEST_SETTINGS)
                 (DualStorage.new (DualStorage.__files d'))
       = decode JSON DEFAULT_REQUEST_SETTINGS raw.
Proof.
  unfold run, DualStorage.set, bind.
  erewrite on_cache_run by (apply CacheStorage_set_run; reflexivity).
  cbn [store allocated DualStorage.__cache DualStorage.__files].
  destruct (FileStorage.set JSON key v DEFAULT_REQUEST_SETTINGS
              (mkWorld 0 (DualStorage.__files d))) as [[f | e] wf] eqn:Es.
  - erewrite on_files_run
      by (cbn [store allocated DualStorage.__files]; exact Es).
    unfold ret. cbn [store or_false ignore_cache ignore_files
                     DEFAULT_REQUEST_SETTINGS].
    rewrite !orb_false_r. intros [= Hres <-].
    apply andb_prop in Hres as [_ ->].
    destruct (@FileStorage_set_get JSON key DEFAULT_REQUEST_SETTINGS v eq_refl
                _ _ Es) as (raw & Hraw & Hget).
    exists raw. split.
    { unfold encode in Hraw. cbn [is_json data_type DEFAULT_REQUEST_SETTINGS]
        in Hraw. cbn in Hraw.
      now destruct (JSON_stringify_error JSON v). }
    cbn [DualStorage.__files].
    assert (Hfile : result_of (FileStorage.get JSON key DEFAULT_REQUEST_SETTINGS)
                              (store wf)
                    = decode JSON DEFAULT_REQUEST_SETTINGS raw).
    { unfold result_of, run.
      pose proof (@FileStorage_get_store JSON DEFAULT_REQUEST_SETTINGS key
                    (mkWorld 0 (store wf)) wf eq_refl) as E.
      rewrite Hget in E. cbn [fst] in E.
      destruct (FileStorage.get JSON key DEFAULT_REQUEST_SETTINGS
                  (mkWorld 0 (store wf))) as [r w2].
      cbn [fst] in *. assumption. }
    split; [exact Hfile |].
    unfold result_of, DualStorage.new in *.
    rewrite (@DualStorage_get_miss JSON key CacheStorage.new (store wf) eq_refl).
    destruct (run (FileStorage.get JSON key DEFAULT_REQUEST_SETTINGS) (store wf))
      as [[v0 | e] f']; cbn [fst] in *; assumption.
  - erewrite on_files_run
      by (cbn [store allocated DualStorage.__files]; exact Es).
    discriminate.
Qed.

(** X15 at work. *)
Lemma X15_dual_set_reaches_the_disk_witness :
  let d' := store_after (DualStorage.set JSON.codec "a/b"
                           (VObj [("x", VNum 1)]) DEFAULT_REQUEST_SETTINGS)
                        (DualStorage.new FS.empty) in
  exists raw,
    JSON.stringify (VObj [("x", VNum 1)]) = Some raw
    /\ result_of (FileStorage.get JSON.codec "a/b" DEFAULT_REQUEST_SETTINGS)
                 (DualStorage.__files d')
       = decode JSON.codec DEFAULT_REQUEST_SETTINGS raw
    /\ result_of (DualStorage.get JSON.codec "a/b" DEFAULT_REQUEST_SETTINGS)
                 (DualStorage.new (DualStorage.__files d'))
       = decode JSON.codec DEFAULT_REQUEST_SETTINGS raw.
Proof.
  intros d'.
  apply (@X15_dual_set_reaches_the_disk JSON.codec "a/b" (VObj [("x", VNum 1)])
           (DualStorage.new FS.empty) d').
  vm_compute. reflexivity.
Defined.

(** X16.  Default settings.  When the file of a key holds text that
    [JSON.parse] rejects, [has] of the file store returns [true] and
    [get] throws the [SyntaxError]: the parse is outside [autoCatch].  The
    error goes through [get_all] and [ensure] of the file store, and
    through [get] of a dual store whose cache has no entry for the key;
    the disk stays as it is. *)
Theorem X16_malformed_json_throws (JSON : JSONCodec) (key : string)
  (content : string) (keys : list string) (fallback : value)
  (c : CacheStorage.t) (disk : FileStorage.t) :
  FS.readFile (__into_file_path key (Some "json") DEFAULT_DATA_ROOT)
              (mkWorld 0 disk) = (Ok content, mkWorld 0 disk) ->
  JSON_parse JSON content = None ->
  run (FileStorage.has key DEFAULT_REQUEST_SETTINGS) disk = (Ok true, disk)
  /\ run (FileStorage.get JSON key DEFAULT_REQUEST_SETTINGS) disk
     = (Throw SyntaxError, disk)
  /\ run (AsyncStorage.get_all (H := FileStorage_BaseStorage JSON)
            (key :: keys) DEFAULT_REQUEST_SETTINGS) disk
     = (Throw SyntaxError, disk)
  /\ run (AsyncStorage.ensure (H := FileStorage_BaseStorage JSON)
            key fallback DEFAULT_REQUEST_SETTINGS) disk
     = (Throw SyntaxError, disk)
  /\ (JsMap.has c key = false ->
      run (DualStorage.get JSON key DEFAULT_REQUEST_SETTINGS)
          (DualStorage.mk c disk)
      = (Throw SyntaxError, DualStorage.mk c disk)).
Proof.
  intros Hread Hparse.
  assert (Hhas : FileStorage.has key DEFAULT_REQUEST_SETTINGS (mkWorld 0 disk)
                 = (Ok true, mkWorld 0 disk)).
  { unfold FileStorage.has, bind, autoCatch.
    cbn [flag orb ignore_files deny_read data_type DEFAULT_REQUEST_SETTINGS].
    now rewrite Hread. }
  assert (Hget : FileStorage.get JSON key DEFAULT_REQUEST_SETTINGS
                   (mkWorld 0 disk)
                 = (Throw SyntaxError, mkWorld 0 disk)).
  { unfold FileStorage.get, bind, autoCatch.
    cbn [flag orb ignore_files deny_read data_type DEFAULT_REQUEST_SETTINGS].
    rewrite Hread. unfold is_json. cbn [data_type DEFAULT_REQUEST_SETTINGS].
    rewrite String.eqb_refl, Hparse. reflexivity. }
  split; [| split; [| split; [| split]]].
  - unfold run. now rewrite Hhas.
  - unfold run. now rewrite Hget.
  - unfold run, AsyncStorage.get_all.
    cbn [AsyncStorage.get_all_loop]. unfold bind.
    cbn [get FileStorage_BaseStorage]. now rewrite Hget.
  - unfold run, AsyncStorage.ensure, bind.
    cbn [has get FileStorage_BaseStorage]. now rewrite Hhas, Hget.
  - intros Habsent.
    rewrite (@DualStorage_get_miss JSON key c disk Habsent).
    unfold run. now rewrite Hget.
Qed.

(** X16 at work: the file of ["a"] holds the text [oops]. *)
Lemma X16_malformed_json_throws_witness :
  let disk := FS.Dir [("data", FS.Dir [("a.json", FS.File "oops")])] in
  run (FileStorage.has "a" DEFAULT_REQUEST_SETTINGS) disk = (Ok true, disk)
  /\ run (FileStorage.get JSON.codec "a" DEFAULT_REQUEST_SETTINGS) disk
     = (Throw SyntaxError, disk).
Proof.
  intros disk.
  destruct (@X16_malformed_json_throws JSON.codec "a" "oops" [] VNull [] disk
              eq_refl eq_refl) as (Hhas & Hget & _).
  split; [exact Hhas | exact Hget].
Defined.

(* ================================================================== *)
(** ** A write to one file leaves the other files alone *)
(* ================================================================== *)

Section FSFrame.

Import FS.

Lemma assoc_replace_other es c c' n' :
  c' <> c -> assoc (replace es c n') c' = assoc es c'.
Proof.
  intros Hne. induction es as [| [k x] es' IH]; simpl; [reflexivity |].
  destruct (String.eqb_spec k c) as [-> | Hk]; simpl.
  - destruct (String.eqb_spec c c'); [congruence | reflexivity].
  - destruct (String.eqb k c'); [reflexivity | assumption].
Qed.

Lemma assoc_app_other es c c' n :
  c' <> c -> assoc (es ++ [(c, n)])%list c' = assoc es c'.
Proof.
  intros Hne. induction es as [| [k x] es' IH]; simpl.
  - destruct (String.eqb_spec c c'); [congruence | reflexivity].
  - destruct (String.eqb k c'); [reflexivity | assumption].
Qed.

Lemma assoc_remove_other es c c' :
  c' <> c -> assoc (remove es c) c' = assoc es c'.
Proof.
  intros Hne. induction es as [| [k x] es' IH]; simpl; [reflexivity |].
  destruct (String.eqb_spec k c) as [-> | Hk]; simpl.
  - destruct (String.eqb_spec c c'); [congruence | assumption].
  - destruct (String.eqb k c'); [reflexivity | assumption].
Qed.

Lemma file_text_below_file content q : q <> [] -> file_text (File content) q = None.
Proof. destruct q; [contradiction | reflexivity]. Qed.

Lemma file_text_of_dir es : file_text (Dir es) [] = None.
Proof. reflexivity. Qed.

Lemma file_text_cons es c rest :
  file_text (Dir es) (c :: rest)
  = match assoc es c with
    | Some m => file_text m rest
    | None => None
    end.
Proof. unfold file_text. simpl. destruct (assoc es c); reflexivity. Qed.

Lemma file_text_write p : forall n n' data q,
  write_node n p data = Some n' -> q <> p -> file_text n' q = file_text n q.
Proof.
  induction p as [| c rest IH]; intros n n' data q; simpl.
  - destruct n as [content | es]; [| discriminate].
    intros [= <-] Hq. now rewrite !file_text_below_file.
  - destruct n as [content | es]; [discriminate |].
    destruct (assoc es c) as [m |] eqn:Ec.
    + destruct (write_node m rest data) as [m' |] eqn:Ew; [| discriminate].
      intros [= <-] Hq. destruct q as [| c' rest']; [reflexivity |].
      rewrite !file_text_cons.
      destruct (String.eqb_spec c' c) as [-> | Hne].
      * rewrite (assoc_replace _ _ m' Ec), Ec.
        eapply IH; [eassumption | congruence].
      * now rewrite assoc_replace_other.
    + destruct rest; [| discriminate].
      intros [= <-] Hq. destruct q as [| c' rest']; [reflexivity |].
      rewrite !file_text_cons.
      destruct (String.eqb_spec c' c) as [-> | Hne].
      * rewrite (assoc_app_new _ _ _ Ec), Ec.
        apply file_text_below_file. congruence.
      * now rewrite assoc_app_other.
Qed.

Lemma file_text_mkdir p : forall n n' q,
  mkdir_node n p = Some n' -> file_text n' q = file_text n q.
Proof.
  induction p as [| c rest IH]; intros n n' q; simpl.
  - destruct n; [discriminate | intros [= <-]; reflexivity].
  - destruct n as [content | es]; [discriminate |].
    destruct (assoc es c) as [m |] eqn:Ec.
    + destruct (mkdir_node m rest) as [m' |] eqn:Em; [| discriminate].
      intros [= <-]. destruct q as [| c' rest']; [reflexivity |].
      rewrite !file_text_cons.
      destruct (String.eqb_spec c' c) as [-> | Hne].
      * rewrite (assoc_replace _ _ m' Ec), Ec. eapply IH. eassumption.
      * now rewrite assoc_replace_other.
    + destruct (mkdir_node (Dir []) rest) as [m' |] eqn:Em; [| discriminate].
      intros [= <-]. destruct q as [| c' rest']; [reflexivity |].
      rewrite !file_text_cons.
      destruct (String.eqb_spec c' c) as [-> | Hne].
      * rewrite (assoc_app_new _ _ _ Ec), Ec.
        rewrite (IH _ _ rest' Em). destruct rest'; reflexivity.
      * now rewrite assoc_app_other.
Qed.

Lemma file_text_rm p : forall n n' q,
  rm_node n p = Some n' -> q <> p -> file_text n' q = file_text n q.
Proof.
  induction p as [| c rest IH]; intros n n' q; simpl; [discriminate |].
  destruct n as [content | es]; [discriminate |].
  destruct (assoc es c) as [m |] eqn:Ec; [| discriminate].
  destruct rest as [| c2 rest2].
  - destruct m as [content | es']; [| discriminate].
    intros [= <-] Hq. destruct q as [| c' rest']; [reflexivity |].
    rewrite !file_text_cons.
    destruct (String.eqb_spec c' c) as [-> | Hne].
    + rewrite assoc_remove, Ec. symmetry.
      apply file_text_below_file. congruence.
    + now rewrite assoc_remove_other.
  - destruct (rm_node m (c2 :: rest2)) as [m' |] eqn:Er; [| discriminate].
    intros [= <-] Hq. destruct q as [| c' rest']; [reflexivity |].
    rewrite !file_text_cons.
    destruct (String.eqb_spec c' c) as [-> | Hne].
    + rewrite (assoc_replace _ _ m' Ec), Ec.
      eapply IH; [eassumption | congruence].
    + now rewrite assoc_replace_other.
Qed.

End FSFrame.

Section FileFrame.

Variable JSON : JSONCodec.

(** What [get] and [has] of the file store return, read off the disk. *)
Lemma FileStorage_get_by_text (key : string) (settings : RequestSettings)
  (w : World FileStorage.t) :
  fst (FileStorage.get JSON key settings w)
  = if flag (ignore_files settings) || flag (deny_read settings)
    then Ok VUndefined
    else match FS.parse_path (file_of key settings) with
         | Some (p, false) =>
             match file_text (store w) p with
             | Some content => decode JSON settings content
             | None => Ok VUndefined
             end
         | _ => Ok VUndefined
         end.
Proof.
  unfold FileStorage.get, file_of.
  destruct (flag (ignore_files settings) || flag (deny_read settings));
    [reflexivity |].
  unfold bind, autoCatch, FS.readFile, file_text.
  destruct (FS.parse_path _) as [[p [|]] |]; try reflexivity.
  destruct (FS.find_node _ p) as [[content | es] |]; try reflexivity.
  unfold decode. destruct (is_json settings); [| reflexivity].
  destruct (JSON_parse JSON content); reflexivity.
Qed.

Lemma FileStorage_has_by_text (key : string) (settings : RequestSettings)
  (w : World FileStorage.t) :
  fst (FileStorage.has key settings w)
  = if flag (ignore_files settings) || flag (deny_read settings)
    then Ok false
    else match FS.parse_path (file_of key settings) with
         | Some (p, false) =>
             match file_text (store w) p with
             | Some _ => Ok true
             | None => Ok false
             end
         | _ => Ok false
         end.
Proof.
  unfold FileStorage.has, file_of.
  destruct (flag (ignore_files settings) || flag (deny_read settings));
    [reflexivity |].
  unfold bind, autoCatch, FS.readFile, file_text.
  destruct (FS.parse_path _) as [[p [|]] |]; try reflexivity.
  destruct (FS.find_node _ p) as [[content | es] |]; reflexivity.
Qed.

(** [set] and [del] change the text of no file but the file of the key. *)
Lemma FileStorage_set_texts (key : string) (data : value)
  (settings : RequestSettings) (w : World FileStorage.t) (q : list string) :
  (forall b, FS.parse_path (file_of key settings) <> Some (q, b)) ->
  file_text (store (snd (FileStorage.set JSON key data settings w))) q
  = file_text (store w) q.
Proof.
  intros Hq. unfold FileStorage.set. fold (file_of key settings).
  destruct (flag (ignore_files settings) || flag (deny_write settings));
    [reflexivity |].
  unfold bind at 1. rewrite raw_of_run.
  destruct (encode_error JSON settings data) as [e |]; [reflexivity |].
  unfold bind.
  assert (Hmk : forall w1 r, autoCatch (FS.mkdir
                  (JsString.slice0 (file_of key settings)
                     (JsString.lastIndexOf (file_of key settings) "/"))) w
                = (r, w1) ->
                file_text (store w1) q = file_text (store w) q).
  { clear Hq. intros w1 r. unfold autoCatch, FS.mkdir.
    destruct (FS.parse_path _) as [[p b] |];
      [| cbv beta iota; intros E; injection E as _ <-; reflexivity].
    destruct (FS.mkdir_node _ p) as [n' |] eqn:Em;
      cbv beta iota; intros E; injection E as _ <-; [| reflexivity].
    cbn [store]. eapply file_text_mkdir. eassumption. }
  destruct (autoCatch (FS.mkdir _) w) as [[r1 | e1] w1] eqn:E1;
    [| cbv beta iota; cbn [snd]; exact (Hmk _ _ eq_refl)].
  rewrite <- (Hmk _ _ eq_refl).
  unfold autoCatch, FS.writeFile.
  destruct (encode JSON settings data) as [raw |]; [| reflexivity].
  destruct (FS.parse_path (file_of key settings)) as [[p [|]] |] eqn:Ep;
    try reflexivity.
  destruct (FS.write_node _ p raw) as [n' |] eqn:Ew; [| reflexivity].
  cbn [snd store]. eapply file_text_write; [eassumption |].
  intros ->. now apply (Hq false).
Qed.

Lemma FileStorage_del_texts (key : string) (settings : RequestSettings)
  (w : World FileStorage.t) (q : list string) :
  (forall b, FS.parse_path (file_of key settings) <> Some (q, b)) ->
  file_text (store (snd (FileStorage.del key settings w))) q
  = file_text (store w) q.
Proof.
  intros Hq. unfold FileStorage.del. fold (file_of key settings).
  destruct (flag (ignore_files settings) || flag (deny_write settings));
    [reflexivity |].
  unfold bind, autoCatch, FS.rm.
  destruct (FS.parse_path (file_of key settings)) as [[p [|]] |] eqn:Ep;
    try reflexivity.
  destruct (FS.rm_node _ p) as [n' |] eqn:Er; [| reflexivity].
  cbn [snd store]. eapply file_text_rm; [eassumption |].
  intros ->. now apply (Hq false).
Qed.

End FileFrame.

(** A path that stays below the working directory is read as its
    components. *)
Lemma parse_path_components (key : string) (settings : RequestSettings) :
  stays_below (file_of key settings) = true ->
  exists b,
    FS.parse_path (file_of key settings)
    = Some (components (file_of key settings), b).
Proof.
  unfold stays_below, FS.parse_path, components. intros Hbelow.
  apply negb_true_iff in Hbelow. rewrite Hbelow.
  assert (Hpath : String.eqb (file_of key settings) "" = false)
    by reflexivity.
  rewrite Hpath. eexists. reflexivity.
Qed.

(** X17.  In the file store, [set] and [del] of a key change nothing for a
    key whose file is another one: when neither of the two paths (for the
    data types of the two requests) has a [..] component, and the two have
    different components, [get] and [has] of the other key return after
    the write what they returned before it, whatever the settings of the
    two requests and whether the write succeeded, failed or threw. *)
Theorem X17_file_write_is_local (JSON : JSONCodec) (key key' : string)
  (data : value) (settings settings' : RequestSettings)
  (disk : FileStorage.t) :
  stays_below (file_of key settings) = true ->
  stays_below (file_of key' settings') = true ->
  components (file_of key' settings') <> components (file_of key settings) ->
  let after_set := store_after (FileStorage.set JSON key data settings) disk in
  let after_del := store_after (FileStorage.del key settings) disk in
  result_of (FileStorage.get JSON key' settings') after_set
  = result_of (FileStorage.get JSON key' settings') disk
  /\ result_of (FileStorage.has key' settings') after_set
     = result_of (FileStorage.has key' settings') disk
  /\ result_of (FileStorage.get JSON key' settings') after_del
     = result_of (FileStorage.get JSON key' settings') disk
  /\ result_of (FileStorage.has key' settings') after_del
     = result_of (FileStorage.has key' settings') disk.
Proof.
  intros Hbelow Hbelow' Hother after_set after_del.
  subst after_set after_del.
  destruct (parse_path_components key settings Hbelow) as (b & Ep).
  destruct (parse_path_components key' settings' Hbelow') as (b' & Ep').
  unfold result_of, store_after, run.
  destruct (FileStorage.set JSON key data settings (mkWorld 0 disk))
    as [rs ws] eqn:Es.
  destruct (FileStorage.del key settings (mkWorld 0 disk)) as [rd wd] eqn:Ed.
  cbn [snd].
  assert (Hq : forall c, FS.parse_path (file_of key settings)
                         <> Some (components (file_of key' settings'), c)).
  { intros c E. rewrite Ep in E. apply Hother. congruence. }
  assert (Hset : file_text (store ws) (components (file_of key' settings'))
                 = file_text disk (components (file_of key' settings'))).
  { pose proof (@FileStorage_set_texts JSON key data settings (mkWorld 0 disk)
                  _ Hq) as H.
    now rewrite Es in H. }
  assert (Hdel : file_text (store wd) (components (file_of key' settings'))
                 = file_text disk (components (file_of key' settings'))).
  { pose proof (@FileStorage_del_texts key settings (mkWorld 0 disk) _ Hq)
      as H.
    now rewrite Ed in H. }
  assert (Hfst : forall A (m : M FileStorage.t A) s,
             fst (let '(r, w) := m (mkWorld 0 s) in (r, store w))
             = fst (m (mkWorld 0 s))).
  { intros A m s. destruct (m (mkWorld 0 s)); reflexivity. }
  rewrite !Hfst, !FileStorage_get_by_text, !FileStorage_has_by_text.
  cbn [store].
  destruct (flag (ignore_files settings') || flag (deny_read settings'));
    [repeat split |].
  rewrite Ep', Hset, Hdel. repeat split.
Qed.

(** X17 at work: writing ["b"] does not change what ["a"] reads. *)
Lemma X17_file_write_is_local_witness :
  let disk := FS.Dir [("data", FS.Dir [("a.json", FS.File "1")])] in
  result_of (FileStorage.get JSON.codec "a" DEFAULT_REQUEST_SETTINGS)
            (store_after (FileStorage.set JSON.codec "b" (VNum 2)
                            DEFAULT_REQUEST_SETTINGS) disk)
  = result_of (FileStorage.get JSON.codec "a" DEFAULT_REQUEST_SETTINGS) disk.
Proof.
  intros disk.
  apply (@X17_file_write_is_local JSON.codec "b" "a" (VNum 2)
           DEFAULT_REQUEST_SETTINGS DEFAULT_REQUEST_SETTINGS disk);
    [reflexivity | reflexivity |].
  vm_compute. discriminate.
Defined.

(* ================================================================== *)
(** ** The key/path normaliser *)
(* ================================================================== *)

Section StringFacts.

Lemma length_app (s t : string) :
  String.length (s ++ t) = String.length s + String.length t.
Proof. induction s as [| c s' IH]; simpl; [reflexivity | now rewrite IH]. Qed.

Lemma app_assoc_string (s t u : string) : (s ++ t) ++ u = s ++ (t ++ u).
Proof. induction s as [| c s' IH]; simpl; [reflexivity | now rewrite IH]. Qed.

Lemma app_empty_r (s : string) : s ++ "" = s.
Proof. induction s as [| c s' IH]; simpl; [reflexivity | now rewrite IH]. Qed.

Lemma substring_all (s : string) : String.substring 0 (String.length s) s = s.
Proof. induction s as [| c s' IH]; simpl; [reflexivity | now rewrite IH]. Qed.

Lemma substring_skip (s t : string) (m : nat) :
  String.substring (String.length s) m (s ++ t) = String.substring 0 m t.
Proof. induction s as [| c s' IH]; simpl; [reflexivity | exact IH]. Qed.

Lemma substring_split (s : string) : forall k,
  k <= String.length s ->
  s = String.substring 0 k s ++ String.substring k (String.length s - k) s.
Proof.
  induction s as [| c s' IH]; intros k Hk.
  - destruct k; reflexivity.
  - destruct k as [| k'].
    + simpl. now rewrite substring_all.
    + simpl in *. f_equal. apply IH. lia.
Qed.

Lemma startsWith_app (p s : string) : JsString.startsWith (p ++ s) p = true.
Proof.
  unfold JsString.startsWith.
  induction p as [| c p' IH]; simpl.
  - destruct s; reflexivity.
  - destruct (ascii_dec c c); [exact IH | contradiction].
Qed.

(** [s.endsWith(p)] says that [s] is something followed by [p]. *)
Lemma endsWith_iff (s p : string) :
  JsString.endsWith s p = true <-> exists a, s = a ++ p.
Proof.
  unfold JsString.endsWith. split.
  - destruct (Nat.leb_spec (String.length p) (String.length s)) as [Hle | Hlt];
      [| discriminate].
    intros E. apply String.eqb_eq in E.
    exists (String.substring 0 (String.length s - String.length p) s).
    assert (Hk : String.length s - String.length p <= String.length s) by lia.
    pose proof (substring_split s Hk) as H.
    replace (String.length s - (String.length s - String.length p))
      with (String.length p) in H by lia.
    now rewrite E in H.
  - intros [a ->]. rewrite length_app.
    destruct (Nat.leb_spec (String.length p) (String.length a + String.length p));
      [| lia].
    replace (String.length a + String.length p - String.length p)
      with (String.length a) by lia.
    rewrite substring_skip, substring_all. apply String.eqb_refl.
Qed.

Lemma endsWith_app (a s p : string) :
  JsString.endsWith s p = true -> JsString.endsWith (a ++ s) p = true.
Proof.
  rewrite !endsWith_iff. intros [b ->]. exists (a ++ b).
  now rewrite app_assoc_string.
Qed.

Lemma replace_backslashes_app (s t : string) :
  JsString.replace_backslashes (s ++ t)
  = JsString.replace_backslashes s ++ JsString.replace_backslashes t.
Proof. induction s as [| c s' IH]; simpl; [reflexivity | now rewrite IH]. Qed.

Lemma replace_backslashes_idem (s : string) :
  JsString.replace_backslashes (JsString.replace_backslashes s)
  = JsString.replace_backslashes s.
Proof.
  induction s as [| c s' IH]; simpl; [reflexivity |]. rewrite IH. f_equal.
  destruct (Ascii.eqb_spec c "\"%char) as [-> | Hc]; [reflexivity |].
  destruct (Ascii.eqb_spec c "\"%char); [contradiction | reflexivity].
Qed.

End StringFacts.

(** The key as it stands in the path: slashes for backslashes, one leading
    slash dropped. *)
Lemma normalised_once (raw : string) :
  let once s := let s := JsString.replace_backslashes s in
                if JsString.startsWith s "/" then JsString.slice1 s else s in
  JsString.replace_backslashes (once raw) = once raw.
Proof.
  cbv beta zeta.
  destruct (JsString.startsWith (JsString.replace_backslashes raw) "/");
    [| apply replace_backslashes_idem].
  pose proof (replace_backslashes_idem raw) as H.
  destruct (JsString.replace_backslashes raw) as [| c s]; [reflexivity |].
  simpl in *. now injection H.
Qed.

(** X18.  Whatever the key, the extension and the root: the path that
    [__into_file_path] gives starts with the root and a slash and ends with
    a dot and the extension (["json"] when none is given), and the path
    that [__into_dir_path] gives starts with the root and a slash and ends
    with a slash; neither has a backslash after the root, when the
    extension has none. *)
Theorem X18_paths_have_root_and_extension (raw root : string)
  (ext : option string) :
  let e := match ext with Some e => e | None => "json" end in
  (JsString.startsWith (__into_file_path raw ext root) (root ++ "/") = true
   /\ JsString.endsWith (__into_file_path raw ext root) ("." ++ e) = true
   /\ exists r, __into_file_path raw ext root = root ++ "/" ++ r
                /\ (JsString.replace_backslashes e = e ->
                    JsString.replace_backslashes r = r))
  /\ (JsString.startsWith (__into_dir_path raw root) (root ++ "/") = true
      /\ JsString.endsWith (__into_dir_path raw root) "/" = true
      /\ exists r, __into_dir_path raw root = root ++ "/" ++ r
                   /\ JsString.replace_backslashes r = r).
Proof.
  intros e. pose proof (normalised_once raw) as Hn. cbv beta zeta in Hn.
  unfold __into_file_path, __into_dir_path. fold e.
  set (k := if JsString.startsWith (JsString.replace_backslashes raw) "/"
            then JsString.slice1 (JsString.replace_backslashes raw)
            else JsString.replace_backslashes raw) in *.
  split; split.
  - rewrite <- app_assoc_string. apply startsWith_app.
  - split.
    + destruct (JsString.endsWith k ("." ++ e)) eqn:E; cbn [negb].
      * apply endsWith_app. apply endsWith_app. exact E.
      * apply endsWith_iff. exists (root ++ "/" ++ k).
        now rewrite !app_assoc_string.
    + eexists. split; [reflexivity |]. intros He.
      destruct (negb (JsString.endsWith k ("." ++ e))); [| exact Hn].
      rewrite !replace_backslashes_app, Hn, He. reflexivity.
  - rewrite <- app_assoc_string. apply startsWith_app.
  - split.
    + destruct (JsString.endsWith k "/") eqn:E; cbn [negb].
      * apply endsWith_app. apply endsWith_app. exact E.
      * apply endsWith_iff. exists (root ++ "/" ++ k).
        now rewrite !app_assoc_string.
    + eexists. split; [reflexivity |].
      destruct (negb (JsString.endsWith k "/")); [| exact Hn].
      rewrite replace_backslashes_app, Hn. reflexivity.
Qed.

(** X19.  Several keys name one file.  [__into_file_path] gives the same
    path for a key and for the key with slashes for its backslashes; for
    a key that does not start with a slash or a backslash, and the key
    with one of them put before it; and, the extension having no
    backslash, for a key that does not end with the dot and the extension,
    and the key with them put after it.  The four operations of the file
    store use the key through this path alone, so they do the same for two
    keys of one file. *)
Theorem X19_keys_of_one_file (JSON : JSONCodec) (raw root : string)
  (ext : option string) :
  let e := match ext with Some e => e | None => "json" end in
  let k := JsString.replace_backslashes raw in
  __into_file_path (JsString.replace_backslashes raw) ext root
  = __into_file_path raw ext root
  /\ (JsString.startsWith k "/" = false ->
      __into_file_path ("/" ++ raw) ext root = __into_file_path raw ext root
      /\ __into_file_path ("\" ++ raw) ext root = __into_file_path raw ext root)
  /\ (JsString.replace_backslashes e = e ->
      JsString.endsWith
        (if JsString.startsWith k "/" then JsString.slice1 k else k)
        ("." ++ e) = false ->
      __into_file_path (raw ++ "." ++ e) ext root
      = __into_file_path raw ext root)
  /\ (forall (key key' : string) (data : value) (settings : RequestSettings)
             (w : World FileStorage.t),
        file_of key settings = file_of key' settings ->
        FileStorage.has key settings w = FileStorage.has key' settings w
        /\ FileStorage.get JSON key settings w
           = FileStorage.get JSON key' settings w
        /\ FileStorage.set JSON key data settings w
           = FileStorage.set JSON key' data settings w
        /\ FileStorage.del key settings w = FileStorage.del key' settings w).
Proof.
  intros e k. split; [| split; [| split]].
  - unfold __into_file_path. now rewrite replace_backslashes_idem.
  - intros Hk. unfold __into_file_path. fold e. cbn [append].
    cbn [JsString.replace_backslashes]. fold k. rewrite Hk.
    assert (Hs : JsString.startsWith (String "/" k) "/" = true)
      by (unfold JsString.startsWith; cbn; now destruct k).
    cbn [Ascii.eqb Bool.eqb]. rewrite Hs.
    cbn [JsString.slice1]. split; reflexivity.
  - intros He Hends. unfold __into_file_path. fold e. fold k.
    rewrite !replace_backslashes_app, He. fold k.
    change (JsString.replace_backslashes ".") with ".".
    assert (Hk' : forall t : string,
               (if JsString.startsWith (t ++ "." ++ e) "/"
                then JsString.slice1 (t ++ "." ++ e) else t ++ "." ++ e)
               = (if JsString.startsWith t "/" then JsString.slice1 t else t)
                 ++ "." ++ e).
    { intros [| c s]; [reflexivity |].
      unfold JsString.startsWith. cbn [append String.prefix].
      destruct (ascii_dec "/" c); [| reflexivity].
      assert (H1 : String.prefix "" (s ++ String "." e) = true)
        by now destruct s.
      assert (H2 : String.prefix "" s = true) by now destruct s.
      now rewrite H1, H2. }
    rewrite Hk'.
    set (k0 := if JsString.startsWith k "/" then JsString.slice1 k else k) in *.
    rewrite Hends. cbn [negb].
    assert (Hyes : JsString.endsWith (k0 ++ "." ++ e) ("." ++ e) = true)
      by (apply endsWith_iff; now exists k0).
    now rewrite Hyes.
  - intros key key' data settings w Hfile. unfold file_of in Hfile.
    unfold FileStorage.has, FileStorage.get, FileStorage.set, FileStorage.del.
    rewrite Hfile. repeat split.
Qed.

(** X19 at work: the keys [a], [/a], [\a] and [a.json]. *)
Lemma X19_keys_of_one_file_witness :
  __into_file_path "/a" None "data" = __into_file_path "a" None "data"
  /\ __into_file_path "\a" None "data" = __into_file_path "a" None "data"
  /\ __into_file_path "a.json" None "data" = __into_file_path "a" None "data".
Proof.
  destruct (@X19_keys_of_one_file JSON.codec "a" "data" None)
    as (_ & Hslash & Hext & _).
  destruct (Hslash eq_refl) as (H1 & H2).
  exact (conj H1 (conj H2 (Hext eq_refl eq_refl))).
Defined.

(* ================================================================== *)
(** ** The listings of the file store and of the dual store *)
(* ================================================================== *)

Section FilePairs.

Variable JSON : JSONCodec.
Variable settings : RequestSettings.

(** The loop of [pairs] leaves the disk as it is, also when it throws. *)
Lemma FileStorage_pairs_loop_store (path : string) (content : list FS.Dirent) :
  forall (output : list tuple) (w : World FileStorage.t),
    store (snd (FileStorage.pairs_loop JSON path settings content output w))
    = store w.
Proof.
  induction content as [| dirent rest IH]; intros output w; [reflexivity |].
  cbn [FileStorage.pairs_loop].
  destruct (negb (FS.isFile dirent)); [apply IH |].
  unfold bind at 1.
  destruct (FileStorage.get JSON _ settings w) as [[val | e] w1] eqn:Eg;
    apply FileStorage_get_world in Eg; subst w1; [| reflexivity].
  unfold bind at 1. unfold new_tuple at 1. now rewrite IH.
Qed.

(** Text files are returned as they are, so reading them never throws. *)
Lemma FileStorage_get_text (key : string) (w : World FileStorage.t) :
  is_json settings = false ->
  exists v, FileStorage.get JSON key settings w = (Ok v, w).
Proof.
  intros Hj. unfold FileStorage.get.
  destruct (flag (ignore_files settings) || flag (deny_read settings));
    [now exists VUndefined |].
  unfold bind, autoCatch.
  destruct (FS.readFile _ w) as [[content | e] w1] eqn:E;
    apply readFile_world in E; subst w1.
  - rewrite Hj. now exists (VStr content).
  - now exists VUndefined.
Qed.

Lemma FileStorage_pairs_loop_text (path : string) (content : list FS.Dirent) :
  is_json settings = false ->
  forall (output : list tuple) (w : World FileStorage.t),
    exists ts, fst (FileStorage.pairs_loop JSON path settings content output w)
               = Ok ts.
Proof.
  intros Hj. induction content as [| dirent rest IH]; intros output w.
  - now exists output.
  - cbn [FileStorage.pairs_loop].
    destruct (negb (FS.isFile dirent)); [apply IH |].
    unfold bind at 1.
    destruct (FileStorage_get_text (path ++ FS.name dirent) w Hj) as (v & ->).
    unfold bind at 1. unfold new_tuple at 1. apply IH.
Qed.

Lemma readdir_world (path : string) (r : Outcome (list FS.Dirent))
  (w w1 : World FS.FileSystem) :
  FS.readdir path w = (r, w1) -> w1 = w.
Proof.
  unfold FS.readdir.
  destruct (FS.parse_path path) as [[p b] |]; cbv beta iota;
    [| intros E; injection E as _ <-; reflexivity].
  destruct (FS.find_node _ p) as [[c | es] |];
    intros E; injection E as _ <-; reflexivity.
Qed.

(** [pairs] leaves the disk as it is, also when it throws. *)
Lemma FileStorage_pairs_store (dir : string) (w : World FileStorage.t) :
  store (snd (FileStorage.pairs JSON dir settings w)) = store w.
Proof.
  unfold FileStorage.pairs.
  destruct (flag (ignore_files settings) || flag (deny_read settings));
    [reflexivity |].
  unfold bind, autoCatch.
  destruct (FS.readdir _ w) as [[content | e] w1] eqn:E;
    apply readdir_world in E; subst w1; [| reflexivity].
  apply FileStorage_pairs_loop_store.
Qed.

End FilePairs.

(** X20.  [FileStorage.pairs], for any directory, settings and disk.  It
    never changes the disk, also when it throws.  It returns the empty
    list when the files are ignored or reading is denied, and when the
    directory cannot be listed.  When it lists the directory and returns,
    the result has one entry for each regular file of the listing, in the
    order of the listing; the key of an entry is the path of the file
    (the directory path followed by the file name), its value is what [get]
    returns for that path taken as a key, and the entries are new arrays.
    With a data type other than ["json"] it always returns. *)
Theorem X20_file_pairs (JSON : JSONCodec) (dir : string)
  (settings : RequestSettings) (w : World FileStorage.t) :
  let path := __into_dir_path dir DEFAULT_DATA_ROOT in
  store (snd (FileStorage.pairs JSON dir settings w)) = store w
  /\ (flag (ignore_files settings) || flag (deny_read settings) = true ->
      FileStorage.pairs JSON dir settings w = (Ok [], w))
  /\ (forall e, fst (FS.readdir path w) = Throw e ->
                FileStorage.pairs JSON dir settings w = (Ok [], w))
  /\ (flag (ignore_files settings) || flag (deny_read settings) = false ->
      forall content ts w',
        fst (FS.readdir path w) = Ok content ->
        FileStorage.pairs JSON dir settings w = (Ok ts, w') ->
        map tuple_key ts
        = map (fun d => path ++ FS.name d) (filter FS.isFile content)
        /\ Forall (fun t => fst (FileStorage.get JSON (tuple_key t) settings w)
                            = Ok (tuple_val t)) ts
        /\ map tuple_ref ts = seq (allocated w) (length ts))
  /\ (is_json settings = false ->
      exists ts, fst (FileStorage.pairs JSON dir settings w) = Ok ts).
Proof.
  intros path.
  split; [| split; [| split; [| split]]].
  - apply FileStorage_pairs_store.
  - intros Hflags. unfold FileStorage.pairs. now rewrite Hflags.
  - intros e He. unfold FileStorage.pairs. fold path.
    destruct (flag (ignore_files settings) || flag (deny_read settings));
      [reflexivity |].
    unfold bind, autoCatch.
    destruct (FS.readdir path w) as [[content | e'] w1] eqn:E;
      [discriminate |].
    apply readdir_world in E. now subst w1.
  - intros Hflags content ts w' Hlist Hrun.
    assert (Hlist' : FS.readdir path w = (Ok content, w)).
    { destruct (FS.readdir path w) as [r w1] eqn:E.
      pose proof (readdir_world _ _ E). cbn [fst] in Hlist. now subst. }
    destruct (@FileStorage_pairs_entries JSON settings dir content ts w w'
                Hflags Hlist' Hrun) as (Hkeys & Hvals & _).
    split; [exact Hkeys | split; [exact Hvals |]].
    exact (@FileStorage_pairs_fresh JSON dir settings ts w w' Hrun).
  - intros Hj. unfold FileStorage.pairs. fold path.
    destruct (flag (ignore_files settings) || flag (deny_read settings));
      [now exists [] |].
    unfold bind, autoCatch.
    destruct (FS.readdir path w) as [[content | e] w1]; [| now exists []].
    apply FileStorage_pairs_loop_text, Hj.
Qed.

(** X20 at work, on a disk where [set] has written ["users/a"] and
    ["users/sub/b"]: the listing of ["users"] has one entry, for the file. *)
Lemma X20_file_pairs_witness :
  let disk := store_after (FileStorage.set JSON.codec "users/a" (VNum 1)
                             DEFAULT_REQUEST_SETTINGS;;;
                           FileStorage.set JSON.codec "users/sub/b" (VNum 2)
                             DEFAULT_REQUEST_SETTINGS) FS.empty in
  exists ts,
    result_of (FileStorage.pairs JSON.codec "users" DEFAULT_REQUEST_SETTINGS)
              disk = Ok ts
    /\ map tuple_key ts = ["data/users/a.json"].
Proof.
  intros disk. set (w := mkWorld 0 disk).
  destruct (@X20_file_pairs JSON.codec "users" DEFAULT_REQUEST_SETTINGS w)
    as (_ & _ & _ & Hlist & _).
  destruct (Hlist eq_refl
              (match fst (FS.readdir "data/users/" w) with
               | Ok listing => listing
               | Throw _ => []
               end)
              (match fst (FileStorage.pairs JSON.codec "users"
                            DEFAULT_REQUEST_SETTINGS w) with
               | Ok l => l
               | Throw _ => []
               end)
              (snd (FileStorage.pairs JSON.codec "users"
                      DEFAULT_REQUEST_SETTINGS w))
              eq_refl eq_refl) as (Hkeys & _).
  eexists. split; [reflexivity | exact Hkeys].
Defined.

(** X21.  [DualStorage.pairs], when it returns: the result is the listing
    of the cache followed by the listing of the files, nothing removed;
    the entries of the cache are those whose key starts with [dir], in the
    order of the map (none when the cache is ignored or reading is denied);
    the listing of the files is what [FileStorage.pairs] returns on the
    disk; all the entries are different arrays, which is why the set built
    from them keeps them all; and neither the cache nor the disk changes. *)
Theorem X21_dual_pairs (JSON : JSONCodec) (dir : string)
  (settings : RequestSettings) (w w' : World DualStorage.t) (ts : list tuple) :
  DualStorage.pairs JSON dir settings w = (Ok ts, w') ->
  exists cache files,
    ts = (cache ++ files)%list
    /\ entries_of cache
       = (if flag (ignore_cache settings) || flag (deny_read settings) then []
          else filter (fun '(k, _) => JsString.startsWith k dir)
                      (JsMap.entries (DualStorage.__cache (store w))))
    /\ fst (FileStorage.pairs JSON dir settings
              (mkWorld (allocated w + length cache)
                       (DualStorage.__files (store w))))
       = Ok files
    /\ NoDup (map tuple_ref ts)
    /\ store w' = store w.
Proof.
  intros Hrun.
  destruct (CacheStorage_pairs_run dir settings
              (mkWorld (allocated w) (DualStorage.__cache (store w))))
    as (cache & Hc & Hcent).
  destruct (CacheStorage_pairs_fresh dir settings
              (mkWorld (allocated w) (DualStorage.__cache (store w))))
    as (cache' & Hc' & Hcrefs).
  rewrite Hc in Hc'. injection Hc' as <-.
  cbn [allocated store] in *.
  revert Hrun. unfold DualStorage.pairs. unfold bind at 1.
  erewrite on_cache_run by exact Hc.
  cbn [allocated store]. unfold bind at 1.
  match goal with
  | |- context [DualStorage.on_files ?m ?w1] =>
      destruct (m (mkWorld (allocated w1) (DualStorage.__files (store w1))))
        as [[files | e] wf] eqn:Ef;
      rewrite (@on_files_run w1 _ m _ _ Ef); [| discriminate]
  end.
  cbn [allocated store DualStorage.__files DualStorage.__cache] in *.
  pose proof (@FileStorage_pairs_fresh JSON _ _ _ _ _ Ef) as Hfrefs.
  cbn [allocated] in Hfrefs.
  pose proof (@FileStorage_pairs_store JSON settings dir
                (mkWorld (allocated w + length cache)
                         (DualStorage.__files (store w)))) as Hstore.
  rewrite Ef in Hstore. cbn [snd store] in Hstore.
  assert (Hnd : NoDup (map tuple_ref (cache ++ files)%list)).
  { rewrite map_app, Hcrefs, Hfrefs, <- seq_app. apply seq_NoDup. }
  unfold ret. intros E. injection E as Hts Hw'.
  assert (Hset : Set_of [] (cache ++ files)%list = (cache ++ files)%list)
    by (apply Set_of_distinct; [exact Hnd | intros r _ []]).
  rewrite Hset in Hts. subst ts.
  exists cache, files. split; [reflexivity |].
  split; [exact Hcent |]. split; [now rewrite Ef |]. split; [exact Hnd |].
  rewrite <- Hw'. cbn [store]. rewrite Hstore. now destruct (store w).
Qed.

(** X21 at work: a new dual store after [set("users/a", 1)]. *)
Lemma X21_dual_pairs_witness :
  let s := store_after (DualStorage.set JSON.codec "users/a" (VNum 1)
                          DEFAULT_REQUEST_SETTINGS)
                       (DualStorage.new FS.empty) in
  exists cache files,
    result_of (DualStorage.pairs JSON.codec "users/" DEFAULT_REQUEST_SETTINGS)
              s
    = Ok (cache ++ files)%list
    /\ entries_of cache = [("users/a", VNum 1)].
Proof.
  intros s.
  destruct (@X21_dual_pairs JSON.codec "users/" DEFAULT_REQUEST_SETTINGS
              (mkWorld 0 s)
              (snd (DualStorage.pairs JSON.codec "users/"
                      DEFAULT_REQUEST_SETTINGS (mkWorld 0 s)))
              (match fst (DualStorage.pairs JSON.codec "users/"
                            DEFAULT_REQUEST_SETTINGS (mkWorld 0 s)) with
               | Ok l => l | Throw _ => [] end)
              eq_refl) as (cache & files & Hts & Hcache & _).
  exists cache, files. split; [| exact Hcache].
  rewrite <- Hts. reflexivity.
Defined.

(* ================================================================== *)
(** ** Action identifiers *)
(* ================================================================== *)

Section SplitFacts.

Variable c : ascii.

Lemma rev_onto_app (s : string) : forall acc,
  JsString.rev_onto s acc = JsString.rev_onto s "" ++ acc.
Proof.
  induction s as [| d s IH]; intros acc; [reflexivity |].
  cbn [JsString.rev_onto]. rewrite IH, (IH (String d "")).
  now rewrite app_assoc_string.
Qed.

Lemma split_acc_cur (s : string) : forall cur,
  JsString.split_acc c s cur
  = match JsString.split_acc c s "" with
    | x :: r => (JsString.rev cur ++ x) :: r
    | [] => []
    end.
Proof.
  induction s as [| d s IH]; intros cur; cbn [JsString.split_acc].
  - cbn. now rewrite app_empty_r.
  - destruct (Ascii.eqb d c).
    + cbn. now rewrite app_empty_r.
    + rewrite IH, (IH (String d "")).
      destruct (JsString.split_acc c s "") as [| x r]; [reflexivity |].
      unfold JsString.rev. cbn [JsString.rev_onto].
      rewrite rev_onto_app. now rewrite <- app_assoc_string.
Qed.

(** [split], character by character. *)
Lemma split_cons (d : ascii) (s : string) :
  JsString.split (String d s) c
  = if Ascii.eqb d c then "" :: JsString.split s c
    else match JsString.split s c with
         | x :: r => String d x :: r
         | [] => []
         end.
Proof.
  unfold JsString.split. cbn [JsString.split_acc].
  destruct (Ascii.eqb d c); [reflexivity |].
  rewrite split_acc_cur. reflexivity.
Qed.

Lemma split_not_nil (s : string) : JsString.split s c <> [].
Proof.
  induction s as [| d s IH]; [discriminate |].
  rewrite split_cons. destruct (Ascii.eqb d c); [discriminate |].
  destruct (JsString.split s c); [contradiction | discriminate].
Qed.

Lemma split_no_separator (s : string) :
  JsString.includes s c = false -> JsString.split s c = [s].
Proof.
  induction s as [| d s IH]; [reflexivity |].
  cbn [JsString.includes]. intros Hs. apply orb_false_elim in Hs as (Hd & Hs).
  rewrite split_cons, Hd, (IH Hs). reflexivity.
Qed.

Lemma split_pieces (s : string) :
  Forall (fun piece => JsString.includes piece c = false) (JsString.split s c).
Proof.
  induction s as [| d s IH]; [repeat constructor |].
  rewrite split_cons. destruct (Ascii.eqb d c) eqn:Hd.
  - constructor; [reflexivity | exact IH].
  - destruct (JsString.split s c) as [| x r]; [constructor |].
    inversion IH as [| ? ? Hx Hr]; subst.
    constructor; [| exact Hr]. cbn [JsString.includes]. now rewrite Hd, Hx.
Qed.

(** Joining the pieces with the separator gives the string back. *)
Lemma concat_split (s : string) :
  String.concat (String c "") (JsString.split s c) = s.
Proof.
  induction s as [| d s IH]; [reflexivity |].
  rewrite split_cons. destruct (Ascii.eqb d c) eqn:Hd.
  - apply Ascii.eqb_eq in Hd. subst d.
    pose proof (split_not_nil s) as Hne.
    destruct (JsString.split s c) as [| x r]; [contradiction |].
    cbn [String.concat]. cbn [String.concat] in IH. now rewrite IH.
  - destruct (JsString.split s c) as [| x r] eqn:E;
      [now apply split_not_nil in E |].
    cbn [String.concat] in *. destruct r as [| y r].
    + now rewrite IH.
    + rewrite <- IH. reflexivity.
Qed.

Lemma split_app_separator (x rest : string) :
  JsString.includes x c = false ->
  JsString.split (x ++ String c rest) c = x :: JsString.split rest c.
Proof.
  induction x as [| d x IH]; cbn [append JsString.includes].
  - intros _. rewrite split_cons, Ascii.eqb_refl. reflexivity.
  - intros Hs. apply orb_false_elim in Hs as (Hd & Hs).
    rewrite split_cons, Hd, (IH Hs). reflexivity.
Qed.

(** Splitting the join of pieces without separator gives the pieces. *)
Lemma split_concat (pieces : list string) : forall first,
  Forall (fun piece => JsString.includes piece c = false) (first :: pieces) ->
  JsString.split (String.concat (String c "") (first :: pieces)) c
  = first :: pieces.
Proof.
  induction pieces as [| second pieces IH]; intros first Hall;
    inversion Hall as [| ? ? Hfirst Hrest]; subst.
  - now apply split_no_separator.
  - change (String.concat (String c "") (first :: second :: pieces))
      with (first ++ String c (String.concat (String c "") (second :: pieces))).
    rewrite (@split_app_separator first _ Hfirst), (IH second Hrest).
    reflexivity.
Qed.

End SplitFacts.

Lemma raw_id_of_head (id : string) :
  raw_id_of id = hd "" (JsString.split id ";").
Proof.
  unfold raw_id_of. destruct (JsString.includes id ";") eqn:E; [reflexivity |].
  now rewrite (@split_no_separator ";" id E).
Qed.

Lemma raw_id_of_plain (id : string) :
  JsString.includes (raw_id_of id) ";" = false.
Proof.
  rewrite raw_id_of_head. pose proof (split_pieces ";" id) as Hall.
  destruct (JsString.split id ";") as [| x r]; [reflexivity |].
  now inversion Hall.
Qed.

Lemma raw_id_of_idem (id : string) : raw_id_of (raw_id_of id) = raw_id_of id.
Proof.
  unfold raw_id_of at 1. now rewrite raw_id_of_plain.
Qed.

(** X22.  The identifier of an action carries data after the name, with
    semicolons between: [raw_id] (in [on], [define] and [invoke]) is the
    first piece of [id.split(";")], with or without the test of
    [includes], and [custom_data] the other pieces; none of them has a
    semicolon, and joined with semicolons they give [id] back.  Taking the
    name of a name changes nothing.  The other way round, for a name and
    data without semicolons, the identifier made by joining them with
    semicolons has that name and those data. *)
Theorem X22_action_identifiers (id : string) :
  raw_id_of id = hd "" (JsString.split id ";")
  /\ JsString.split id ";" = raw_id_of id :: custom_data_of id
  /\ JsString.includes (raw_id_of id) ";" = false
  /\ Forall (fun d => JsString.includes d ";" = false) (custom_data_of id)
  /\ String.concat ";" (raw_id_of id :: custom_data_of id) = id
  /\ raw_id_of (raw_id_of id) = raw_id_of id
  /\ (forall (name : string) (data : list string),
        JsString.includes name ";" = false ->
        Forall (fun d => JsString.includes d ";" = false) data ->
        raw_id_of (String.concat ";" (name :: data)) = name
        /\ custom_data_of (String.concat ";" (name :: data)) = data).
Proof.
  assert (Hsplit : JsString.split id ";" = raw_id_of id :: custom_data_of id).
  { rewrite raw_id_of_head. unfold custom_data_of.
    pose proof (split_not_nil ";" id) as Hne.
    now destruct (JsString.split id ";"). }
  split; [apply raw_id_of_head |]. split; [exact Hsplit |].
  split; [apply raw_id_of_plain |]. split.
  { pose proof (split_pieces ";" id) as Hall. rewrite Hsplit in Hall.
    now inversion Hall. }
  split; [rewrite <- Hsplit; apply concat_split |].
  split; [apply raw_id_of_idem |].
  intros name data Hname Hdata.
  assert (Hjoin : JsString.split (String.concat ";" (name :: data)) ";"
                  = name :: data)
    by (apply split_concat; now constructor).
  rewrite raw_id_of_head. unfold custom_data_of. rewrite Hjoin.
  split; reflexivity.
Qed.

(** X22 at work: the identifier ["vote;42;yes"]. *)
Lemma X22_action_identifiers_witness :
  raw_id_of "vote;42;yes" = "vote"
  /\ custom_data_of "vote;42;yes" = ["42"; "yes"].
Proof.
  destruct (X22_action_identifiers "") as (_ & _ & _ & _ & _ & _ & Hjoin).
  apply (Hjoin "vote" ["42"; "yes"]); [reflexivity |].
  constructor; [reflexivity |]. constructor; [reflexivity |]. constructor.
Defined.

(* ================================================================== *)
(** ** The registries *)
(* ================================================================== *)

Section JsMapOfFacts.

Variables K V : Type.
Variable eqb : K -> K -> bool.
Hypothesis eqb_eq : forall a b, eqb a b = true <-> a = b.

Lemma eqb_same (a : K) : eqb a a = true.
Proof. now apply eqb_eq. Qed.

Lemma eqb_other (a b : K) : a <> b -> eqb a b = false.
Proof.
  intros Hne. destruct (eqb a b) eqn:E; [| reflexivity].
  now apply eqb_eq in E.
Qed.

Lemma JsMapOf_has_get (m : JsMapOf.t K V) (key : K) :
  JsMapOf.has eqb m key
  = match JsMapOf.get eqb m key with Some _ => true | None => false end.
Proof.
  induction m as [| [k v] m IH]; [reflexivity |].
  cbn [JsMapOf.has JsMapOf.get]. now destruct (eqb k key).
Qed.

Lemma JsMapOf_get_set (m : JsMapOf.t K V) (key : K) (data : V) :
  JsMapOf.get eqb (JsMapOf.set eqb m key data) key = Some data.
Proof.
  induction m as [| [k v] m IH]; cbn [JsMapOf.set JsMapOf.get].
  - now rewrite eqb_same.
  - destruct (eqb k key) eqn:E; cbn [JsMapOf.get]; now rewrite E.
Qed.

Lemma JsMapOf_get_set_other (m : JsMapOf.t K V) (key key' : K) (data : V) :
  key' <> key ->
  JsMapOf.get eqb (JsMapOf.set eqb m key data) key' = JsMapOf.get eqb m key'.
Proof.
  intros Hne. induction m as [| [k v] m IH]; cbn [JsMapOf.set JsMapOf.get].
  - rewrite eqb_other; [reflexivity | congruence].
  - destruct (eqb k key) eqn:E; cbn [JsMapOf.get].
    + apply eqb_eq in E. subst k.
      rewrite eqb_other; [reflexivity | congruence].
    + now rewrite IH.
Qed.

Lemma JsMapOf_delete_absent (m : JsMapOf.t K V) (key : K) :
  JsMapOf.has eqb m key = false -> JsMapOf.delete eqb m key = m.
Proof.
  induction m as [| [k v] m IH]; [reflexivity |].
  cbn [JsMapOf.has JsMapOf.delete].
  destruct (eqb k key); [discriminate |]. intros Hm. now rewrite IH.
Qed.

Lemma JsMapOf_set_absent (m : JsMapOf.t K V) (key : K) (data : V) :
  JsMapOf.has eqb m key = false ->
  JsMapOf.set eqb m key data = (m ++ [(key, data)])%list.
Proof.
  induction m as [| [k v] m IH]; [reflexivity |].
  cbn [JsMapOf.has JsMapOf.set].
  destruct (eqb k key); [discriminate |]. intros Hm. now rewrite IH.
Qed.

Lemma JsMapOf_delete_last (m : JsMapOf.t K V) (key : K) (data : V) :
  JsMapOf.has eqb m key = false ->
  JsMapOf.delete eqb (m ++ [(key, data)])%list key = m.
Proof.
  induction m as [| [k v] m IH]; cbn [JsMapOf.has JsMapOf.delete app].
  - now rewrite eqb_same.
  - destruct (eqb k key); [discriminate |]. intros Hm. now rewrite IH.
Qed.

Lemma JsMapOf_has_In (m : JsMapOf.t K V) (key : K) :
  JsMapOf.has eqb m key = true <-> In key (map fst m).
Proof.
  induction m as [| [k v] m IH]; cbn [JsMapOf.has map fst In].
  - split; [discriminate | contradiction].
  - destruct (eqb k key) eqn:E.
    + apply eqb_eq in E. tauto.
    + split; [intros Hm; right; now apply IH |].
      intros [-> | Hin]; [now rewrite eqb_same in E | now apply IH].
Qed.

End JsMapOfFacts.

Lemma string_eqb_eq (a b : string) : String.eqb a b = true <-> a = b.
Proof. apply String.eqb_eq. Qed.

(* ================================================================== *)
(** ** The action managers *)
(* ================================================================== *)

Section ActionFacts.

Context {Bot I : Type} `{Host Bot I}.
Variable Callback : Type.
Variable call :
  Callback -> ActionContext I ->
  M (@BaseActionManager.t Bot Callback)
    (M (@BaseActionManager.t Bot Callback) unit).

(** A call on the bot does to the manager what it does to the bot, and
    leaves the callbacks. *)
Lemma on_bot_run {A} (m : M Bot A)
  (w : World (@BaseActionManager.t Bot Callback)) r wb :
  m (mkWorld (allocated w) (BaseActionManager._bot (store w))) = (r, wb) ->
  BaseActionManager.on_bot m w
  = (r, mkWorld (allocated wb)
          (BaseActionManager.mk (store wb)
             (BaseActionManager._callbacks (store w)))).
Proof.
  intros E. unfold BaseActionManager.on_bot, zoom. now rewrite E.
Qed.

(** What [invoke] does when the name has a callback. *)
Lemma invoke_found (id : string) (interaction : I) (callback : Callback)
  (w : World (@BaseActionManager.t Bot Callback)) :
  JsMapOf.get String.eqb (BaseActionManager._callbacks (store w))
              (raw_id_of id) = Some callback ->
  BaseActionManager.invoke call id interaction w
  = (promise <- call callback (mkContext interaction (custom_data_of id));;
     result <- autoCatch promise;;
     match result with
     | Success _ =>
         BaseActionManager.on_bot
           (logger_info ("Invoked action callback for "
                         ++ constructor_name interaction ++ " "
                         ++ raw_id_of id))
     | Failure reason =>
         sent <- autoCatch (BaseActionManager.on_bot
                              (BaseActionManager.send_error
                                 (raw_id_of id) reason interaction));;
         match sent with
         | Success _ => ret tt
         | Failure error =>
             BaseActionManager.on_bot
               (BaseActionManager.log_error
                  (constructor_name interaction) (raw_id_of id)
                  reason error)
         end
     end) w.
Proof.
  intros Hget. unfold BaseActionManager.invoke.
  unfold bind at 1. unfold get_store at 1. cbv beta iota.
  rewrite JsMapOf_has_get, Hget. reflexivity.
Qed.

Lemma invoke_missing (id : string) (interaction : I)
  (w : World (@BaseActionManager.t Bot Callback)) :
  JsMapOf.has String.eqb (BaseActionManager._callbacks (store w))
              (raw_id_of id) = false ->
  BaseActionManager.invoke call id interaction w
  = BaseActionManager.on_bot
      (logger_error ("Missing action callback for "
                     ++ constructor_name interaction ++ " " ++ raw_id_of id))
      w.
Proof.
  intros Hhas. unfold BaseActionManager.invoke.
  unfold bind at 1. unfold get_store at 1. cbv beta iota.
  now rewrite Hhas.
Qed.

End ActionFacts.

(** X23.  [on] and [invoke] of a manager.  [on(id, callback)] stores the
    callback under the name of [id], does nothing to the bot, and leaves
    the callback of every other name.  After it, [invoke] of an identifier
    with the same name, whatever data it carries, calls that callback, on
    a context with the interaction and the data of the identifier invoked.
    When the call throws, [invoke] throws the same, in the state the call
    left: the call is made before [autoCatch] is entered.  When the call
    returns a promise that resolves, [invoke] logs one information line
    and that is all; when the promise rejects and the error embed can be
    sent, [invoke] returns without logging. *)
Theorem X23_on_then_invoke (Bot I : Type) (host : Host Bot I)
  (Callback : Type)
  (call : Callback -> ActionContext I ->
          M (@BaseActionManager.t Bot Callback)
            (M (@BaseActionManager.t Bot Callback) unit))
  (id id' other : string) (callback : Callback) (interaction : I)
  (m : @BaseActionManager.t Bot Callback) :
  raw_id_of id' = raw_id_of id ->
  let context := mkContext interaction (custom_data_of id') in
  let m' := store_after (BaseActionManager.on id callback) m in
  run (BaseActionManager.on id callback) m = (Ok tt, m')
  /\ BaseActionManager._bot m' = BaseActionManager._bot m
  /\ JsMapOf.get String.eqb (BaseActionManager._callbacks m') (raw_id_of id)
     = Some callback
  /\ (raw_id_of other <> raw_id_of id ->
      JsMapOf.get String.eqb (BaseActionManager._callbacks m')
                  (raw_id_of other)
      = JsMapOf.get String.eqb (BaseActionManager._callbacks m)
                    (raw_id_of other))
  /\ (forall e w1,
        call callback context (mkWorld 0 m') = (Throw e, w1) ->
        BaseActionManager.invoke call id' interaction (mkWorld 0 m')
        = (Throw e, w1))
  /\ (forall promise w1 w2,
        call callback context (mkWorld 0 m') = (Ok promise, w1) ->
        promise w1 = (Ok tt, w2) ->
        BaseActionManager.invoke call id' interaction (mkWorld 0 m')
        = BaseActionManager.on_bot
            (logger_info ("Invoked action callback for "
                          ++ constructor_name interaction ++ " "
                          ++ raw_id_of id)) w2)
  /\ (forall promise reason w1 w2 w3,
        call callback context (mkWorld 0 m') = (Ok promise, w1) ->
        promise w1 = (Throw reason, w2) ->
        BaseActionManager.on_bot
          (BaseActionManager.send_error (raw_id_of id) reason interaction) w2
        = (Ok tt, w3) ->
        BaseActionManager.invoke call id' interaction (mkWorld 0 m')
        = (Ok tt, w3)).
Proof.
  intros Hname context m'.
  assert (Hm' : m' = BaseActionManager.mk (BaseActionManager._bot m)
                       (JsMapOf.set String.eqb (BaseActionManager._callbacks m)
                                    (raw_id_of id) callback))
    by reflexivity.
  assert (Hget : JsMapOf.get String.eqb (BaseActionManager._callbacks m')
                             (raw_id_of id') = Some callback).
  { rewrite Hm', Hname. cbn [BaseActionManager._callbacks].
    apply (@JsMapOf_get_set _ _ String.eqb string_eqb_eq). }
  pose proof (@invoke_found Bot I host Callback call id' interaction callback
                (mkWorld 0 m') Hget) as Hinvoke.
  fold context in Hinvoke.
  split; [reflexivity |]. split; [now rewrite Hm' |].
  split; [now rewrite <- Hname |].
  split; [| split; [| split]].
  - intros Hother. rewrite Hm'. cbn [BaseActionManager._callbacks].
    now apply (@JsMapOf_get_set_other _ _ String.eqb string_eqb_eq).
  - intros e w1 Hcall. rewrite Hinvoke. unfold bind at 1.
    now rewrite Hcall.
  - intros promise w1 w2 Hcall Hpromise. rewrite Hinvoke.
    unfold bind at 1. rewrite Hcall. unfold bind at 1.
    unfold autoCatch at 1. rewrite Hpromise. now rewrite Hname.
  - intros promise reason w1 w2 w3 Hcall Hpromise Hsent. rewrite Hinvoke.
    unfold bind at 1. rewrite Hcall. unfold bind at 1.
    unfold autoCatch at 1. rewrite Hpromise.
    unfold bind at 1. unfold autoCatch at 1. rewrite Hname, Hsent.
    reflexivity.
Qed.

(** X23 at work: a callback that says the data it is given, stored under
    ["vote"] and invoked as ["vote;42;yes"]. *)
Lemma X23_on_then_invoke_witness :
  let m := store_after (BaseActionManager.on "vote" SaysData)
                       (BaseActionManager.mk [] []) in
  raw_id_of "vote;42;yes" = raw_id_of "vote"
  /\ fst (BaseActionManager.invoke call_sample "vote;42;yes" tt
            (mkWorld 0 m)) = Ok tt
  /\ BaseActionManager._bot
       (store (snd (BaseActionManager.invoke call_sample "vote;42;yes" tt
                      (mkWorld 0 m))))
     = ["info: Invoked action callback for ButtonInteraction vote"; "42,yes"].
Proof.
  intros m.
  destruct (@X23_on_then_invoke (list string) unit console_host
              sample_callback call_sample
              "vote" "vote;42;yes" "poll" SaysData tt
              (BaseActionManager.mk [] []) eq_refl)
    as (_ & _ & _ & _ & _ & Hrun & _).
  specialize (Hrun _ _ _ eq_refl eq_refl).
  split; [reflexivity |].
  split; [exact (f_equal fst Hrun) |].
  exact (f_equal
           (fun r => BaseActionManager._bot (store (snd r))) Hrun).
Defined.

(** X24.  When the logger does not throw, [invoke] throws in two cases
    only, whatever the identifier, the interaction and the callbacks do.
    One is the call of the callback: what the call throws, [invoke]
    throws, in the state the call left.  The other is the template
    literal of the [catch] block: when the promise rejects, the error
    embed cannot be sent, and the conversion to text of one of the two
    errors throws, [invoke] throws the same.  In every other case
    [invoke] returns: the
    rejection of the promise is caught and sent as an embed, the error of
    sending it is caught and logged, and a name with an entry always has a
    callback.  For a name without entry [invoke] logs one error line,
    calls no callback, and leaves the callbacks as they are. *)
Theorem X24_invoke_throws_at_the_call (Bot I : Type) (host : Host Bot I)
  (Callback : Type)
  (call : Callback -> ActionContext I ->
          M (@BaseActionManager.t Bot Callback)
            (M (@BaseActionManager.t Bot Callback) unit))
  (id : string) (interaction : I)
  (w : World (@BaseActionManager.t Bot Callback)) :
  (forall line wb, exists wb', logger_info line wb = (Ok tt, wb')) ->
  (forall line wb, exists wb', logger_error line wb = (Ok tt, wb')) ->
  let invoked := BaseActionManager.invoke call id interaction w in
  match JsMapOf.get String.eqb (BaseActionManager._callbacks (store w))
                    (raw_id_of id) with
  | None =>
      invoked
      = BaseActionManager.on_bot
          (logger_error ("Missing action callback for "
                         ++ constructor_name interaction ++ " "
                         ++ raw_id_of id)) w
      /\ exists w',
           invoked = (Ok tt, w')
           /\ BaseActionManager._callbacks (store w')
              = BaseActionManager._callbacks (store w)
  | Some callback =>
      match call callback (mkContext interaction (custom_data_of id)) w with
      | (Throw e, w1) => invoked = (Throw e, w1)
      | (Ok promise, w1) =>
          match promise w1 with
          | (Ok _, w2) => exists w', invoked = (Ok tt, w')
          | (Throw reason, w2) =>
              match BaseActionManager.on_bot
                      (BaseActionManager.send_error
                         (raw_id_of id) reason interaction) w2 with
              | (Ok _, w3) => invoked = (Ok tt, w3)
              | (Throw error, w3) =>
                  match template reason with
                  | Throw e => invoked = (Throw e, w3)
                  | Ok _ =>
                      match template error with
                      | Throw e => invoked = (Throw e, w3)
                      | Ok _ => exists w', invoked = (Ok tt, w')
                      end
                  end
              end
          end
      end
  end.
Proof.
  intros Hinfo Herror invoked. subst invoked.
  destruct (JsMapOf.get String.eqb (BaseActionManager._callbacks (store w))
                        (raw_id_of id)) as [callback |] eqn:Eget.
  - rewrite (@invoke_found Bot I host Callback call _ _ _ _ Eget).
    destruct (call callback _ w) as [[promise | e] w1] eqn:Ecall;
      [| unfold bind at 1; now rewrite Ecall].
    destruct (promise w1) as [[[] | reason] w2] eqn:Epromise.
    + unfold bind at 1. rewrite Ecall. unfold bind at 1.
      unfold autoCatch at 1. rewrite Epromise.
      unfold BaseActionManager.on_bot, zoom.
      match goal with
      | |- context [logger_info ?line ?wb0] =>
          destruct (Hinfo line wb0) as (wb' & ->)
      end.
      eexists. reflexivity.
    + destruct (BaseActionManager.on_bot _ w2) as [[[] | error] w3] eqn:Esent.
      * unfold bind at 1. rewrite Ecall. unfold bind at 1.
        unfold autoCatch at 1. rewrite Epromise.
        unfold bind at 1. unfold autoCatch at 1. now rewrite Esent.
      * assert (Hrun :
                  BaseActionManager.invoke call id interaction w
                  = BaseActionManager.on_bot
                      (BaseActionManager.log_error
                         (constructor_name interaction) (raw_id_of id)
                         reason error) w3).
        { rewrite (@invoke_found Bot I host Callback call _ _ _ _ Eget).
          unfold bind at 1. rewrite Ecall. unfold bind at 1.
          unfold autoCatch at 1. rewrite Epromise.
          unfold bind at 1. unfold autoCatch at 1. now rewrite Esent. }
        rewrite <- (@invoke_found Bot I host Callback call _ _ _ _ Eget).
        rewrite Hrun. unfold BaseActionManager.log_error.
        destruct (template reason) as [reason_text | e];
          [| destruct w3 as [n3 [b3 c3]]; reflexivity].
        destruct (template error) as [error_text | e];
          [| destruct w3 as [n3 [b3 c3]]; reflexivity].
        unfold BaseActionManager.on_bot, zoom.
        match goal with
        | |- context [logger_error ?line ?wb0] =>
            destruct (Herror line wb0) as (wb' & ->)
        end.
        eexists. reflexivity.
  - assert (Hhas : JsMapOf.has String.eqb
                     (BaseActionManager._callbacks (store w)) (raw_id_of id)
                   = false) by (now rewrite JsMapOf_has_get, Eget).
    rewrite (@invoke_missing Bot I host Callback call _ _ _ Hhas).
    split; [reflexivity |].
    unfold BaseActionManager.on_bot, zoom.
    match goal with
    | |- context [logger_error ?line ?wb0] =>
        destruct (Herror line wb0) as (wb' & ->)
    end.
    eexists. split; reflexivity.
Qed.

(** X24 at work, on a host whose logger writes to a list: a callback whose
    promise rejects, and [invoke] returns. *)
Lemma X24_invoke_throws_at_the_call_witness :
  BaseActionManager.invoke call_sample "vote;1" tt
    (mkWorld 0 (BaseActionManager.mk [] [("vote", Rejects)]))
  = (Ok tt,
     mkWorld 0
       (BaseActionManager.mk
          ["reply: Error invoking action callback for "
           ++ String JSON.dquote ("vote" ++ String JSON.dquote "")]
          [("vote", Rejects)])).
Proof.
  exact (@X24_invoke_throws_at_the_call (list string) unit console_host
           sample_callback call_sample "vote;1" tt
           (mkWorld 0 (BaseActionManager.mk [] [("vote", Rejects)]))
           (fun line wb => ex_intro _ _ eq_refl)
           (fun line wb => ex_intro _ _ eq_refl)).
Defined.

Section DefinedFacts.

Context {Bot : Type}.
Variables Callback D : Type.

Lemma on_base_run {A} (m : M (@BaseActionManager.t Bot Callback) A)
  (w : World (@DefinedActionManager.t Bot Callback D)) r wb :
  m (mkWorld (allocated w) (DefinedActionManager.base (store w))) = (r, wb) ->
  DefinedActionManager.on_base m w
  = (r, mkWorld (allocated wb)
          (DefinedActionManager.mk (store wb)
             (DefinedActionManager._definitions (store w)))).
Proof.
  intros E. unfold DefinedActionManager.on_base, zoom. now rewrite E.
Qed.

End DefinedFacts.

(** X25.  A manager with definitions.  [on] for a name without definition
    throws and registers nothing; [define] never fails, whatever the
    identifier and the data, and leaves the callbacks and the bot as they
    are; after [define], [on] of an identifier with the same name returns,
    the callback is stored under the name, and the definition stays. *)
Theorem X25_defined_manager (Bot Callback D : Type)
  (id id' : string) (data : D) (callback : Callback)
  (m : @DefinedActionManager.t Bot Callback D) :
  let name := raw_id_of id in
  let defined := store_after (DefinedActionManager.define id data) m in
  let registered :=
    store_after (DefinedActionManager.define id data;;;
                 DefinedActionManager.on id' callback) m in
  (JsMapOf.has String.eqb (DefinedActionManager._definitions m) name = false ->
   run (DefinedActionManager.on id callback) m
   = (Throw (Raised (VStr ("Missing associated definition for " ++ name))), m))
  /\ (run (DefinedActionManager.define id data) m = (Ok tt, defined)
      /\ DefinedActionManager.base defined = DefinedActionManager.base m
      /\ JsMapOf.get String.eqb (DefinedActionManager._definitions defined) name
         = Some data)
  /\ (raw_id_of id' = name ->
      run (DefinedActionManager.define id data;;;
           DefinedActionManager.on id' callback) m = (Ok tt, registered)
      /\ JsMapOf.get String.eqb
           (BaseActionManager._callbacks (DefinedActionManager.base registered))
           name = Some callback
      /\ BaseActionManager._bot (DefinedActionManager.base registered)
         = BaseActionManager._bot (DefinedActionManager.base m)
      /\ DefinedActionManager._definitions registered
         = DefinedActionManager._definitions defined).
Proof.
  intros name defined registered.
  assert (Hdefined :
            defined
            = DefinedActionManager.mk (DefinedActionManager.base m)
                (JsMapOf.set String.eqb (DefinedActionManager._definitions m)
                             name data)) by reflexivity.
  split; [| split].
  - intros Hno. unfold run, DefinedActionManager.on.
    unfold bind at 1. unfold get_store at 1. cbv beta iota zeta.
    cbn [store]. fold name. rewrite Hno. reflexivity.
  - split; [reflexivity |]. split; [now rewrite Hdefined |].
    rewrite Hdefined. cbn [DefinedActionManager._definitions].
    apply (@JsMapOf_get_set _ _ String.eqb string_eqb_eq).
  - intros Hname.
    assert (Hhas : JsMapOf.has String.eqb
                     (DefinedActionManager._definitions defined) name = true).
    { rewrite JsMapOf_has_get, Hdefined.
      cbn [DefinedActionManager._definitions].
      now rewrite (@JsMapOf_get_set _ _ String.eqb string_eqb_eq). }
    assert (Hrun :
              run (DefinedActionManager.define id data;;;
                   DefinedActionManager.on id' callback) m
              = (Ok tt,
                 DefinedActionManager.mk
                   (BaseActionManager.mk
                      (BaseActionManager._bot (DefinedActionManager.base m))
                      (JsMapOf.set String.eqb
                         (BaseActionManager._callbacks
                            (DefinedActionManager.base m)) name callback))
                   (DefinedActionManager._definitions defined))).
    { unfold run. unfold bind at 1.
      change (DefinedActionManager.define id data (mkWorld 0 m))
        with (Ok tt, mkWorld 0 defined) at 1.
      cbv beta iota. unfold DefinedActionManager.on.
      unfold bind at 1. unfold get_store at 1. cbv beta iota zeta.
      cbn [store]. rewrite Hname, Hhas. cbn [negb].
      rewrite Hdefined.
      unfold DefinedActionManager.on_base, zoom, BaseActionManager.on,
        bind, get_store, put_store.
      cbn [store allocated DefinedActionManager.base
           DefinedActionManager._definitions].
      unfold name. rewrite raw_id_of_idem. reflexivity. }
    assert (Hregistered :
              registered
              = DefinedActionManager.mk
                  (BaseActionManager.mk
                     (BaseActionManager._bot (DefinedActionManager.base m))
                     (JsMapOf.set String.eqb
                        (BaseActionManager._callbacks
                           (DefinedActionManager.base m)) name callback))
                  (DefinedActionManager._definitions defined))
      by (unfold registered, store_after; now rewrite Hrun).
    split; [now rewrite Hrun, Hregistered |].
    rewrite Hregistered.
    cbn [DefinedActionManager.base DefinedActionManager._definitions
         BaseActionManager._callbacks BaseActionManager._bot].
    split; [apply (@JsMapOf_get_set _ _ String.eqb string_eqb_eq) |].
    split; reflexivity.
Qed.

(** X25 at work: [on] before and after [define]. *)
Lemma X25_defined_manager_witness :
  let m : @DefinedActionManager.t (list string) sample_callback nat :=
    DefinedActionManager.mk (BaseActionManager.mk [] []) [] in
  result_of (DefinedActionManager.on "ping" SaysData) m
  = Throw (Raised (VStr "Missing associated definition for ping"))
  /\ result_of (DefinedActionManager.define "ping" 7;;;
                DefinedActionManager.on "ping;now" SaysData) m
     = Ok tt.
Proof.
  intros m.
  destruct (@X25_defined_manager (list string) sample_callback nat
              "ping" "ping;now" 7 SaysData m)
    as (Hmissing & _ & Hdefined).
  split.
  - exact (f_equal fst (Hmissing eq_refl)).
  - destruct (Hdefined eq_refl) as (Hrun & _). exact (f_equal fst Hrun).
Defined.

(* ================================================================== *)
(** ** The timer *)
(* ================================================================== *)

Lemma nat_eqb_eq (a b : nat) : Nat.eqb a b = true <-> a = b.
Proof. apply Nat.eqb_eq. Qed.

(** X26.  The callbacks of the timer, the identifiers in the registry
    being symbols made earlier.  [add] returns a new symbol, puts the
    callback after the callbacks already there, which keep their order,
    and does nothing to the client; the symbols of the registry are again
    symbols made earlier.  [remove] of the symbol [add] returned gives
    [true] and the registry as it was before [add]; [remove] of a symbol
    that is not in the registry gives [false] and changes nothing. *)
Theorem X26_timer_add_remove (Client TimerCallback : Type)
  (callback : TimerCallback) (w : World (Timer.t Client TimerCallback)) :
  Forall (fun id => id < allocated w)
         (map fst (Timer.__callbacks (store w))) ->
  let w1 := snd (Timer.add callback w) in
  Timer.add callback w = (Ok (allocated w), w1)
  /\ JsMapOf.values (Timer.__callbacks (store w1))
     = (JsMapOf.values (Timer.__callbacks (store w)) ++ [callback])%list
  /\ Timer.__client (store w1) = Timer.__client (store w)
  /\ Forall (fun id => id < allocated w1)
            (map fst (Timer.__callbacks (store w1)))
  /\ Timer.remove (allocated w) w1
     = (Ok true, mkWorld (allocated w1) (store w))
  /\ (forall id,
        JsMapOf.has Nat.eqb (Timer.__callbacks (store w)) id = false ->
        Timer.remove id w = (Ok false, w)).
Proof.
  intros Hinv w1.
  assert (Hnew : JsMapOf.has Nat.eqb (Timer.__callbacks (store w))
                             (allocated w) = false).
  { destruct (JsMapOf.has Nat.eqb (Timer.__callbacks (store w)) (allocated w))
      eqn:E; [| reflexivity].
    apply (@JsMapOf_has_In _ _ Nat.eqb nat_eqb_eq) in E.
    rewrite Forall_forall in Hinv. apply Hinv in E. lia. }
  assert (Hw1 : w1 = mkWorld (S (allocated w))
                       (Timer.mk (Timer.__client (store w))
                          (Timer.__callbacks (store w)
                           ++ [(allocated w, callback)])%list)).
  { unfold w1, Timer.add, bind, new_symbol, get_store, put_store, ret.
    cbn [snd store allocated]. now rewrite (@JsMapOf_set_absent _ _ Nat.eqb _ _ _ Hnew). }
  split; [| split; [| split; [| split; [| split]]]].
  - rewrite Hw1. unfold Timer.add, bind, new_symbol, get_store, put_store, ret.
    cbn [store allocated]. now rewrite (@JsMapOf_set_absent _ _ Nat.eqb _ _ _ Hnew).
  - rewrite Hw1. cbn [store Timer.__callbacks]. unfold JsMapOf.values.
    now rewrite map_app.
  - now rewrite Hw1.
  - rewrite Hw1. cbn [store allocated Timer.__callbacks].
    rewrite map_app. apply Forall_app. split.
    + eapply Forall_impl; [| exact Hinv]. intros id Hid. cbv beta in *. lia.
    + repeat constructor.
  - rewrite Hw1. unfold Timer.remove, bind, get_store, put_store, ret.
    cbn [store allocated Timer.__callbacks Timer.__client].
    rewrite (@JsMapOf_delete_last _ _ Nat.eqb nat_eqb_eq _ _ _ Hnew).
    assert (Hin : JsMapOf.has Nat.eqb
                    (Timer.__callbacks (store w)
                     ++ [(allocated w, callback)])%list (allocated w) = true).
    { apply (@JsMapOf_has_In _ _ Nat.eqb nat_eqb_eq). rewrite map_app. apply in_or_app.
      right. now left. }
    rewrite Hin. now destruct (store w).
  - intros id Hid. unfold Timer.remove, bind, get_store, put_store, ret.
    rewrite (@JsMapOf_delete_absent _ _ Nat.eqb _ _ Hid), Hid.
    destruct w as [n [client callbacks]]. reflexivity.
Qed.

(** X26 at work: a timer with one callback, whose symbol is [0]. *)
Lemma X26_timer_add_remove_witness :
  let w := mkWorld 1 (Timer.mk (Client := list string) [] [(0, "a")]) in
  fst (Timer.add "b" w) = Ok 1
  /\ Timer.remove 1 (snd (Timer.add "b" w))
     = (Ok true, mkWorld 2 (store w)).
Proof.
  intros w.
  assert (Hinv : Forall (fun id => id < allocated w)
                        (map fst (Timer.__callbacks (store w))))
    by (repeat constructor).
  destruct (@X26_timer_add_remove (list string) string "b" w Hinv)
    as (Hadd & _ & _ & _ & Hremove & _).
  split; [exact (f_equal fst Hadd) | exact Hremove].
Defined.

(* ================================================================== *)
(** ** The permission checks of a context *)
(* ================================================================== *)

Section PermissionFacts.

Variables Bot Permission : Type.

Lemma require_loop_run (held : Permission -> bool)
  (permissions : list Permission) (w : World Bot) :
  @Context.require_loop Bot Permission held permissions w
  = if forallb held permissions then (Ok tt, w)
    else (Throw (Raised (VStr "Invalid permissions!")), w).
Proof.
  induction permissions as [| permission rest IH]; [reflexivity |].
  cbn [Context.require_loop forallb].
  destruct (held permission); [exact IH | reflexivity].
Qed.

End PermissionFacts.

(** X28.  The permission checks of a context never change the bot, and
    what they throw is a string.  [require_permissions] returns exactly
    when the interaction has member permissions and they hold every
    permission asked for, and throws ["Invalid permissions!"] otherwise,
    also when no permission is asked for and the interaction has no member
    permissions.  [expect_owner] returns exactly when the interaction has
    a member whose user is the one named by the variable [OWNER]; it
    throws ["Expected member!"] without a member, and
    ["Invalid permissions!"] for another user and whenever the variable is
    not set. *)
Theorem X28_permission_checks (Bot I Permission : Type)
  (memberPermissions : I -> option (Permission -> bool))
  (member_user_id : I -> option string) (OWNER : option string)
  (context : ActionContext I) (permissions : list Permission)
  (w : World Bot) :
  let required :=
    @Context.require_permissions Bot I Permission memberPermissions
      context permissions w in
  let owner := @Context.expect_owner Bot I member_user_id OWNER context w in
  let allowed :=
    match memberPermissions (interaction context) with
    | Some held => forallb held permissions
    | None => false
    end in
  required = (if allowed then (Ok tt, w)
              else (Throw (Raised (VStr "Invalid permissions!")), w))
  /\ (allowed = true <->
      exists held, memberPermissions (interaction context) = Some held
                   /\ forall p, In p permissions -> held p = true)
  /\ owner = match member_user_id (interaction context), OWNER with
             | None, _ => (Throw (Raised (VStr "Expected member!")), w)
             | Some id, Some named =>
                 if String.eqb id named then (Ok tt, w)
                 else (Throw (Raised (VStr "Invalid permissions!")), w)
             | Some _, None =>
                 (Throw (Raised (VStr "Invalid permissions!")), w)
             end
  /\ (owner = (Ok tt, w) <->
      exists id, member_user_id (interaction context) = Some id
                 /\ OWNER = Some id).
Proof.
  intros required owner allowed.
  assert (Howner :
            owner = match member_user_id (interaction context), OWNER with
                    | None, _ => (Throw (Raised (VStr "Expected member!")), w)
                    | Some id, Some named =>
                        if String.eqb id named then (Ok tt, w)
                        else (Throw (Raised (VStr "Invalid permissions!")), w)
                    | Some _, None =>
                        (Throw (Raised (VStr "Invalid permissions!")), w)
                    end).
  { unfold owner, Context.expect_owner, Context.api_member, bind.
    destruct (member_user_id (interaction context)) as [id |];
      [| reflexivity].
    unfold ret, throw. destruct OWNER as [named |]; [| reflexivity].
    now destruct (String.eqb id named). }
  split; [| split; [| split]].
  - unfold required, allowed, Context.require_permissions.
    destruct (memberPermissions (interaction context)) as [held |];
      [apply require_loop_run | reflexivity].
  - unfold allowed.
    destruct (memberPermissions (interaction context)) as [held |].
    + rewrite forallb_forall. split.
      * intros Hall. now exists held.
      * intros (held' & E & Hall). now injection E as <-.
    + split; [discriminate | intros (held & E & _); discriminate].
  - exact Howner.
  - rewrite Howner.
    destruct (member_user_id (interaction context)) as [id |].
    + destruct OWNER as [named |].
      * destruct (String.eqb id named) eqn:E.
        -- apply String.eqb_eq in E. subst named.
           split; [intros _; now exists id | reflexivity].
        -- split; [discriminate |].
           intros (id' & E1 & E2). injection E1 as <-. injection E2 as <-.
           now rewrite String.eqb_refl in E.
      * split; [discriminate | intros (id' & _ & E); discriminate].
    + split; [discriminate | intros (id' & E & _); discriminate].
Qed.

(* ================================================================== *)
(** ** The environment of the client *)
(* ================================================================== *)

(** X29.  The constructor of the client and its getters, for any
    settings.  After the constructor, on the new cache [env], each getter
    returns the value of its setting, or the default when the setting is
    left out: no guild, no global update, the color ["#5865F2"], the header
    ["Wyvern Client"], logs enabled and not stored, a delay of [30000]
    milliseconds; [logs_enabled] is the negation of [silent].  The logger
    is given the color, and the two flags, that the getters return.  The
    environment has the eight keys, in the order of the assignments. *)
Theorem X29_client_environment (settings : ClientSettings.t) :
  let env := store_after (WyvernClient.constructor settings) CacheStorage.new in
  let chosen {A} (field : ClientSettings.t -> option A) (fallback : A) :=
    match field settings with
    | Some a => a
    | None => fallback
    end in
  result_of (WyvernClient.constructor settings) CacheStorage.new
  = Ok (WyvernClient.mkLoggerSetup
          (VStr (chosen ClientSettings.color "#5865F2"))
          (VBool (negb (chosen ClientSettings.silent false)))
          (VBool (chosen ClientSettings.save_logs false)))
  /\ run WyvernClient.token env
     = (Ok (VStr (ClientSettings.token settings)), env)
  /\ run WyvernClient.development_guilds env
     = (Ok (VArr (map VStr (chosen ClientSettings.dev_guilds []))), env)
  /\ run WyvernClient.global_update env
     = (Ok (VBool (chosen ClientSettings.global_update false)), env)
  /\ run WyvernClient.header env
     = (Ok (VStr (chosen ClientSettings.header "Wyvern Client")), env)
  /\ run WyvernClient.color env
     = (Ok (VStr (chosen ClientSettings.color "#5865F2")), env)
  /\ run WyvernClient.logs_enabled env
     = (Ok (VBool (negb (chosen ClientSettings.silent false))), env)
  /\ run WyvernClient.logs_stored env
     = (Ok (VBool (chosen ClientSettings.save_logs false)), env)
  /\ run WyvernClient.timer_delay env
     = (Ok (VNum (chosen ClientSettings.timer_interval 30000%Z)), env)
  /\ map fst env
     = ["token"; "cmd_guilds"; "cmd_global"; "log_color"; "log_header";
        "log_enable"; "log_store"; "timer_delay"].
Proof.
  intros env chosen.
  assert (Henv :
            env
            = [("token", VStr (ClientSettings.token settings));
               ("cmd_guilds",
                VArr (map VStr (chosen _ ClientSettings.dev_guilds [])));
               ("cmd_global",
                VBool (chosen _ ClientSettings.global_update false));
               ("log_color", VStr (chosen _ ClientSettings.color "#5865F2"));
               ("log_header",
                VStr (chosen _ ClientSettings.header "Wyvern Client"));
               ("log_enable",
                VBool (negb (chosen _ ClientSettings.silent false)));
               ("log_store", VBool (chosen _ ClientSettings.save_logs false));
               ("timer_delay",
                VNum (chosen _ ClientSettings.timer_interval 30000%Z))])
    by reflexivity.
  split; [reflexivity |].
  rewrite Henv.
  split; [reflexivity |]. split; [reflexivity |]. split; [reflexivity |].
  split; [reflexivity |]. split; [reflexivity |]. split; [reflexivity |].
  split; [reflexivity |]. split; reflexivity.
Qed.
